(** * Verification of the VMC serial protocol driver (dvm-service)

    Shallow embedding of [app/core/vmc_controller.py] and
    [app/services/dispense_service.py].

    - Python [bytes] are lists of integers in [0, 256).
    - Python exceptions are the [Raise] results of an error monad; methods of
      the controller run in a state-and-exception monad over the controller
      object, so that the mutations made before an exception are kept.
    - Dictionaries are [gmap]s, the command queue is a list.
    - The serial port and the callbacks are observed through a trace kept in
      the controller state. *)

From stdpp Require Import gmap strings list.
From Stdlib Require Import ZArith Lia.

Local Open Scope Z_scope.

(** ** Bytes *)

Abbreviation bytes := (list Z).

Definition is_byte (b : Z) : Prop := 0 <= b < 256.
Definition is_bytes (l : bytes) : Prop := Forall is_byte l.

(** Python's [len]. *)
Definition len {A} (l : list A) : Z := Z.of_nat (length l).

(** ** Exceptions *)

Inductive exn :=
| IndexError
| ValueError
| TypeError
| AttributeError
| StructError
| SerialException.

Inductive result (A : Type) :=
| Ok (a : A)
| Raise (e : exn).
Arguments Ok {A} a.
Arguments Raise {A} e.

Definition rbind {A B} (c : result A) (k : A -> result B) : result B :=
  match c with
  | Ok a => k a
  | Raise e => Raise e
  end.

Notation "'let*' x ':=' c 'in' k" := (rbind c (fun x => k))
  (at level 10, x name, c at level 100, k at level 200, only parsing).

(** [data[i]] for an index that is not negative (every index of this program is
    a constant or a sum of constants and byte values). *)
Definition index (data : bytes) (i : Z) : result Z :=
  match data !! Z.to_nat i with
  | Some b => Ok b
  | None => Raise IndexError
  end.

(** [data[lo:hi]] for bounds that are not negative. *)
Definition slice (data : bytes) (lo hi : Z) : bytes :=
  take (Z.to_nat hi - Z.to_nat lo)%nat (drop (Z.to_nat lo) data).

(** [bytes([...])]: every element has to be in [range(256)]. *)
Definition byte_ok (b : Z) : bool := (0 <=? b) && (b <? 256).

Definition bytes_of (l : list Z) : result bytes :=
  if forallb byte_ok l then Ok l else Raise ValueError.

(** [struct.pack(">H", n)] and [struct.unpack(">H", b)[0]]. *)
Definition struct_pack_H (n : Z) : result bytes :=
  if (0 <=? n) && (n <=? 65535) then Ok [n / 256; n mod 256] else Raise StructError.

Definition struct_unpack_H (b : bytes) : result Z :=
  match b with
  | [hi; lo] => Ok (hi * 256 + lo)
  | _ => Raise StructError
  end.

(** ** Enumerations *)

Module Command.
Inductive t :=
| POLL
| ACK
| CHECK_AISLE
| AISLE_STATUS_RESPONSE
| SELECT_BUY
| DISPENSING_STATUS
| SELECT_AISLE
| DRIVE_AISLE_DIRECT
| AISLE_INFO
| SET_AISLE_PRICE
| SET_AISLE_INVENTORY
| SET_AISLE_CAPACITY
| SET_AISLE_COMMODITY
| POS_DISPLAY
| REQUEST_SYNC
| REQUEST_MACHINE_STATUS
| MACHINE_STATUS_RESPONSE.

Definition value (c : t) : Z :=
  match c with
  | POLL => 0x41
  | ACK => 0x42
  | CHECK_AISLE => 0x01
  | AISLE_STATUS_RESPONSE => 0x02
  | SELECT_BUY => 0x03
  | DISPENSING_STATUS => 0x04
  | SELECT_AISLE => 0x05
  | DRIVE_AISLE_DIRECT => 0x06
  | AISLE_INFO => 0x11
  | SET_AISLE_PRICE => 0x12
  | SET_AISLE_INVENTORY => 0x13
  | SET_AISLE_CAPACITY => 0x14
  | SET_AISLE_COMMODITY => 0x15
  | POS_DISPLAY => 0x24
  | REQUEST_SYNC => 0x31
  | REQUEST_MACHINE_STATUS => 0x51
  | MACHINE_STATUS_RESPONSE => 0x52
  end.

(** [Command(v)]: the member with that value, [ValueError] when there is none. *)
Definition of_value (v : Z) : result t :=
  match v with
  | 0x41 => Ok POLL
  | 0x42 => Ok ACK
  | 0x01 => Ok CHECK_AISLE
  | 0x02 => Ok AISLE_STATUS_RESPONSE
  | 0x03 => Ok SELECT_BUY
  | 0x04 => Ok DISPENSING_STATUS
  | 0x05 => Ok SELECT_AISLE
  | 0x06 => Ok DRIVE_AISLE_DIRECT
  | 0x11 => Ok AISLE_INFO
  | 0x12 => Ok SET_AISLE_PRICE
  | 0x13 => Ok SET_AISLE_INVENTORY
  | 0x14 => Ok SET_AISLE_CAPACITY
  | 0x15 => Ok SET_AISLE_COMMODITY
  | 0x24 => Ok POS_DISPLAY
  | 0x31 => Ok REQUEST_SYNC
  | 0x51 => Ok REQUEST_MACHINE_STATUS
  | 0x52 => Ok MACHINE_STATUS_RESPONSE
  | _ => Raise ValueError
  end.
End Command.

Module AisleStatus.
Inductive t :=
| NORMAL
| OUT_OF_STOCK
| DOESNT_EXIST
| PAUSED.

Definition of_value (v : Z) : result t :=
  match v with
  | 0x01 => Ok NORMAL
  | 0x02 => Ok OUT_OF_STOCK
  | 0x03 => Ok DOESNT_EXIST
  | 0x04 => Ok PAUSED
  | _ => Raise ValueError
  end.

#[global] Instance aisle_status_eq_dec : EqDecision t.
Proof. solve_decision. Defined.
End AisleStatus.

Module DispensingStatus.
Inductive t :=
| DISPENSING
| SUCCESS
| JAMMED
| MOTOR_DOESNT_STOP
| MOTOR_DOESNT_EXIST.

Definition of_value (v : Z) : result t :=
  match v with
  | 0x01 => Ok DISPENSING
  | 0x02 => Ok SUCCESS
  | 0x03 => Ok JAMMED
  | 0x04 => Ok MOTOR_DOESNT_STOP
  | 0x06 => Ok MOTOR_DOESNT_EXIST
  | _ => Raise ValueError
  end.

#[global] Instance dispensing_status_eq_dec : EqDecision t.
Proof. solve_decision. Defined.
End DispensingStatus.

(** A dictionary literal and its [.get(key, default)]; the key may be [None]. *)
Definition dict_get {K V} `{EqDecision K} (d : list (K * V)) (key : option K) (default : V) : V :=
  match key with
  | Some k =>
      match list_find (fun kv => fst kv = k) d with
      | Some (_, kv) => snd kv
      | None => default
      end
  | None => default
  end.

(** ** Framing *)

Definition STX : bytes := [0xFA; 0xFB].

Definition calculate_xor (data : bytes) : Z :=
  fold_left (fun xor byte => Z.lxor xor byte) data 0.

Definition create_packet (command : Command.t) (text : bytes) : result bytes :=
  let length := len text in
  let* header := bytes_of [Command.value command; length] in
  let packet := STX ++ header ++ text in
  let xor := calculate_xor packet in
  let* trailer := bytes_of [xor] in
  Ok (packet ++ trailer).

Definition parse_packet (data : bytes) : result (option (Command.t * bytes)) :=
  if len data <? 5 then Ok None
  else if negb (bool_decide (slice data 0 2 = STX)) then Ok None
  else
    let* command_value := index data 2 in
    let* length := index data 3 in
    if len data <? 5 + length then Ok None
    else
      let text := slice data 4 (4 + length) in
      let* xor_received := index data (4 + length) in
      let xor_calculated := calculate_xor (slice data 0 (4 + length)) in
      if negb (xor_received =? xor_calculated) then Ok None
      else
        match Command.of_value command_value with
        | Ok command => Ok (Some (command, text))
        | Raise ValueError => Ok None
        | Raise e => Raise e
        end.

(** [buffer.find(sub)]: the lowest index where [sub] occurs, [-1] when it does
    not occur. *)
Fixpoint find_from (sub data : bytes) (i : Z) : Z :=
  if bool_decide (take (length sub) data = sub) then i
  else
    match data with
    | [] => -1
    | _ :: data' => find_from sub data' (i + 1)
    end.

Definition find (data sub : bytes) : Z := find_from sub data 0.

(** The framing of [listen_loop]: the [while len(buffer) >= 5] loop run on the
    receive buffer. The result is the list of parsed frames, in the order in
    which the loop hands them to [handle_received_packet], and the buffer the
    loop leaves. [None] is a run that needs more than [fuel] iterations. *)
Fixpoint listen_loop_frames (fuel : nat) (buffer : bytes)
  : option (list (Command.t * bytes) * bytes) :=
  match fuel with
  | O => None
  | S fuel' =>
      if negb (5 <=? len buffer) then Some ([], buffer)
      else
        let stx_index := find buffer STX in
        if stx_index =? -1 then Some ([], [])
        else
          let buffer := if 0 <? stx_index then drop (Z.to_nat stx_index) buffer else buffer in
          if len buffer <? 5 then Some ([], buffer)
          else
            match index buffer 3 with
            | Raise _ => Some ([], buffer)
            | Ok length =>
                let packet_length := 5 + length in
                if len buffer <? packet_length then Some ([], buffer)
                else
                  let packet := slice buffer 0 packet_length in
                  let buffer := drop (Z.to_nat packet_length) buffer in
                  match parse_packet packet with
                  | Raise _ => Some ([], buffer)
                  | Ok None => listen_loop_frames fuel' buffer
                  | Ok (Some parsed) =>
                      match listen_loop_frames fuel' buffer with
                      | Some (frames, rest) => Some (parsed :: frames, rest)
                      | None => None
                      end
                  end
            end
  end.

(** Every iteration that goes on removes at least five bytes, so this much fuel
    is enough (see [decode_terminates]). *)
Definition decode (buffer : bytes) : option (list (Command.t * bytes) * bytes) :=
  listen_loop_frames (S (length buffer)) buffer.

(** ** The controller object *)

(** An [asyncio.Future] of the event loop, by identity. *)
Definition Future := nat.

(** The two closures the service hands to the controller; each one closes over
    the future it resolves. *)
Inductive Callback :=
| on_dispense_result (future : Future)
| on_status_result (future : Future).

Module DispenseResult.
Record t := {
  success : bool;
  aisle_number : Z;
  status : option DispensingStatus.t;
  message : string
}.
End DispenseResult.

(** What the controller does to the outside: a write that the serial port
    accepted, and a call of a registered callback with its arguments. *)
Inductive Effect :=
| Written (data : bytes)
| Called_dispense (callback : Callback) (result : DispenseResult.t)
| Called_status (callback : Callback) (aisle_num : Z) (status : option AisleStatus.t).

(** An entry of [command_queue] (a dictionary with these keys in the source).
    Times are clock readings in milliseconds. *)
Module cmd_info.
Record t := {
  packet : bytes;
  command : Command.t;
  text : bytes;
  retries : Z;
  max_retries : Z;
  waiting_ack : bool;
  sent_time : option Z;
  callback : option Callback;
  callback_key : option Z
}.

Definition set_retries (v : Z) (c : t) : t :=
  {| packet := packet c; command := command c; text := text c; retries := v;
     max_retries := max_retries c; waiting_ack := waiting_ack c;
     sent_time := sent_time c; callback := callback c;
     callback_key := callback_key c |}.

Definition set_waiting_ack (v : bool) (c : t) : t :=
  {| packet := packet c; command := command c; text := text c; retries := retries c;
     max_retries := max_retries c; waiting_ack := v;
     sent_time := sent_time c; callback := callback c;
     callback_key := callback_key c |}.

Definition set_sent_time (v : option Z) (c : t) : t :=
  {| packet := packet c; command := command c; text := text c; retries := retries c;
     max_retries := max_retries c; waiting_ack := waiting_ack c;
     sent_time := v; callback := callback c;
     callback_key := callback_key c |}.
End cmd_info.

Record Serial := { is_open : bool }.

Module VendingMachineController.

Record t := {
  max_retries : Z;
  serial : option Serial;
  comm_number : Z;
  running : bool;
  command_queue : list cmd_info.t;
  dispense_callbacks : gmap Z Callback;
  aisle_status_callbacks : gmap Z Callback;
  _connected : bool;
  trace : list Effect
}.

Definition set_serial (v : option Serial) (self : t) : t :=
  {| max_retries := max_retries self;
     serial := v;
     comm_number := comm_number self;
     running := running self;
     command_queue := command_queue self;
     dispense_callbacks := dispense_callbacks self;
     aisle_status_callbacks := aisle_status_callbacks self;
     _connected := _connected self;
     trace := trace self |}.

Definition set_comm_number (v : Z) (self : t) : t :=
  {| max_retries := max_retries self;
     serial := serial self;
     comm_number := v;
     running := running self;
     command_queue := command_queue self;
     dispense_callbacks := dispense_callbacks self;
     aisle_status_callbacks := aisle_status_callbacks self;
     _connected := _connected self;
     trace := trace self |}.

Definition set_running (v : bool) (self : t) : t :=
  {| max_retries := max_retries self;
     serial := serial self;
     comm_number := comm_number self;
     running := v;
     command_queue := command_queue self;
     dispense_callbacks := dispense_callbacks self;
     aisle_status_callbacks := aisle_status_callbacks self;
     _connected := _connected self;
     trace := trace self |}.

Definition set_command_queue (v : list cmd_info.t) (self : t) : t :=
  {| max_retries := max_retries self;
     serial := serial self;
     comm_number := comm_number self;
     running := running self;
     command_queue := v;
     dispense_callbacks := dispense_callbacks self;
     aisle_status_callbacks := aisle_status_callbacks self;
     _connected := _connected self;
     trace := trace self |}.

Definition set_dispense_callbacks (v : gmap Z Callback) (self : t) : t :=
  {| max_retries := max_retries self;
     serial := serial self;
     comm_number := comm_number self;
     running := running self;
     command_queue := command_queue self;
     dispense_callbacks := v;
     aisle_status_callbacks := aisle_status_callbacks self;
     _connected := _connected self;
     trace := trace self |}.

Definition set_aisle_status_callbacks (v : gmap Z Callback) (self : t) : t :=
  {| max_retries := max_retries self;
     serial := serial self;
     comm_number := comm_number self;
     running := running self;
     command_queue := command_queue self;
     dispense_callbacks := dispense_callbacks self;
     aisle_status_callbacks := v;
     _connected := _connected self;
     trace := trace self |}.

Definition set_connected (v : bool) (self : t) : t :=
  {| max_retries := max_retries self;
     serial := serial self;
     comm_number := comm_number self;
     running := running self;
     command_queue := command_queue self;
     dispense_callbacks := dispense_callbacks self;
     aisle_status_callbacks := aisle_status_callbacks self;
     _connected := v;
     trace := trace self |}.

Definition set_trace (v : list Effect) (self : t) : t :=
  {| max_retries := max_retries self;
     serial := serial self;
     comm_number := comm_number self;
     running := running self;
     command_queue := command_queue self;
     dispense_callbacks := dispense_callbacks self;
     aisle_status_callbacks := aisle_status_callbacks self;
     _connected := _connected self;
     trace := v |}.

(** [VendingMachineController(port, max_retries=...)]. *)
Definition __init__ (max_retries : Z) : t :=
  {| max_retries := max_retries; serial := None; comm_number := 1;
     running := false; command_queue := []; dispense_callbacks := ∅;
     aisle_status_callbacks := ∅; _connected := false; trace := [] |}.

Definition COMMAND_TIMEOUT : Z := 1000.

Definition is_connected (self : t) : bool :=
  _connected self &&
  match serial self with
  | Some s => is_open s
  | None => false
  end.

(** ** The monad of the controller's methods: state, and exceptions that keep
    the state reached when they are raised *)

Definition M (A : Type) : Type := t -> result A * t.

Definition ret {A} (a : A) : M A := fun self => (Ok a, self).

Definition raise {A} (e : exn) : M A := fun self => (Raise e, self).

Definition bind {A B} (c : M A) (k : A -> M B) : M B :=
  fun self =>
    match c self with
    | (Ok a, self') => k a self'
    | (Raise e, self') => (Raise e, self')
    end.

Definition lift {A} (r : result A) : M A := fun self => (r, self).

Definition get : M t := fun self => (Ok self, self).

Definition modify (f : t -> t) : M unit :=
  fun self => (Ok tt, f self).

(** [try: body except Exception: handler]. *)
Definition try_except {A} (body : M A) (handler : exn -> M A) : M A :=
  fun self =>
    match body self with
    | (Ok a, self') => (Ok a, self')
    | (Raise e, self') => handler e self'
    end.

Notation "'let!' x ':=' c 'in' k" := (bind c (fun x => k))
  (at level 10, x name, c at level 100, k at level 200, only parsing).
Notation "c ';;;' k" := (bind c (fun _ => k))
  (at level 100, k at level 200, right associativity, only parsing).

(** [self.serial.write(data)]. The port takes the bytes when it is there, open
    and the transfer works ([io_ok], decided by the environment). *)
Definition serial_write (io_ok : bool) (data : bytes) : M unit :=
  let! self := get in
  match serial self with
  | None => raise AttributeError
  | Some s =>
      if is_open s && io_ok
      then modify (set_trace (trace self ++ [Written data]))
      else raise SerialException
  end.

(** A call of a callback: the model records it. *)
Definition call (e : Effect) : M unit :=
  modify (fun self => set_trace (trace self ++ [e]) self).

Definition send_ack (io_ok : bool) : M bool :=
  let! ack_packet := lift (create_packet Command.ACK []) in
  try_except
    (serial_write io_ok ack_packet ;;; ret true)
    (fun _ => ret false).

Definition get_next_comm_number : M Z :=
  let! self := get in
  let current := comm_number self in
  modify (set_comm_number (comm_number self mod 255 + 1)) ;;;
  ret current.

Definition queue_command (command : Command.t) (text : bytes)
    (callback : option Callback) (callback_key : option Z) : M unit :=
  let! packet := lift (create_packet command text) in
  let! self := get in
  modify (set_command_queue
    (command_queue self ++
     [ {| cmd_info.packet := packet;
          cmd_info.command := command;
          cmd_info.text := text;
          cmd_info.retries := 0;
          cmd_info.max_retries := max_retries self;
          cmd_info.waiting_ack := false;
          cmd_info.sent_time := None;
          cmd_info.callback := callback;
          cmd_info.callback_key := callback_key |} ])).

(** [now] is the reading of [time.time()] during the call. *)
Definition handle_poll (now : Z) (io_ok : bool) : M unit :=
  (let! self := get in
   match command_queue self with
  | cmd_info :: rest =>
      if cmd_info.waiting_ack cmd_info then
        match cmd_info.sent_time cmd_info with
        | None => raise TypeError
        | Some sent_time =>
            if COMMAND_TIMEOUT <? now - sent_time then
              let cmd_info := cmd_info.set_retries (cmd_info.retries cmd_info + 1) cmd_info in
              if cmd_info.max_retries cmd_info <=? cmd_info.retries cmd_info
              then modify (set_command_queue rest)
              else modify (set_command_queue (cmd_info.set_waiting_ack false cmd_info :: rest))
            else ret tt
        end
      else ret tt
  | [] => ret tt
  end) ;;;
  let! self := get in
  match command_queue self with
  | cmd_info :: rest =>
      if negb (cmd_info.waiting_ack cmd_info) then
        try_except
          (serial_write io_ok (cmd_info.packet cmd_info) ;;;
           modify (set_command_queue
             (cmd_info.set_sent_time (Some now)
                (cmd_info.set_waiting_ack true cmd_info) :: rest)))
          (fun _ => ret tt)
      else send_ack io_ok ;;; ret tt
  | [] => send_ack io_ok ;;; ret tt
  end.

Definition handle_dispensing_status (data : bytes) : M unit :=
  if len data <? 4 then ret tt
  else
    let! comm_num := lift (index data 0) in
    let! status_code := lift (index data 1) in
    let! aisle_num := lift (struct_unpack_H (slice data 2 4)) in
    let! status :=
      match DispensingStatus.of_value status_code with
      | Ok s => ret (Some s)
      | Raise ValueError => ret None
      | Raise e => raise e
      end in
    let! self := get in
    match dispense_callbacks self !! aisle_num with
    | Some callback =>
        modify (set_dispense_callbacks (delete aisle_num (dispense_callbacks self))) ;;;
        match status with
        | Some DispensingStatus.SUCCESS =>
            call (Called_dispense callback
              {| DispenseResult.success := true;
                 DispenseResult.aisle_number := aisle_num;
                 DispenseResult.status := status;
                 DispenseResult.message := "Dispense successful" |})
        | Some DispensingStatus.DISPENSING =>
            let! self := get in
            modify (set_dispense_callbacks (<[aisle_num := callback]> (dispense_callbacks self)))
        | _ =>
            let status_messages :=
              [ (DispensingStatus.JAMMED, "Product jammed");
                (DispensingStatus.MOTOR_DOESNT_STOP, "Motor error - doesn't stop");
                (DispensingStatus.MOTOR_DOESNT_EXIST, "Motor not found") ] in
            call (Called_dispense callback
              {| DispenseResult.success := false;
                 DispenseResult.aisle_number := aisle_num;
                 DispenseResult.status := status;
                 DispenseResult.message := dict_get status_messages status "Unknown error" |})
        end
    | None => ret tt
    end.

Definition handle_aisle_status_response (data : bytes) : M unit :=
  if len data <? 4 then ret tt
  else
    let! comm_num := lift (index data 0) in
    let! status_code := lift (index data 1) in
    let! aisle_num := lift (struct_unpack_H (slice data 2 4)) in
    let! status :=
      match AisleStatus.of_value status_code with
      | Ok s => ret (Some s)
      | Raise ValueError => ret None
      | Raise e => raise e
      end in
    let! self := get in
    match aisle_status_callbacks self !! aisle_num with
    | Some callback =>
        modify (set_aisle_status_callbacks (delete aisle_num (aisle_status_callbacks self))) ;;;
        call (Called_status callback aisle_num status)
    | None => ret tt
    end.

Definition request_info_sync : M bool :=
  let! comm_num := get_next_comm_number in
  let! text := lift (bytes_of [comm_num]) in
  queue_command Command.REQUEST_SYNC text None None ;;;
  ret true.

Definition handle_received_packet (command : Command.t) (text : bytes)
    (now : Z) (io_ok : bool) : M unit :=
  match command with
  | Command.POLL => handle_poll now io_ok
  | Command.ACK =>
      let! self := get in
      match command_queue self with
      | cmd_info :: rest =>
          if cmd_info.waiting_ack cmd_info
          then modify (set_command_queue rest)
          else ret tt
      | [] => ret tt
      end
  | Command.DISPENSING_STATUS =>
      handle_dispensing_status text ;;;
      send_ack io_ok ;;; ret tt
  | Command.AISLE_STATUS_RESPONSE =>
      handle_aisle_status_response text ;;;
      send_ack io_ok ;;; ret tt
  | Command.AISLE_INFO => send_ack io_ok ;;; ret tt
  | Command.REQUEST_SYNC =>
      send_ack io_ok ;;;
      request_info_sync ;;; ret tt
  | Command.MACHINE_STATUS_RESPONSE => send_ack io_ok ;;; ret tt
  | Command.POS_DISPLAY => send_ack io_ok ;;; ret tt
  | _ => send_ack io_ok ;;; ret tt
  end.

Definition check_aisle (aisle_number : Z) (callback : option Callback) : M bool :=
  let! comm_num := get_next_comm_number in
  let! aisle_bytes := lift (struct_pack_H aisle_number) in
  let! prefix := lift (bytes_of [comm_num]) in
  let text := prefix ++ aisle_bytes in
  match callback with
  | Some cb =>
      modify (fun self =>
        set_aisle_status_callbacks (<[aisle_number := cb]> (aisle_status_callbacks self)) self)
  | None => ret tt
  end ;;;
  queue_command Command.CHECK_AISLE text None None ;;;
  ret true.

Definition dispense (aisle_number : Z) (callback : option Callback) : M bool :=
  let! comm_num := get_next_comm_number in
  let! aisle_bytes := lift (struct_pack_H aisle_number) in
  let! prefix := lift (bytes_of [comm_num]) in
  let text := prefix ++ aisle_bytes in
  match callback with
  | Some cb =>
      modify (fun self =>
        set_dispense_callbacks (<[aisle_number := cb]> (dispense_callbacks self)) self)
  | None => ret tt
  end ;;;
  queue_command Command.SELECT_BUY text None None ;;;
  ret true.

Definition drive_aisle_direct (aisle_number : Z) (use_drop_sensor use_elevator : bool)
    (callback : option Callback) : M bool :=
  let! comm_num := get_next_comm_number in
  let sensor := if use_drop_sensor then 1 else 0 in
  let elevator := if use_elevator then 1 else 0 in
  let! aisle_bytes := lift (struct_pack_H aisle_number) in
  let! prefix := lift (bytes_of [comm_num; sensor; elevator]) in
  let text := prefix ++ aisle_bytes in
  match callback with
  | Some cb =>
      modify (fun self =>
        set_dispense_callbacks (<[aisle_number := cb]> (dispense_callbacks self)) self)
  | None => ret tt
  end ;;;
  queue_command Command.DRIVE_AISLE_DIRECT text None None ;;;
  ret true.

Definition set_aisle_inventory (aisle_number inventory : Z) : M bool :=
  let! comm_num := get_next_comm_number in
  let! aisle_bytes := lift (struct_pack_H aisle_number) in
  let! prefix := lift (bytes_of [comm_num]) in
  let! suffix := lift (bytes_of [inventory]) in
  let text := prefix ++ aisle_bytes ++ suffix in
  queue_command Command.SET_AISLE_INVENTORY text None None ;;;
  ret true.

Definition request_machine_status : M bool :=
  let! comm_num := get_next_comm_number in
  let! text := lift (bytes_of [comm_num]) in
  queue_command Command.REQUEST_MACHINE_STATUS text None None ;;;
  ret true.

(** [opened] tells whether [serial.Serial(...)] opens the port or raises. *)
Definition connect (opened : bool) : M bool :=
  try_except
    ((if opened then modify (set_serial (Some {| is_open := true |}))
      else raise SerialException) ;;;
     modify (set_connected true) ;;;
     ret true)
    (fun _ => modify (set_connected false) ;;; ret false).

(** The link loop thread itself is not part of the state; [running] is. *)
Definition stop : M unit := modify (set_running false).

Definition disconnect : M unit :=
  stop ;;;
  (let! self := get in
   match serial self with
   | Some s =>
       if is_open s then modify (set_serial (Some {| is_open := false |})) else ret tt
   | None => ret tt
   end) ;;;
  modify (set_connected false).

Definition start : M bool :=
  let! self := get in
  if negb (match serial self with Some s => is_open s | None => false end)
  then ret false
  else
    modify (set_running true) ;;;
    request_info_sync ;;;
    ret true.

End VendingMachineController.

Import VendingMachineController.

(** ** The request facade ([DispenseService]) *)

Module DispenseStatusEnum.
Inductive t :=
| PENDING
| DISPENSING
| SUCCESS
| FAILED
| JAMMED
| MOTOR_ERROR
| NOT_FOUND.
End DispenseStatusEnum.

Module AisleStatusEnum.
Inductive t :=
| NORMAL
| OUT_OF_STOCK
| NOT_EXIST
| PAUSED.
End AisleStatusEnum.

Module DispenseRequest.
Record t := {
  aisle_number : Z;
  use_drop_sensor : bool;
  use_elevator : bool;
  force : bool
}.
End DispenseRequest.

Module DispenseResponse.
Record t := {
  success : bool;
  aisle_number : Z;
  status : DispenseStatusEnum.t;
  message : string;
  transaction_id : option string
}.
End DispenseResponse.

Module AisleStatusResponse.
Record t := {
  aisle_number : Z;
  status : AisleStatusEnum.t;
  message : string
}.
End AisleStatusResponse.

(** How [await asyncio.wait_for(future, timeout)] ends. *)
Inductive Awaited (R : Type) :=
| Done (result : R)
| TimeoutError
| Exception (e : exn).
Arguments Done {R} result.
Arguments TimeoutError {R}.
Arguments Exception {R} e.

(** An [async def] with one [await]: it returns before the await, or it
    suspends on [future] and is resumed with the outcome of the await in the
    state the object has by then. *)
Inductive Coroutine (S R A : Type) :=
| Return (a : A)
| Await (future : Future) (timeout : Z) (resume : Awaited R -> S -> A * S).
Arguments Return {S R A} a.
Arguments Await {S R A} future timeout resume.

Module DispenseService.

Record t := {
  controller : VendingMachineController.t;
  _pending_dispenses : gmap Z Future;
  _pending_status_checks : gmap Z Future
}.

Definition __init__ (controller : VendingMachineController.t) : t :=
  {| controller := controller; _pending_dispenses := ∅; _pending_status_checks := ∅ |}.

Definition set_controller (v : VendingMachineController.t) (self : t) : t :=
  {| controller := v; _pending_dispenses := _pending_dispenses self;
     _pending_status_checks := _pending_status_checks self |}.

Definition set_pending_dispenses (v : gmap Z Future) (self : t) : t :=
  {| controller := controller self; _pending_dispenses := v;
     _pending_status_checks := _pending_status_checks self |}.

Definition set_pending_status_checks (v : gmap Z Future) (self : t) : t :=
  {| controller := controller self; _pending_dispenses := _pending_dispenses self;
     _pending_status_checks := v |}.

Definition _map_dispense_status (status : option DispensingStatus.t) : DispenseStatusEnum.t :=
  let mapping :=
    [ (DispensingStatus.DISPENSING, DispenseStatusEnum.DISPENSING);
      (DispensingStatus.SUCCESS, DispenseStatusEnum.SUCCESS);
      (DispensingStatus.JAMMED, DispenseStatusEnum.JAMMED);
      (DispensingStatus.MOTOR_DOESNT_STOP, DispenseStatusEnum.MOTOR_ERROR);
      (DispensingStatus.MOTOR_DOESNT_EXIST, DispenseStatusEnum.NOT_FOUND) ] in
  dict_get mapping status DispenseStatusEnum.FAILED.

Definition _map_aisle_status (status : option AisleStatus.t) : AisleStatusEnum.t :=
  let mapping :=
    [ (AisleStatus.NORMAL, AisleStatusEnum.NORMAL);
      (AisleStatus.OUT_OF_STOCK, AisleStatusEnum.OUT_OF_STOCK);
      (AisleStatus.DOESNT_EXIST, AisleStatusEnum.NOT_EXIST);
      (AisleStatus.PAUSED, AisleStatusEnum.PAUSED) ] in
  dict_get mapping status AisleStatusEnum.NOT_EXIST.

Section methods.

(** [str(e)], the text of an exception. *)
Variable str : exn -> string.

(** [uuid4_hex] is [uuid.uuid4().hex] and [future] the future made by
    [loop.create_future()]. *)
Definition dispense (request : DispenseRequest.t) (timeout : Z)
    (uuid4_hex : string) (future : Future) (self : t)
  : Coroutine t DispenseResult.t DispenseResponse.t * t :=
  let aisle := DispenseRequest.aisle_number request in
  if negb (VendingMachineController.is_connected (controller self)) then
    (Return
       {| DispenseResponse.success := false;
          DispenseResponse.aisle_number := aisle;
          DispenseResponse.status := DispenseStatusEnum.FAILED;
          DispenseResponse.message := "VMC not connected";
          DispenseResponse.transaction_id := None |},
     self)
  else
    let transaction_id := String.append "txn_" (String.substring 0 12 uuid4_hex) in
    let on_dispense_result := on_dispense_result future in
    let self := set_pending_dispenses (<[aisle := future]> (_pending_dispenses self)) self in
    let finally (r : DispenseResponse.t) (self : t) :=
      (r, set_pending_dispenses (delete aisle (_pending_dispenses self)) self) in
    let failed (message : string) :=
      {| DispenseResponse.success := false;
         DispenseResponse.aisle_number := aisle;
         DispenseResponse.status := DispenseStatusEnum.FAILED;
         DispenseResponse.message := message;
         DispenseResponse.transaction_id := Some transaction_id |} in
    let submitted :=
      (if DispenseRequest.force request
       then VendingMachineController.drive_aisle_direct aisle
              (DispenseRequest.use_drop_sensor request)
              (DispenseRequest.use_elevator request)
              (Some on_dispense_result)
       else VendingMachineController.dispense aisle (Some on_dispense_result))
        (controller self) in
    let self := set_controller (snd submitted) self in
    match fst submitted with
    | Raise e =>
        let (r, self) := finally (failed (str e)) self in
        (Return r, self)
    | Ok _ =>
        (Await future timeout (fun awaited self =>
           match awaited with
           | Done result =>
               finally
                 {| DispenseResponse.success := DispenseResult.success result;
                    DispenseResponse.aisle_number := DispenseResult.aisle_number result;
                    DispenseResponse.status :=
                      _map_dispense_status (DispenseResult.status result);
                    DispenseResponse.message := DispenseResult.message result;
                    DispenseResponse.transaction_id := Some transaction_id |}
                 self
           | TimeoutError => finally (failed "Operation timed out") self
           | Exception e => finally (failed (str e)) self
           end),
         self)
    end.

Definition check_aisle_status (aisle_number : Z) (timeout : Z)
    (future : Future) (self : t)
  : Coroutine t (Z * option AisleStatus.t) AisleStatusResponse.t * t :=
  if negb (VendingMachineController.is_connected (controller self)) then
    (Return
       {| AisleStatusResponse.aisle_number := aisle_number;
          AisleStatusResponse.status := AisleStatusEnum.NOT_EXIST;
          AisleStatusResponse.message := "VMC not connected" |},
     self)
  else
    let on_status_result := on_status_result future in
    let self :=
      set_pending_status_checks (<[aisle_number := future]> (_pending_status_checks self)) self in
    let finally (r : AisleStatusResponse.t) (self : t) :=
      (r, set_pending_status_checks (delete aisle_number (_pending_status_checks self)) self) in
    let not_exist (message : string) :=
      {| AisleStatusResponse.aisle_number := aisle_number;
         AisleStatusResponse.status := AisleStatusEnum.NOT_EXIST;
         AisleStatusResponse.message := message |} in
    let submitted := VendingMachineController.check_aisle aisle_number (Some on_status_result) (controller self) in
    let self := set_controller (snd submitted) self in
    match fst submitted with
    | Raise e =>
        let (r, self) := finally (not_exist (str e)) self in
        (Return r, self)
    | Ok _ =>
        (Await future timeout (fun awaited self =>
           match awaited with
           | Done (aisle_num, status) =>
               let status_messages :=
                 [ (AisleStatus.NORMAL, "Aisle is ready");
                   (AisleStatus.OUT_OF_STOCK, "Aisle is out of stock");
                   (AisleStatus.DOESNT_EXIST, "Aisle does not exist");
                   (AisleStatus.PAUSED, "Aisle is paused") ] in
               finally
                 {| AisleStatusResponse.aisle_number := aisle_num;
                    AisleStatusResponse.status := _map_aisle_status status;
                    AisleStatusResponse.message :=
                      dict_get status_messages status "Unknown status" |}
                 self
           | TimeoutError => finally (not_exist "Status check timed out") self
           | Exception e => finally (not_exist (str e)) self
           end),
         self)
    end.

End methods.
End DispenseService.

(** ** The application: services, endpoints, lifespan
    ([app/api/deps.py], [app/api/v1/endpoints], [app/main.py]) *)

(** The settings that the modelled code reads. *)
Record Settings := {
  serial_port : string;
  vmc_max_retries : Z
}.

Module HealthResponse.
Record t := {
  status : string;
  vmc_connected : bool;
  serial_port : string
}.
End HealthResponse.

(** What an endpoint raises: [HTTPException(status_code, detail)], or the
    [ValidationError] of a [DispenseRequest] that fails its [ge=1] bound. *)
Inductive ApiError :=
| HTTPException (status_code : Z) (detail : string)
| ValidationError.

Module deps.

(** The two globals of the module. [init_services] builds the service on the
    controller object that [_vmc_controller] names, and [cleanup_services]
    clears both, so the one controller object is kept where the service holds
    it: [None] is both globals [None]. *)
Definition t := option DispenseService.t.

Definition init_services (controller : VendingMachineController.t) (g : t) : t :=
  Some (DispenseService.__init__ controller).

Definition get_vmc_controller (g : t) : option VendingMachineController.t :=
  match g with
  | Some service => Some (DispenseService.controller service)
  | None => None
  end.

Definition get_dispense_service (g : t) : option DispenseService.t := g.

Definition cleanup_services (g : t) : t :=
  match g with
  | Some service =>
      let disconnected := snd (disconnect (DispenseService.controller service)) in
      None
  | None => None
  end.

End deps.

Module endpoints.

Definition HTTP_503_SERVICE_UNAVAILABLE : Z := 503.

Section handlers.

Variable str : exn -> string.

(** [POST /dispense]; the timeout is the default of [DispenseService.dispense],
    30 s. *)
Definition dispense_product (request : DispenseRequest.t)
    (uuid4_hex : string) (future : Future) (g : deps.t)
  : (ApiError + Coroutine DispenseService.t DispenseResult.t DispenseResponse.t) * deps.t :=
  match deps.get_dispense_service g with
  | None => (inl (HTTPException HTTP_503_SERVICE_UNAVAILABLE "VMC service not initialized"), g)
  | Some service =>
      let (response, service) :=
        DispenseService.dispense str request 30000 uuid4_hex future service in
      (inr response, Some service)
  end.

(** [GET /aisle/{aisle_number}/status]; default timeout 10 s. *)
Definition get_aisle_status (aisle_number : Z) (future : Future) (g : deps.t)
  : (ApiError + Coroutine DispenseService.t (Z * option AisleStatus.t) AisleStatusResponse.t)
    * deps.t :=
  match deps.get_dispense_service g with
  | None => (inl (HTTPException HTTP_503_SERVICE_UNAVAILABLE "VMC service not initialized"), g)
  | Some service =>
      let (response, service) :=
        DispenseService.check_aisle_status str aisle_number 10000 future service in
      (inr response, Some service)
  end.

(** [POST /aisle/{aisle_number}/dispense]: the request object is built, and
    validated, before the service is looked up. *)
Definition dispense_from_aisle (aisle_number : Z) (force : bool)
    (uuid4_hex : string) (future : Future) (g : deps.t)
  : (ApiError + Coroutine DispenseService.t DispenseResult.t DispenseResponse.t) * deps.t :=
  if aisle_number <? 1 then (inl ValidationError, g)
  else
    let request :=
      {| DispenseRequest.aisle_number := aisle_number;
         DispenseRequest.use_drop_sensor := true;
         DispenseRequest.use_elevator := false;
         DispenseRequest.force := force |} in
    match deps.get_dispense_service g with
    | None => (inl (HTTPException HTTP_503_SERVICE_UNAVAILABLE "VMC service not initialized"), g)
    | Some service =>
        let (response, service) :=
          DispenseService.dispense str request 30000 uuid4_hex future service in
        (inr response, Some service)
    end.

End handlers.

End endpoints.

Module health.

(** [GET /health] and [GET /ready]. *)
Definition health_check (settings : Settings) (g : deps.t) : HealthResponse.t :=
  let controller := deps.get_vmc_controller g in
  {| HealthResponse.status := "healthy";
     HealthResponse.vmc_connected :=
       match controller with
       | Some c => is_connected c
       | None => false
       end;
     HealthResponse.serial_port := serial_port settings |}.

Definition readiness_check (g : deps.t) : bool * string :=
  let controller := deps.get_vmc_controller g in
  let is_ready :=
    match controller with
    | Some c => is_connected c
    | None => false
    end in
  (is_ready, if is_ready then "Service ready" else "VMC not connected").

End health.

(** The start of [lifespan] in [app/main.py], up to its [yield]: [opened] tells
    whether the serial port opens. *)
Definition lifespan_startup (settings : Settings) (opened : bool) (g : deps.t)
  : result deps.t :=
  let controller := VendingMachineController.__init__ (vmc_max_retries settings) in
  match connect opened controller with
  | (Raise e, _) => Raise e
  | (Ok true, controller) =>
      match start controller with
      | (Raise e, _) => Raise e
      | (Ok _, controller) => Ok (deps.init_services controller g)
      end
  | (Ok false, controller) => Ok (deps.init_services controller g)
  end.

(** The end of [lifespan], after its [yield]. *)
Definition lifespan_shutdown (g : deps.t) : deps.t := deps.cleanup_services g.

(** ** Runs *)

(** The controller after [n] calls of [get_next_comm_number], and the value
    that the [k]-th call returns ([k] counted from 1). *)
Fixpoint after_calls (n : nat) (self : VendingMachineController.t)
  : VendingMachineController.t :=
  match n with
  | O => self
  | S n' => after_calls n' (snd (get_next_comm_number self))
  end.

Definition kth_comm_number (k : nat) (self : VendingMachineController.t) : result Z :=
  fst (get_next_comm_number (after_calls (k - 1) self)).

(** What happens to a controller: the calls of its submission methods, made by
    the callers, and the frames that the link loop hands to
    [handle_received_packet]. *)
Inductive Event :=
| Call_connect (opened : bool)
| Call_disconnect
| Call_start
| Call_stop
| Call_queue_command (command : Command.t) (text : bytes)
    (callback : option Callback) (callback_key : option Z)
| Call_request_info_sync
| Call_check_aisle (aisle_number : Z) (callback : option Callback)
| Call_dispense (aisle_number : Z) (callback : option Callback)
| Call_drive_aisle_direct (aisle_number : Z) (use_drop_sensor use_elevator : bool)
    (callback : option Callback)
| Call_set_aisle_inventory (aisle_number inventory : Z)
| Call_request_machine_status
| Received (command : Command.t) (text : bytes) (now : Z) (io_ok : bool).

(** The state after an event; a call that raises leaves the state it reached. *)
Definition step (e : Event) (self : VendingMachineController.t)
  : VendingMachineController.t :=
  match e with
  | Call_connect opened => snd (connect opened self)
  | Call_disconnect => snd (disconnect self)
  | Call_start => snd (start self)
  | Call_stop => snd (stop self)
  | Call_queue_command command text callback callback_key =>
      snd (queue_command command text callback callback_key self)
  | Call_request_info_sync => snd (request_info_sync self)
  | Call_check_aisle aisle_number callback =>
      snd (check_aisle aisle_number callback self)
  | Call_dispense aisle_number callback =>
      snd (dispense aisle_number callback self)
  | Call_drive_aisle_direct aisle_number use_drop_sensor use_elevator callback =>
      snd (drive_aisle_direct aisle_number use_drop_sensor use_elevator callback self)
  | Call_set_aisle_inventory aisle_number inventory =>
      snd (set_aisle_inventory aisle_number inventory self)
  | Call_request_machine_status => snd (request_machine_status self)
  | Received command text now io_ok =>
      snd (handle_received_packet command text now io_ok self)
  end.

Definition run (events : list Event) (self : VendingMachineController.t)
  : VendingMachineController.t :=
  fold_left (fun self e => step e self) events self.

(** The entries of a queue that are in flight. *)
Definition in_flight (queue : list cmd_info.t) : list cmd_info.t :=
  filter (fun c => cmd_info.waiting_ack c = true) queue.

(** ** Statements *)

(** The message that goes with the status code of a terminal DISPENSING_STATUS
    frame, listed by status code as the specification does (the text for 0x04
    is the one of the code, with an ASCII hyphen). *)
Definition terminal_message (status_code : Z) : string :=
  if decide (status_code = 0x02) then "Dispense successful"
  else if decide (status_code = 0x03) then "Product jammed"
  else if decide (status_code = 0x04) then "Motor error - doesn't stop"
  else if decide (status_code = 0x06) then "Motor not found"
  else "Unknown error".

(** Only the head of the queue may be in flight. *)
Definition queue_inv (queue : list cmd_info.t) : Prop :=
  Forall (fun c => cmd_info.waiting_ack c = false) (tail queue).

(** A method keeps [queue_inv], whether it returns or raises. *)
Definition preserves {A} (m : M A) : Prop :=
  forall self,
    queue_inv (command_queue self) -> queue_inv (command_queue (snd (m self))).


(** What holds of every entry of the queue of a controller that was built by
    [__init__ max] and used through its methods. *)
Definition entry_wf (max : Z) (c : cmd_info.t) : Prop :=
  create_packet (cmd_info.command c) (cmd_info.text c) = Ok (cmd_info.packet c) /\
  cmd_info.max_retries c = max /\
  0 <= cmd_info.retries c /\
  (cmd_info.retries c = 0 \/ cmd_info.retries c < max) /\
  (cmd_info.waiting_ack c = true -> is_Some (cmd_info.sent_time c)).

Definition wf (max : Z) (self : VendingMachineController.t) : Prop :=
  max_retries self = max /\
  1 <= comm_number self <= 255 /\
  Forall (entry_wf max) (command_queue self).

(** A method keeps a property of the controller, whether it returns or raises. *)
Definition keeps (P : VendingMachineController.t -> Prop) {A} (m : M A) : Prop :=
  forall self, P self -> P (snd (m self)).

(** A method relates the controller before to the controller after. *)
Definition relates (R : VendingMachineController.t -> VendingMachineController.t -> Prop)
    {A} (m : M A) : Prop :=
  forall self, R self (snd (m self)).

(** The queue after is the queue before with at most [pops] entries removed at
    the front and at most [pushes] entries added at the back; an entry that
    stays keeps its packet. *)
Definition fifo (pops pushes : nat) (self self' : VendingMachineController.t) : Prop :=
  exists (k : nat) (new : list bytes),
    (k <= pops)%nat /\ (length new <= pushes)%nat /\
    map cmd_info.packet (command_queue self')
    = drop k (map cmd_info.packet (command_queue self)) ++ new.

(** Clock readings of POLLs that each come more than [COMMAND_TIMEOUT] after
    the one before; [t] is the time of the last send. *)
Fixpoint spaced (t : Z) (ts : list Z) : Prop :=
  match ts with
  | [] => True
  | t' :: ts' => COMMAND_TIMEOUT < t' - t /\ spaced t' ts'
  end.

Definition polls (ts : list Z) : list Event :=
  map (fun t => Received Command.POLL [] t true) ts.

Definition ACK_frame : bytes := [0xFA; 0xFB; 0x42; 0x00; 0x43].

(** Whether a write to the serial port goes through. *)
Definition serial_ok (io_ok : bool) (self : VendingMachineController.t) : bool :=
  match serial self with
  | Some s => is_open s && io_ok
  | None => false
  end.

(** The result that a terminal DISPENSING_STATUS payload with this status code
    carries to the callback of the aisle. *)
Definition dispense_result (status_code aisle_num : Z) : DispenseResult.t :=
  {| DispenseResult.success := bool_decide (status_code = 0x02);
     DispenseResult.aisle_number := aisle_num;
     DispenseResult.status :=
       match DispensingStatus.of_value status_code with
       | Ok s => Some s
       | Raise _ => None
       end;
     DispenseResult.message := terminal_message status_code |}.

(** [AisleStatus(status_code)], [None] for a code that is no member. *)
Definition aisle_status (status_code : Z) : option AisleStatus.t :=
  match AisleStatus.of_value status_code with
  | Ok s => Some s
  | Raise _ => None
  end.

(** The entry that [queue_command] appends. *)
Definition new_entry (max_retries : Z) (command : Command.t) (text packet : bytes)
  : cmd_info.t :=
  {| cmd_info.packet := packet;
     cmd_info.command := command;
     cmd_info.text := text;
     cmd_info.retries := 0;
     cmd_info.max_retries := max_retries;
     cmd_info.waiting_ack := false;
     cmd_info.sent_time := None;
     cmd_info.callback := None;
     cmd_info.callback_key := None |}.

(** The frame of a command and a text of at most 255 bytes. *)
Definition frame_of (command : Command.t) (text : bytes) : bytes :=
  0xFA :: 0xFB :: Command.value command :: len text :: text ++
  [calculate_xor (0xFA :: 0xFB :: Command.value command :: len text :: text)].

(** The message of the facade for the status of an aisle, as the facade's table
    has it. *)
Definition aisle_message (status : option AisleStatus.t) : string :=
  match status with
  | Some AisleStatus.NORMAL => "Aisle is ready"
  | Some AisleStatus.OUT_OF_STOCK => "Aisle is out of stock"
  | Some AisleStatus.DOESNT_EXIST => "Aisle does not exist"
  | Some AisleStatus.PAUSED => "Aisle is paused"
  | None => "Unknown status"
  end.

(** The caller-facing status of an aisle. *)
Definition aisle_status_enum (status : option AisleStatus.t) : AisleStatusEnum.t :=
  match status with
  | Some AisleStatus.NORMAL => AisleStatusEnum.NORMAL
  | Some AisleStatus.OUT_OF_STOCK => AisleStatusEnum.OUT_OF_STOCK
  | Some AisleStatus.DOESNT_EXIST => AisleStatusEnum.NOT_EXIST
  | Some AisleStatus.PAUSED => AisleStatusEnum.PAUSED
  | None => AisleStatusEnum.NOT_EXIST
  end.

(** * Proofs *)

(** ** Checksum *)

Lemma fold_lxor_acc (l : bytes) (a : Z) :
  fold_left (fun xor byte => Z.lxor xor byte) l a = Z.lxor a (calculate_xor l).
Proof.
  unfold calculate_xor. revert a.
  induction l as [|b l IH]; intros a; simpl.
  - by rewrite Z.lxor_0_r.
  - rewrite (IH (Z.lxor a b)), (IH (Z.lxor 0 b)), Z.lxor_0_l. by rewrite Z.lxor_assoc.
Qed.

Lemma calculate_xor_cons (b : Z) (l : bytes) :
  calculate_xor (b :: l) = Z.lxor b (calculate_xor l).
Proof. unfold calculate_xor at 1. simpl. apply fold_lxor_acc. Qed.

Lemma calculate_xor_app (l1 l2 : bytes) :
  calculate_xor (l1 ++ l2) = Z.lxor (calculate_xor l1) (calculate_xor l2).
Proof.
  unfold calculate_xor at 1. rewrite fold_left_app.
  fold (calculate_xor l1). apply fold_lxor_acc.
Qed.

Lemma lxor_cancel_l (a b c : Z) : Z.lxor a b = Z.lxor a c -> b = c.
Proof.
  intros H.
  assert (H' : Z.lxor a (Z.lxor a b) = Z.lxor a (Z.lxor a c)) by congruence.
  by rewrite <- !Z.lxor_assoc, Z.lxor_nilpotent, !Z.lxor_0_l in H'.
Qed.

Lemma calculate_xor_insert (l : bytes) (j : nat) (o v : Z) :
  l !! j = Some o ->
  calculate_xor (<[j:=v]> l) = calculate_xor l -> o = v.
Proof.
  revert j. induction l as [|b l IH]; intros [|j] Hj; simpl in *; try done.
  - injection Hj as ->. rewrite !calculate_xor_cons.
    rewrite !(Z.lxor_comm _ (calculate_xor l)).
    intros H. symmetry. by eapply lxor_cancel_l.
  - rewrite !calculate_xor_cons. intros H. apply lxor_cancel_l in H. eauto.
Qed.

Lemma lxor_byte (a b : Z) : is_byte a -> is_byte b -> is_byte (Z.lxor a b).
Proof.
  unfold is_byte. intros Ha Hb.
  assert (Hlog : forall x, 0 <= x < 256 -> Z.log2 x < 8).
  { intros x Hx. destruct (Z.eq_dec x 0) as [->|]; [done|].
    apply Z.log2_lt_pow2; lia. }
  assert (0 <= Z.lxor a b) by (apply Z.lxor_nonneg; lia).
  split; [done|].
  destruct (Z.eq_dec (Z.lxor a b) 0) as [->|]; [done|].
  change 256 with (2 ^ 8). apply Z.log2_lt_pow2; [lia|].
  pose proof (Z.log2_lxor a b ltac:(lia) ltac:(lia)).
  pose proof (Hlog a Ha). pose proof (Hlog b Hb). lia.
Qed.

Lemma calculate_xor_byte (l : bytes) : is_bytes l -> is_byte (calculate_xor l).
Proof.
  induction 1 as [|b l Hb Hl IH].
  - unfold is_byte, calculate_xor. simpl. lia.
  - rewrite calculate_xor_cons. by apply lxor_byte.
Qed.

Lemma byte_ok_is_byte (b : Z) : byte_ok b = true <-> is_byte b.
Proof. unfold byte_ok, is_byte. rewrite andb_true_iff. lia. Qed.

(** ** Encoding and decoding one frame *)

(** Byte lists given element by element. *)
Ltac solve_bytes :=
  unfold is_bytes;
  repeat (apply List.Forall_cons; [first [assumption | unfold is_byte; lia] |]);
  first [apply List.Forall_nil | assumption].

Lemma bytes_of_Ok (l l' : bytes) : bytes_of l = Ok l' -> l' = l /\ is_bytes l.
Proof.
  unfold bytes_of. destruct (forallb byte_ok l) eqn:H; [|done].
  intros [= <-]. split; [done|].
  apply Forall_forall. intros b Hb. apply byte_ok_is_byte.
  rewrite forallb_forall in H. apply H. by apply list_elem_of_In.
Qed.

Lemma bytes_of_bytes (l : bytes) : is_bytes l -> bytes_of l = Ok l.
Proof.
  intros H. unfold bytes_of.
  replace (forallb byte_ok l) with true; [done|].
  symmetry. apply forallb_forall. intros b Hb. apply byte_ok_is_byte.
  unfold is_bytes in H. rewrite Forall_forall in H. apply H. by apply list_elem_of_In.
Qed.

(** What [create_packet] returns when it returns. *)
Lemma create_packet_Ok (command : Command.t) (text frame : bytes) :
  create_packet command text = Ok frame ->
  len text < 256 /\
  frame = 0xFA :: 0xFB :: Command.value command :: len text :: text ++
          [calculate_xor (0xFA :: 0xFB :: Command.value command :: len text :: text)].
Proof.
  unfold create_packet.
  destruct (bytes_of [Command.value command; len text]) as [header|] eqn:Hh; [|done].
  apply bytes_of_Ok in Hh as [-> Hh]. simpl.
  destruct (bytes_of [calculate_xor _]) as [trailer|] eqn:Ht; [|done].
  apply bytes_of_Ok in Ht as [-> _]. simpl.
  intros [= <-]. split; [|done].
  inversion Hh as [|? ? _ Hl]; subst. inversion Hl as [|? ? Hlen _]; subst.
  apply Hlen.
Qed.

Lemma create_packet_bytes (command : Command.t) (text : bytes) :
  is_bytes text -> len text <= 255 ->
  create_packet command text =
    Ok (0xFA :: 0xFB :: Command.value command :: len text :: text ++
        [calculate_xor (0xFA :: 0xFB :: Command.value command :: len text :: text)]).
Proof.
  intros Htext Hlen. unfold create_packet.
  assert (Hc : is_byte (Command.value command)) by (unfold is_byte; destruct command; simpl; lia).
  assert (Hl : is_byte (len text)) by (unfold is_byte, len in *; lia).
  rewrite bytes_of_bytes by solve_bytes. simpl.
  rewrite bytes_of_bytes; [done|].
  apply List.Forall_cons; [|apply List.Forall_nil]. apply calculate_xor_byte.
  solve_bytes.
Qed.

Lemma of_value_value (command : Command.t) :
  Command.of_value (Command.value command) = Ok command.
Proof. by destruct command. Qed.

(** [parse_packet] on data that has the layout of a frame, whatever follows
    the checksum byte. *)
Lemma parse_packet_layout (c n x : Z) (text rest : bytes) :
  n = len text ->
  parse_packet (0xFA :: 0xFB :: c :: n :: text ++ x :: rest) =
    if x =? calculate_xor (0xFA :: 0xFB :: c :: n :: text) then
      match Command.of_value c with
      | Ok command => Ok (Some (command, text))
      | Raise ValueError => Ok None
      | Raise e => Raise e
      end
    else Ok None.
Proof.
  intros ->. unfold parse_packet.
  assert (Hlen : len (0xFA :: 0xFB :: c :: len text :: text ++ x :: rest)
                 = 5 + len text + len rest).
  { unfold len. simpl. rewrite length_app. simpl. lia. }
  rewrite Hlen.
  assert (H5 : (5 + len text + len rest <? 5) = false) by (apply Z.ltb_ge; unfold len; lia).
  rewrite H5.
  replace (slice _ 0 2) with STX by reflexivity.
  rewrite bool_decide_eq_true_2 by done. simpl negb. cbv iota.
  replace (index _ 2) with (Ok (A:=Z) c) by reflexivity.
  replace (index _ 3) with (Ok (A:=Z) (len text)) by reflexivity.
  simpl rbind.
  assert (H5' : (5 + len text + len rest <? 5 + len text) = false)
    by (apply Z.ltb_ge; unfold len; lia).
  rewrite H5'.
  assert (Hn : Z.to_nat (4 + len text) = (4 + length text)%nat) by (unfold len; lia).
  replace (slice _ 4 (4 + len text)) with text.
  2:{ unfold slice. rewrite Hn. change (Z.to_nat 4) with 4%nat.
      replace (4 + length text - 4)%nat with (length text) by lia.
      change (drop 4 (_ :: _ :: _ :: _ :: ?l)) with l.
      by rewrite take_app_length. }
  replace (slice _ 0 (4 + len text)) with (0xFA :: 0xFB :: c :: len text :: text).
  2:{ unfold slice. rewrite Hn. change (Z.to_nat 0) with 0%nat.
      rewrite Nat.sub_0_r, drop_0. simpl. by rewrite take_app_length. }
  replace (index _ (4 + len text)) with (Ok (A:=Z) x).
  2:{ unfold index. rewrite Hn. simpl. rewrite lookup_app_r by lia.
      by rewrite Nat.sub_diag. }
  simpl rbind. by destruct (x =? _).
Qed.

(** C2: for every command of the command set and every byte string [text] of
    at most 255 bytes, [create_packet] returns a frame and [parse_packet]
    decodes that frame to exactly that command and that text. *)
Theorem parse_create_roundtrip (command : Command.t) (text : bytes) :
  is_bytes text -> len text <= 255 ->
  exists frame,
    create_packet command text = Ok frame /\
    parse_packet frame = Ok (Some (command, text)).
Proof.
  intros Htext Hlen. eexists. split; [by apply create_packet_bytes|].
  rewrite parse_packet_layout by done.
  by rewrite Z.eqb_refl, of_value_value.
Qed.

Lemma parse_create_roundtrip_witness :
  exists frame,
    create_packet Command.SELECT_BUY [1; 0; 5] = Ok frame /\
    parse_packet frame = Ok (Some (Command.SELECT_BUY, [1; 0; 5])).
Proof.
  apply parse_create_roundtrip; [solve_bytes | vm_compute; discriminate].
Defined.

(** C3, as the claim states it, fails: the frame of ACK with the one-byte text
    0x43 is FA FB 42 01 43 01; with its length byte replaced by 00 the data
    FA FB 42 00 43 01 parses as an ACK frame with an empty text, because 0x43
    is the checksum of FA FB 42 00 and [parse_packet] accepts bytes after the
    checksum. *)
Lemma corrupted_length_accepted :
  ~ (forall (command : Command.t) (text frame : bytes) (i : nat) (orig v : Z),
       create_packet command text = Ok frame ->
       frame !! i = Some orig -> is_byte v -> v <> orig ->
       parse_packet (<[i:=v]> frame) = Ok None).
Proof.
  intros H.
  specialize (H Command.ACK [0x43] [0xFA; 0xFB; 0x42; 0x01; 0x43; 0x01] 3%nat 1 0).
  discriminate H; [reflexivity | reflexivity | unfold is_byte; lia | lia].
Qed.

(** C3, amended: in a valid frame, replacing one byte by a different byte value
    makes [parse_packet] reject the data, except when the byte is the length
    byte, the new length [v] is smaller than the length of the text, and the
    text byte at offset [v] is the checksum of the frame cut at that length. *)
Theorem single_byte_corruption_rejected
    (command : Command.t) (text frame : bytes) (i : nat) (orig v : Z) :
  create_packet command text = Ok frame ->
  frame !! i = Some orig -> is_byte v -> v <> orig ->
  ~ (i = 3%nat /\ v < len text /\
     text !! Z.to_nat v =
       Some (calculate_xor (0xFA :: 0xFB :: Command.value command :: v ::
                            take (Z.to_nat v) text))) ->
  parse_packet (<[i:=v]> frame) = Ok None.
Proof.
  intros Hframe Hi Hv Hne Hexc.
  apply create_packet_Ok in Hframe as [Hlen ->].
  set (x := calculate_xor _) in *.
  destruct i as [|[|[|[|j]]]]; simpl in Hi |- *.
  - (* first STX byte *)
    injection Hi as <-. unfold parse_packet.
    destruct (len _ <? 5); [done|].
    rewrite bool_decide_eq_false_2; [done|].
    unfold slice, STX. simpl. congruence.
  - (* second STX byte *)
    injection Hi as <-. unfold parse_packet.
    destruct (len _ <? 5); [done|].
    rewrite bool_decide_eq_false_2; [done|].
    unfold slice, STX. simpl. congruence.
  - (* command byte *)
    injection Hi as <-. rewrite parse_packet_layout by done.
    destruct (x =? _) eqn:Hx; [|done]. exfalso.
    apply Z.eqb_eq in Hx. unfold x in Hx. apply Hne. symmetry.
    apply (calculate_xor_insert
             (0xFA :: 0xFB :: Command.value command :: len text :: text) 2);
      [done|]. symmetry. exact Hx.
  - (* length byte *)
    injection Hi as <-.
    destruct (Z.lt_ge_cases v (len text)) as [Hlt|Hge].
    + (* shorter: the text byte at offset [v] is read as the checksum *)
      destruct Hv as [Hv0 _].
      assert (Hvn : (Z.to_nat v < length text)%nat) by (unfold len in Hlt; lia).
      destruct (lookup_lt_is_Some_2 text _ Hvn) as [b Hb].
      rewrite <- (take_drop_middle text _ b Hb), <- app_assoc. simpl.
      rewrite parse_packet_layout.
      2:{ unfold len. rewrite length_take. lia. }
      destruct (b =? _) eqn:Hx; [|done]. exfalso.
      apply Z.eqb_eq in Hx. apply Hexc. repeat split; [done|].
      by rewrite Hb, Hx.
    + (* longer: the data is too short for the new length *)
      unfold parse_packet.
      destruct (len _ <? 5); [done|].
      destruct (negb _); [done|].
      replace (index _ 2) with (Ok (A:=Z) (Command.value command)) by reflexivity.
      replace (index _ 3) with (Ok (A:=Z) v) by reflexivity.
      simpl rbind.
      replace (len _ <? 5 + v) with true; [done|].
      symmetry. apply Z.ltb_lt. unfold len in *. simpl.
      rewrite length_app. simpl. lia.
  - (* a text byte or the checksum byte *)
    destruct (Nat.lt_ge_cases j (length text)) as [Hlt|Hge].
    + rewrite lookup_app_l in Hi by done.
      rewrite insert_app_l by done.
      rewrite parse_packet_layout by (unfold len; by rewrite length_insert).
      destruct (x =? _) eqn:Hx; [|done]. exfalso.
      apply Z.eqb_eq in Hx. unfold x in Hx. apply Hne. symmetry.
      apply (calculate_xor_insert
               (0xFA :: 0xFB :: Command.value command :: len text :: text) (4 + j));
        [exact Hi|]. symmetry. exact Hx.
    + rewrite lookup_app_r in Hi by done.
      destruct (j - length text)%nat as [|k] eqn:Hk; simpl in Hi; [|done].
      injection Hi as <-.
      rewrite insert_app_r_alt by done. rewrite Hk. simpl.
      rewrite parse_packet_layout by done.
      fold x. destruct (v =? x) eqn:Hx; [|done].
      apply Z.eqb_eq in Hx. congruence.
Qed.

Lemma single_byte_corruption_rejected_witness :
  parse_packet (<[5%nat:=0x07]> [0xFA; 0xFB; 0x03; 0x03; 0x01; 0x00; 0x05; 0x05]) = Ok None.
Proof.
  apply (single_byte_corruption_rejected Command.SELECT_BUY [1; 0; 5] _ 5 0 7);
    [reflexivity | reflexivity | unfold is_byte; lia | lia | ].
  intros [H _]. discriminate H.
Defined.

(** The excepted case is a real one: there the shortened data is accepted. *)
Lemma shortened_frame_accepted
    (command : Command.t) (text frame : bytes) (v : Z) :
  create_packet command text = Ok frame ->
  0 <= v < len text ->
  text !! Z.to_nat v =
    Some (calculate_xor (0xFA :: 0xFB :: Command.value command :: v ::
                         take (Z.to_nat v) text)) ->
  parse_packet (<[3%nat:=v]> frame) = Ok (Some (command, take (Z.to_nat v) text)).
Proof.
  intros Hframe [Hv0 Hlt] Hb.
  apply create_packet_Ok in Hframe as [_ ->]. simpl.
  rewrite <- (take_drop_middle text _ _ Hb) at 1. rewrite <- app_assoc. simpl.
  rewrite parse_packet_layout.
  2:{ unfold len in *. rewrite length_take. lia. }
  by rewrite Z.eqb_refl, of_value_value.
Qed.

(** ** The framing loop *)

#[local] Arguments parse_packet : simpl never.
#[local] Arguments find : simpl never.
#[local] Arguments index : simpl never.
#[local] Arguments slice : simpl never.

(** More fuel does not change the result of a run that ended. *)
Lemma listen_loop_frames_fuel (fuel : nat) :
  forall (fuel' : nat) (buffer : bytes) r,
    listen_loop_frames fuel buffer = Some r -> (fuel <= fuel')%nat ->
    listen_loop_frames fuel' buffer = Some r.
Proof.
  induction fuel as [|fuel IH]; intros fuel' buffer r H Hle; [done|].
  destruct fuel' as [|fuel']; [lia|].
  assert (Hle' : (fuel <= fuel')%nat) by lia.
  simpl in H |- *.
  repeat case_match; simplify_eq; try done; eauto;
    match goal with
    | Hrun : listen_loop_frames fuel _ = Some _ |- _ =>
        apply (IH fuel') in Hrun; [congruence | done]
    end.
Qed.

Lemma index_is_byte (data : bytes) (i a : Z) :
  is_bytes data -> index data i = Ok a -> is_byte a.
Proof.
  unfold index. intros Hdata H.
  destruct (data !! Z.to_nat i) as [b|] eqn:Hb; [|done].
  injection H as <-. eapply Forall_lookup_1; eauto.
Qed.

(** The buffer left after a candidate frame is a shorter byte string. *)
Lemma drop_packet_shorter (buffer : bytes) (a : Z) (fuel : nat) :
  is_bytes buffer -> index buffer 3 = Ok a -> (len buffer <? 5) = false ->
  (length buffer < S fuel)%nat ->
  is_bytes (drop (Z.to_nat (5 + a)) buffer) /\
  (length (drop (Z.to_nat (5 + a)) buffer) < fuel)%nat.
Proof.
  intros Hb Ha H5 Hfuel. split; [by apply Forall_drop|].
  apply (index_is_byte _ _ _ Hb) in Ha. destruct Ha as [Ha _].
  apply Z.ltb_ge in H5. unfold len in H5. rewrite length_drop. lia.
Qed.

Lemma listen_loop_frames_terminates (fuel : nat) :
  forall buffer : bytes,
    is_bytes buffer -> (length buffer < fuel)%nat ->
    is_Some (listen_loop_frames fuel buffer).
Proof.
  induction fuel as [|fuel IH]; intros buffer Hb Hfuel; [lia|].
  assert (Hdrop : forall k, is_bytes (drop k buffer) /\
                            (length (drop k buffer) < S fuel)%nat).
  { intros k. split; [by apply Forall_drop|]. rewrite length_drop. lia. }
  simpl.
  repeat case_match; simplify_eq; try done;
    match goal with
    | Hi : index ?b 3 = Ok ?a, Hrun : listen_loop_frames fuel _ = _ |- _ =>
        let Hs := fresh in
        assert (Hs : is_Some (listen_loop_frames fuel (drop (Z.to_nat (5 + a)) b)));
        [ apply IH; eapply drop_packet_shorter; eauto; apply Hdrop
        | rewrite Hrun in Hs; by destruct Hs ]
    | Hi : index ?b 3 = Ok ?a |- is_Some (listen_loop_frames fuel _) =>
        apply IH; eapply drop_packet_shorter; eauto; apply Hdrop
    end.
Qed.

(** Decoding a buffer of bytes ends. *)
Lemma decode_terminates (buffer : bytes) :
  is_bytes buffer -> is_Some (decode buffer).
Proof. intros H. apply listen_loop_frames_terminates; [done | lia]. Qed.

Lemma decode_fuel (buffer : bytes) (fuel : nat) :
  is_bytes buffer -> (length buffer < fuel)%nat ->
  listen_loop_frames fuel buffer = decode buffer.
Proof.
  intros Hb Hfuel. destruct (decode_terminates buffer Hb) as [r Hr].
  rewrite Hr. eapply listen_loop_frames_fuel; [exact Hr | lia].
Qed.

(** [find] on a buffer whose first STX is the one that starts [rest]. *)
Lemma find_from_garbage (garbage rest : bytes) (i : Z) :
  0 <= i -> find_from STX garbage i = -1 ->
  find_from STX (garbage ++ 0xFA :: 0xFB :: rest) i = i + len garbage.
Proof.
  revert i. induction garbage as [|g gs IH]; intros i Hi H.
  - unfold len. simpl. lia.
  - simpl in H |- *.
    destruct (bool_decide (g :: take 1 gs = STX)) eqn:Hg; [lia|].
    apply bool_decide_eq_false in Hg.
    rewrite bool_decide_eq_false_2.
    + rewrite IH by (done || lia). unfold len. simpl length. lia.
    + intros Hstx. apply Hg. destruct gs as [|g' gs]; [|exact Hstx].
      simpl in Hstx. unfold STX in Hstx. congruence.
Qed.

Lemma find_garbage (garbage rest : bytes) :
  find garbage STX = -1 ->
  find (garbage ++ 0xFA :: 0xFB :: rest) STX = len garbage.
Proof. unfold find. intros H. by rewrite find_from_garbage. Qed.

(** One iteration of the loop on a buffer that holds, after bytes without STX,
    a complete candidate frame. *)
Lemma listen_loop_frames_candidate (fuel : nat) (garbage : bytes) (c n x : Z)
    (text rest : bytes) :
  find garbage STX = -1 -> n = len text ->
  listen_loop_frames (S fuel) (garbage ++ 0xFA :: 0xFB :: c :: n :: text ++ x :: rest) =
    match parse_packet (0xFA :: 0xFB :: c :: n :: text ++ [x]) with
    | Raise _ => Some ([], rest)
    | Ok None => listen_loop_frames fuel rest
    | Ok (Some parsed) =>
        match listen_loop_frames fuel rest with
        | Some (frames, rest') => Some (parsed :: frames, rest')
        | None => None
        end
    end.
Proof.
  intros Hg ->. set (B := 0xFA :: 0xFB :: c :: len text :: text ++ x :: rest).
  assert (HB : len B = 5 + len text + len rest).
  { unfold B, len. simpl. rewrite length_app. simpl. lia. }
  simpl.
  replace (negb (5 <=? len (garbage ++ B))) with false.
  2:{ symmetry. apply negb_false_iff, Z.leb_le.
      unfold len in *. rewrite length_app. lia. }
  assert (Hf : find (garbage ++ B) STX = len garbage) by by apply find_garbage.
  rewrite Hf.
  replace (len garbage =? -1) with false by (symmetry; apply Z.eqb_neq; unfold len; lia).
  replace (if 0 <? len garbage then drop (Z.to_nat (len garbage)) (garbage ++ B)
           else garbage ++ B) with B.
  2:{ destruct (0 <? len garbage) eqn:H0.
      - unfold len. rewrite Nat2Z.id. by rewrite drop_app_length.
      - apply Z.ltb_ge in H0. destruct garbage; [done|].
        unfold len in H0. simpl in H0. lia. }
  replace (len B <? 5) with false by (symmetry; apply Z.ltb_ge; unfold len in *; lia).
  replace (index B 3) with (Ok (A:=Z) (len text)) by reflexivity.
  replace (len B <? 5 + len text) with false
    by (symmetry; apply Z.ltb_ge; unfold len in *; lia).
  assert (Hn : Z.to_nat (5 + len text) = (5 + length text)%nat) by (unfold len; lia).
  assert (Hsplit : B = (0xFA :: 0xFB :: c :: len text :: text ++ [x]) ++ rest).
  { unfold B. simpl. by rewrite <- app_assoc. }
  assert (Hcand : length (0xFA :: 0xFB :: c :: len text :: text ++ [x])
                  = (5 + length text)%nat).
  { simpl. rewrite length_app. simpl. lia. }
  replace (slice B 0 (5 + len text)) with (0xFA :: 0xFB :: c :: len text :: text ++ [x]).
  2:{ unfold slice. rewrite Hn. change (Z.to_nat 0) with 0%nat.
      rewrite Nat.sub_0_r, drop_0, Hsplit, <- Hcand. by rewrite take_app_length. }
  replace (drop (Z.to_nat (5 + len text)) B) with rest.
  2:{ rewrite Hn, Hsplit, <- Hcand. by rewrite drop_app_length. }
  done.
Qed.

(** C1, as the claim states it, fails: with the garbage FA FB 00 01 in front of
    the ACK frame FA FB 42 00 43, the loop takes FA FB 00 01 FA FB as a
    candidate frame of text length 1, finds its checksum wrong and removes all
    six bytes, so the two STX bytes of the valid frame are lost with it and no
    frame is decoded. *)
Lemma garbage_with_stx_loses_frame :
  ~ (forall (garbage : bytes) (command : Command.t) (text frame : bytes),
       is_bytes garbage ->
       create_packet command text = Ok frame ->
       exists frames rest,
         decode (garbage ++ frame) = Some (frames, rest) /\
         (command, text) ∈ frames).
Proof.
  intros H.
  destruct (H [0xFA; 0xFB; 0x00; 0x01] Command.ACK [] [0xFA; 0xFB; 0x42; 0x00; 0x43])
    as (frames & rest & Hdec & Hin); [solve_bytes | reflexivity |].
  vm_compute in Hdec. injection Hdec as <- <-.
  by apply not_elem_of_nil in Hin.
Qed.

(** C1, amended: a candidate frame whose checksum byte does not match is
    removed from the buffer whole (its [5 + len] bytes) and decoding goes on
    with the bytes after it; and for every garbage prefix in which STX does not
    occur, followed by a complete valid frame, decoding the concatenated
    stream yields exactly that frame and leaves the buffer empty. *)
Theorem checksum_mismatch_discards_candidate :
  (forall (c x : Z) (text rest : bytes),
      is_bytes rest ->
      x <> calculate_xor (0xFA :: 0xFB :: c :: len text :: text) ->
      decode ((0xFA :: 0xFB :: c :: len text :: text ++ [x]) ++ rest) = decode rest)
  /\
  (forall (garbage : bytes) (command : Command.t) (text frame : bytes),
      find garbage STX = -1 ->
      create_packet command text = Ok frame ->
      decode (garbage ++ frame) = Some ([(command, text)], [])).
Proof.
  split.
  - intros c x text rest Hrest Hx. unfold decode at 1.
    replace ((0xFA :: 0xFB :: c :: len text :: text ++ [x]) ++ rest)
      with ([] ++ 0xFA :: 0xFB :: c :: len text :: text ++ x :: rest)
      by (simpl; by rewrite <- app_assoc).
    rewrite listen_loop_frames_candidate by done.
    rewrite (parse_packet_layout c (len text) x text []) by done.
    apply Z.eqb_neq in Hx. rewrite Hx.
    apply decode_fuel; [done|]. simpl. rewrite !length_app. simpl. lia.
  - intros garbage command text frame Hg Hframe.
    apply create_packet_Ok in Hframe as [_ ->]. unfold decode.
    rewrite listen_loop_frames_candidate by done.
    rewrite parse_packet_layout by done.
    rewrite Z.eqb_refl, of_value_value.
    rewrite length_app. simpl. by rewrite Nat.add_succ_r.
Qed.

Lemma checksum_mismatch_discards_candidate_witness :
  decode ([0xFA; 0xFB; 0x00; 0x01; 0xFA; 0xFB] ++ [0x42; 0x00; 0x43])
    = decode [0x42; 0x00; 0x43] /\
  decode ([0xAA; 0xBB; 0xCC] ++ [0xFA; 0xFB; 0x02; 0x04; 0x01; 0x00; 0x00; 0x05; 0x03])
    = Some ([(Command.AISLE_STATUS_RESPONSE, [0x01; 0x00; 0x00; 0x05])], []).
Proof.
  split.
  - apply (proj1 checksum_mismatch_discards_candidate 0x00 0xFB [0xFA] [0x42; 0x00; 0x43]);
      [solve_bytes | vm_compute; discriminate].
  - apply (proj2 checksum_mismatch_discards_candidate [0xAA; 0xBB; 0xCC]
             Command.AISLE_STATUS_RESPONSE [0x01; 0x00; 0x00; 0x05]);
      reflexivity.
Defined.

(** ** Communication numbers *)

Lemma get_next_comm_number_eq (self : VendingMachineController.t) :
  get_next_comm_number self =
    (Ok (comm_number self), set_comm_number (comm_number self mod 255 + 1) self).
Proof. reflexivity. Qed.

Lemma comm_number_after_calls (n : nat) :
  forall self : VendingMachineController.t,
    comm_number (after_calls n self)
    = if decide (n = 0%nat) then comm_number self
      else (comm_number self + Z.of_nat n - 1) mod 255 + 1.
Proof.
  induction n as [|n IH]; intros self; [done|].
  simpl after_calls. rewrite IH. simpl.
  destruct (decide (S n = 0%nat)) as [|_]; [done|].
  destruct (decide (n = 0%nat)) as [->|Hn].
  - f_equal. f_equal. lia.
  - f_equal.
    replace (comm_number self mod 255 + 1 + Z.of_nat n - 1)
      with (comm_number self mod 255 + Z.of_nat n) by lia.
    rewrite Zplus_mod_idemp_l. f_equal. lia.
Qed.

(** C8: the generator starts at 1, each call returns the current value and
    advances it by [n <- n mod 255 + 1]; so the [k]-th call ([k >= 1]) returns
    [((k - 1) mod 255) + 1], never 0, always a value of 1..255, and the
    sequence has period 255. *)
Theorem comm_number_sequence (max_retries : Z) (k : nat) :
  (1 <= k)%nat ->
  comm_number (__init__ max_retries) = 1 /\
  (forall self : VendingMachineController.t,
      get_next_comm_number self =
        (Ok (comm_number self), set_comm_number (comm_number self mod 255 + 1) self)) /\
  kth_comm_number k (__init__ max_retries) = Ok ((Z.of_nat k - 1) mod 255 + 1) /\
  kth_comm_number k (__init__ max_retries) <> Ok 0 /\
  (exists n, kth_comm_number k (__init__ max_retries) = Ok n /\ 1 <= n <= 255) /\
  kth_comm_number (k + 255) (__init__ max_retries)
    = kth_comm_number k (__init__ max_retries).
Proof.
  intros Hk.
  assert (Hkth : forall j : nat, (1 <= j)%nat ->
            kth_comm_number j (__init__ max_retries) = Ok ((Z.of_nat j - 1) mod 255 + 1)).
  { intros j Hj. unfold kth_comm_number.
    rewrite get_next_comm_number_eq. simpl. f_equal.
    rewrite comm_number_after_calls. simpl.
    destruct (decide (j - 1 = 0)%nat) as [Hz|Hz].
    - replace (Z.of_nat j - 1) with 0 by lia. done.
    - f_equal. f_equal. lia. }
  pose proof (Z.mod_pos_bound (Z.of_nat k - 1) 255 ltac:(lia)) as Hmod.
  split; [done|]. split; [apply get_next_comm_number_eq|].
  rewrite (Hkth k Hk). repeat split.
  - intros [= H]. lia.
  - eexists. split; [done|]. lia.
  - rewrite Hkth by lia. f_equal. f_equal.
    replace (Z.of_nat (k + 255) - 1) with (Z.of_nat k - 1 + 1 * 255) by lia.
    apply Z_mod_plus_full.
Qed.

Lemma comm_number_sequence_witness :
  kth_comm_number 256 (__init__ 5) = Ok 1 /\
  kth_comm_number (256 + 255) (__init__ 5) = kth_comm_number 256 (__init__ 5).
Proof.
  destruct (comm_number_sequence 5 256 ltac:(lia)) as (_ & _ & H & _ & _ & Hp).
  split; [exact H | exact Hp].
Defined.

(** ** Inbound status frames *)

Lemma DispensingStatus_of_value_cases (code : Z) :
  (code = 0x01 /\ DispensingStatus.of_value code = Ok DispensingStatus.DISPENSING) \/
  (code = 0x02 /\ DispensingStatus.of_value code = Ok DispensingStatus.SUCCESS) \/
  (code = 0x03 /\ DispensingStatus.of_value code = Ok DispensingStatus.JAMMED) \/
  (code = 0x04 /\ DispensingStatus.of_value code = Ok DispensingStatus.MOTOR_DOESNT_STOP) \/
  (code = 0x06 /\ DispensingStatus.of_value code = Ok DispensingStatus.MOTOR_DOESNT_EXIST) \/
  (code <> 0x01 /\ code <> 0x02 /\ code <> 0x03 /\ code <> 0x04 /\ code <> 0x06 /\
   DispensingStatus.of_value code = Raise ValueError).
Proof.
  destruct code as [|p|p]; [by repeat right | | by repeat right].
  do 3 (try destruct p as [p|p|]); simpl; try (by repeat right); naive_solver.
Qed.

(** The payload of a status frame of at least four bytes. *)
Lemma status_payload (data : bytes) :
  (len data <? 4) = false ->
  exists comm_num status_code hi lo rest,
    data = comm_num :: status_code :: hi :: lo :: rest.
Proof.
  intros H. apply Z.ltb_ge in H. unfold len in H.
  destruct data as [|a [|b [|c [|d rest]]]]; simpl in H; try lia. eauto 6.
Qed.

(** C4, amended: a DISPENSING_STATUS payload with a terminal status code, for an
    aisle with a pending dispense, removes the pending entry and calls its
    callback once, with a result whose [success] is [status == SUCCESS] and
    whose message is the one of the status code, where the message of
    MOTOR_DOESNT_STOP is written with an ASCII hyphen. *)
Theorem terminal_status_resolves_pending
    (self : VendingMachineController.t) (data : bytes)
    (status_code aisle_num : Z) (callback : Callback) :
  4 <= len data ->
  index data 1 = Ok status_code ->
  struct_unpack_H (slice data 2 4) = Ok aisle_num ->
  status_code <> 0x01 ->
  dispense_callbacks self !! aisle_num = Some callback ->
  handle_dispensing_status data self =
    (Ok tt,
     set_trace
       (trace self ++
        [Called_dispense callback
           {| DispenseResult.success := bool_decide (status_code = 0x02);
              DispenseResult.aisle_number := aisle_num;
              DispenseResult.status :=
                match DispensingStatus.of_value status_code with
                | Ok s => Some s
                | Raise _ => None
                end;
              DispenseResult.message := terminal_message status_code |}])
       (set_dispense_callbacks (delete aisle_num (dispense_callbacks self)) self)).
Proof.
  intros Hlen Hcode Haisle Hterminal Hpending. apply Z.ltb_ge in Hlen.
  destruct (status_payload data Hlen) as (c & code & hi & lo & rest & ->).
  unfold handle_dispensing_status. rewrite Hlen.
  replace (index _ 0) with (Ok (A:=Z) c) by reflexivity.
  rewrite Hcode, Haisle.
  unfold bind, lift, get, modify, call, ret, raise. simpl.
  destruct (DispensingStatus_of_value_cases status_code)
    as [[-> _]|[[-> ->]|[[-> ->]|[[-> ->]|[[-> ->]|(H1 & H2 & H3 & H4 & H6 & ->)]]]]];
    [done| | | | |]; simpl; rewrite Hpending; simpl; try done.
  unfold terminal_message.
  rewrite bool_decide_eq_false_2 by done.
  by repeat (case_decide; [done|]).
Qed.

(** C4, as the claim states it, fails on one message: the code's text for
    MOTOR_DOESNT_STOP has an ASCII hyphen where the claim has an en dash. Here
    aisle 5 has a pending dispense and the payload is comm_num 1, status 0x04,
    aisle 5. *)
Lemma motor_message_differs :
  let self := set_dispense_callbacks {[ 5 := on_dispense_result 0%nat ]} (__init__ 5) in
  let out := handle_dispensing_status [0x01; 0x04; 0x00; 0x05] self in
  fst out = Ok tt /\
  exists result,
    trace (snd out) = [Called_dispense (on_dispense_result 0%nat) result] /\
    DispenseResult.message result <> "Motor error – doesn't stop".
Proof.
  split; [by vm_compute|].
  eexists. split; [vm_compute; reflexivity|].
  simpl. discriminate.
Qed.

Lemma terminal_status_resolves_pending_witness :
  handle_dispensing_status [0x01; 0x03; 0x00; 0x05]
    (set_dispense_callbacks {[ 5 := on_dispense_result 0%nat ]} (__init__ 5)) =
  (Ok tt,
   set_trace
     [Called_dispense (on_dispense_result 0%nat)
        {| DispenseResult.success := false;
           DispenseResult.aisle_number := 5;
           DispenseResult.status := Some DispensingStatus.JAMMED;
           DispenseResult.message := "Product jammed" |}]
     (set_dispense_callbacks (delete 5 {[ 5 := on_dispense_result 0%nat ]})
        (set_dispense_callbacks {[ 5 := on_dispense_result 0%nat ]} (__init__ 5)))).
Proof.
  exact (terminal_status_resolves_pending
           (set_dispense_callbacks {[ 5 := on_dispense_result 0%nat ]} (__init__ 5))
           [0x01; 0x03; 0x00; 0x05] 0x03 5 (on_dispense_result 0%nat)
           ltac:(unfold len; simpl; lia) eq_refl eq_refl ltac:(lia) eq_refl).
Defined.

Lemma controller_eta (self : VendingMachineController.t) :
  {| max_retries := max_retries self; serial := serial self;
     comm_number := comm_number self; running := running self;
     command_queue := command_queue self;
     dispense_callbacks := dispense_callbacks self;
     aisle_status_callbacks := aisle_status_callbacks self;
     _connected := _connected self; trace := trace self |} = self.
Proof. by destruct self. Qed.

(** C5: a DISPENSING_STATUS payload with status DISPENSING (0x01), for an aisle
    with a pending dispense, leaves the controller as it was: the same callback
    is registered under the aisle and no callback is called (the trace does not
    grow), so nothing resolves the caller's future. *)
Theorem dispensing_status_keeps_pending
    (self : VendingMachineController.t) (data : bytes)
    (aisle_num : Z) (callback : Callback) :
  4 <= len data ->
  index data 1 = Ok 0x01 ->
  struct_unpack_H (slice data 2 4) = Ok aisle_num ->
  dispense_callbacks self !! aisle_num = Some callback ->
  handle_dispensing_status data self = (Ok tt, self).
Proof.
  intros Hlen Hcode Haisle Hpending. apply Z.ltb_ge in Hlen.
  destruct (status_payload data Hlen) as (c & code & hi & lo & rest & ->).
  unfold handle_dispensing_status. rewrite Hlen.
  replace (index _ 0) with (Ok (A:=Z) c) by reflexivity.
  rewrite Hcode, Haisle.
  unfold bind, lift, get, modify, call, ret, raise. simpl.
  rewrite Hpending. simpl. f_equal.
  unfold set_dispense_callbacks. simpl.
  rewrite insert_delete_eq, insert_id by done.
  apply controller_eta.
Qed.

Lemma dispensing_status_keeps_pending_witness :
  handle_dispensing_status [0x01; 0x01; 0x00; 0x05]
    (set_dispense_callbacks {[ 5 := on_dispense_result 0%nat ]} (__init__ 5)) =
  (Ok tt, set_dispense_callbacks {[ 5 := on_dispense_result 0%nat ]} (__init__ 5)).
Proof.
  apply (dispensing_status_keeps_pending _ _ 5 (on_dispense_result 0%nat));
    [unfold len; simpl; lia | reflexivity | reflexivity | reflexivity].
Defined.

Lemma send_ack_eq (io_ok : bool) (self : VendingMachineController.t) :
  send_ack io_ok self =
    if match serial self with Some s => is_open s && io_ok | None => false end
    then (Ok true, set_trace (trace self ++ [Written [0xFA; 0xFB; 0x42; 0x00; 0x43]]) self)
    else (Ok false, self).
Proof.
  unfold send_ack, serial_write, try_except, bind, lift, get, modify, ret, raise.
  simpl. destruct (serial self) as [s|]; [|done].
  by destruct (is_open s && io_ok).
Qed.

(** C9: a DISPENSING_STATUS or AISLE_STATUS_RESPONSE payload of fewer than four
    bytes makes its handler return at once: it raises nothing (no index out of
    range), calls no callback and leaves both callback tables as they were;
    all the dispatch of such a frame adds is the acknowledgement written to
    the serial port. *)
Theorem short_status_payload_ignored
    (self : VendingMachineController.t) (text : bytes) (now : Z) (io_ok : bool) :
  len text < 4 ->
  handle_dispensing_status text self = (Ok tt, self) /\
  handle_aisle_status_response text self = (Ok tt, self) /\
  forall command,
    command = Command.DISPENSING_STATUS \/ command = Command.AISLE_STATUS_RESPONSE ->
    exists self' written,
      handle_received_packet command text now io_ok self = (Ok tt, self') /\
      dispense_callbacks self' = dispense_callbacks self /\
      aisle_status_callbacks self' = aisle_status_callbacks self /\
      trace self' = trace self ++ map Written written.
Proof.
  intros Hlen. apply Z.ltb_lt in Hlen.
  assert (Hd : handle_dispensing_status text self = (Ok tt, self))
    by (unfold handle_dispensing_status; by rewrite Hlen).
  assert (Ha : handle_aisle_status_response text self = (Ok tt, self))
    by (unfold handle_aisle_status_response; by rewrite Hlen).
  repeat split; [done | done |].
  intros command [-> | ->]; unfold handle_received_packet, bind;
    rewrite ?Hd, ?Ha, send_ack_eq;
    (destruct (match serial self with Some _ => _ | None => _ end);
     [ eexists _, [_] | exists self, [] ]; simpl; rewrite ?app_nil_r; done).
Qed.

Lemma short_status_payload_ignored_witness :
  handle_dispensing_status [0x01; 0x02; 0x00]
    (set_dispense_callbacks {[ 5 := on_dispense_result 0%nat ]} (__init__ 5)) =
  (Ok tt, set_dispense_callbacks {[ 5 := on_dispense_result 0%nat ]} (__init__ 5)).
Proof.
  apply (short_status_payload_ignored _ [0x01; 0x02; 0x00] 0 true).
  vm_compute. reflexivity.
Defined.

(** ** The outbound queue *)

Lemma preserves_ret {A} (a : A) : preserves (ret a).
Proof. by intros self H. Qed.

Lemma preserves_raise {A} (e : exn) : preserves (raise (A:=A) e).
Proof. by intros self H. Qed.

Lemma preserves_lift {A} (r : result A) : preserves (lift r).
Proof. by intros self H. Qed.

Lemma preserves_bind {A B} (m : M A) (k : A -> M B) :
  preserves m -> (forall a, preserves (k a)) -> preserves (bind m k).
Proof.
  intros Hm Hk self H. unfold bind.
  specialize (Hm self H). destruct (m self) as [[a|e] self']; simpl in *; [|done].
  by apply Hk.
Qed.

Lemma preserves_bind_get {B} (k : VendingMachineController.t -> M B) :
  (forall self, queue_inv (command_queue self) ->
                queue_inv (command_queue (snd (k self self)))) ->
  preserves (bind get k).
Proof. intros Hk self H. unfold bind, get. by apply Hk. Qed.

Lemma preserves_try_except {A} (body : M A) (handler : exn -> M A) :
  preserves body -> (forall e, preserves (handler e)) ->
  preserves (try_except body handler).
Proof.
  intros Hb Hh self H. unfold try_except.
  specialize (Hb self H). destruct (body self) as [[a|e] self']; simpl in *; [done|].
  by apply Hh.
Qed.

Lemma preserves_modify (f : VendingMachineController.t -> VendingMachineController.t) :
  (forall self, queue_inv (command_queue self) -> queue_inv (command_queue (f self))) ->
  preserves (modify f).
Proof. intros Hf self H. by apply Hf. Qed.

Lemma preserves_modify_frame (f : VendingMachineController.t -> VendingMachineController.t) :
  (forall self, command_queue (f self) = command_queue self) ->
  preserves (modify f).
Proof. intros Hf. apply preserves_modify. intros self H. by rewrite Hf. Qed.

Ltac preserves_step :=
  first
    [ apply preserves_ret | apply preserves_raise | apply preserves_lift
    | apply preserves_try_except; [|intros ?]
    | apply preserves_modify_frame; intros ?; reflexivity
    | apply preserves_bind; [|intros ?] ].

Lemma preserves_serial_write (io_ok : bool) (data : bytes) :
  preserves (serial_write io_ok data).
Proof.
  intros self H. unfold serial_write, bind, get, modify, raise. simpl.
  destruct (serial self) as [s|]; [|done]. by destruct (is_open s && io_ok).
Qed.

Lemma preserves_call (e : Effect) : preserves (call e).
Proof. by intros self H. Qed.

Lemma preserves_send_ack (io_ok : bool) : preserves (send_ack io_ok).
Proof.
  intros self H. rewrite send_ack_eq.
  by destruct (match serial self with Some _ => _ | None => _ end).
Qed.

Lemma preserves_get_next_comm_number : preserves get_next_comm_number.
Proof. by intros self H. Qed.

Lemma preserves_queue_command (command : Command.t) (text : bytes)
    (callback : option Callback) (callback_key : option Z) :
  preserves (queue_command command text callback callback_key).
Proof.
  intros self H. unfold queue_command, bind, lift, get, modify.
  destruct (create_packet command text) as [packet|e]; [|done]. simpl.
  unfold queue_inv in *. destruct (command_queue self) as [|c queue]; simpl in *.
  - constructor.
  - apply Forall_app. split; [done|]. by repeat constructor.
Qed.

Lemma preserves_handle_dispensing_status (data : bytes) :
  preserves (handle_dispensing_status data).
Proof.
  unfold handle_dispensing_status.
  destruct (len data <? 4); [apply preserves_ret|].
  do 3 (apply preserves_bind; [apply preserves_lift|intros ?]).
  apply preserves_bind; [repeat case_match; preserves_step|intros status].
  apply preserves_bind_get. intros self H.
  destruct (dispense_callbacks self !! a1); [|done].
  unfold bind, modify, get, call. simpl.
  by repeat case_match.
Qed.

Lemma preserves_handle_aisle_status_response (data : bytes) :
  preserves (handle_aisle_status_response data).
Proof.
  unfold handle_aisle_status_response.
  destruct (len data <? 4); [apply preserves_ret|].
  do 3 (apply preserves_bind; [apply preserves_lift|intros ?]).
  apply preserves_bind; [repeat case_match; preserves_step|intros status].
  apply preserves_bind_get. intros self H.
  by destruct (aisle_status_callbacks self !! a1).
Qed.

Lemma preserves_handle_poll (now : Z) (io_ok : bool) : preserves (handle_poll now io_ok).
Proof.
  unfold handle_poll. apply preserves_bind; [|intros ?].
  - apply preserves_bind_get. intros self H.
    assert (Hsame : queue_inv (command_queue (snd (ret (A:=unit) tt self)))) by done.
    destruct (command_queue self) as [|c rest] eqn:Hq; [done|].
    destruct (cmd_info.waiting_ack c); [|done].
    destruct (cmd_info.sent_time c) as [sent_time|]; [|done].
    destruct (COMMAND_TIMEOUT <? now - sent_time); [|done].
    unfold queue_inv in *. simpl in H.
    simpl. destruct (_ <=? _); simpl; [|done].
    destruct rest as [|c' rest]; simpl; [constructor|].
    by inversion H.
  - apply preserves_bind_get. intros self H.
    assert (Hack : queue_inv (command_queue (snd ((send_ack io_ok ;;; ret tt) self)))).
    { apply (preserves_bind (send_ack io_ok) (fun _ => ret tt));
        [apply preserves_send_ack | intros; apply preserves_ret | done]. }
    destruct (command_queue self) as [|c rest] eqn:Hq; [done|].
    destruct (negb (cmd_info.waiting_ack c)); [|done].
    apply preserves_try_except;
      [|intros; apply preserves_ret|unfold queue_inv; by rewrite Hq].
    apply preserves_bind; [apply preserves_serial_write|intros ?].
    apply preserves_modify. intros self' ?. exact H.
Qed.

Ltac preserves_method :=
  repeat first
    [ apply preserves_get_next_comm_number
    | apply preserves_queue_command
    | apply preserves_send_ack
    | apply preserves_handle_poll
    | apply preserves_handle_dispensing_status
    | apply preserves_handle_aisle_status_response
    | preserves_step
    | match goal with |- preserves (match ?x with _ => _ end) => destruct x end ].

Lemma preserves_request_info_sync : preserves request_info_sync.
Proof. unfold request_info_sync. preserves_method. Qed.

Lemma preserves_check_aisle (aisle_number : Z) (callback : option Callback) :
  preserves (check_aisle aisle_number callback).
Proof. unfold check_aisle. preserves_method. Qed.

Lemma preserves_dispense (aisle_number : Z) (callback : option Callback) :
  preserves (dispense aisle_number callback).
Proof. unfold dispense. preserves_method. Qed.

Lemma preserves_drive_aisle_direct (aisle_number : Z) (use_drop_sensor use_elevator : bool)
    (callback : option Callback) :
  preserves (drive_aisle_direct aisle_number use_drop_sensor use_elevator callback).
Proof. unfold drive_aisle_direct. preserves_method. Qed.

Lemma preserves_set_aisle_inventory (aisle_number inventory : Z) :
  preserves (set_aisle_inventory aisle_number inventory).
Proof. unfold set_aisle_inventory. preserves_method. Qed.

Lemma preserves_request_machine_status : preserves request_machine_status.
Proof. unfold request_machine_status. preserves_method. Qed.

Lemma preserves_connect (opened : bool) : preserves (connect opened).
Proof. unfold connect. destruct opened; preserves_method. Qed.

Lemma preserves_stop : preserves stop.
Proof. unfold stop. preserves_method. Qed.

Lemma preserves_disconnect : preserves disconnect.
Proof.
  unfold disconnect. apply preserves_bind; [apply preserves_stop|intros ?].
  apply preserves_bind; [|intros ?; preserves_method].
  apply preserves_bind_get. intros self H.
  destruct (serial self) as [s|]; [|done]. by destruct (is_open s).
Qed.

Lemma preserves_start : preserves start.
Proof.
  unfold start. apply preserves_bind_get. intros self H.
  destruct (negb _); [done|].
  assert (Hp : preserves (modify (set_running true) ;;; request_info_sync ;;; ret true))
    by (preserves_method; apply preserves_request_info_sync).
  exact (Hp self H).
Qed.

Lemma preserves_handle_received_packet (command : Command.t) (text : bytes)
    (now : Z) (io_ok : bool) :
  preserves (handle_received_packet command text now io_ok).
Proof.
  destruct command; unfold handle_received_packet;
    try (preserves_method; apply preserves_request_info_sync).
  (* ACK *)
  apply preserves_bind_get. intros self H.
  destruct (command_queue self) as [|c rest] eqn:Hq; [by rewrite <- Hq in H|].
  destruct (cmd_info.waiting_ack c); simpl; [|by rewrite Hq].
  unfold queue_inv in *. simpl in H.
  destruct rest as [|c' rest]; simpl; [constructor|]. by inversion H.
Qed.

Lemma step_queue_inv (e : Event) (self : VendingMachineController.t) :
  queue_inv (command_queue self) -> queue_inv (command_queue (step e self)).
Proof.
  destruct e; simpl;
    [ apply preserves_connect | apply preserves_disconnect
    | apply preserves_start | apply preserves_stop
    | apply preserves_queue_command | apply preserves_request_info_sync
    | apply preserves_check_aisle | apply preserves_dispense
    | apply preserves_drive_aisle_direct | apply preserves_set_aisle_inventory
    | apply preserves_request_machine_status
    | apply preserves_handle_received_packet ].
Qed.

Lemma run_queue_inv (events : list Event) :
  forall self : VendingMachineController.t,
    queue_inv (command_queue self) -> queue_inv (command_queue (run events self)).
Proof.
  induction events as [|e events IH]; intros self H; [done|].
  simpl. apply IH. by apply step_queue_inv.
Qed.

Lemma queue_inv_positions (queue : list cmd_info.t) :
  queue_inv queue ->
  forall (i : nat) (c : cmd_info.t),
    queue !! i = Some c -> cmd_info.waiting_ack c = true -> i = 0%nat.
Proof.
  intros H i c Hi Hc. destruct i as [|i]; [done|].
  destruct queue as [|c0 queue]; [done|]. simpl in *.
  unfold queue_inv in H. simpl in H.
  rewrite Forall_lookup in H. specialize (H i c Hi). congruence.
Qed.

Lemma queue_inv_in_flight (queue : list cmd_info.t) :
  queue_inv queue -> (length (in_flight queue) <= 1)%nat.
Proof.
  unfold queue_inv, in_flight. destruct queue as [|c queue]; simpl; [lia|].
  intros H. rewrite filter_cons.
  assert (Hnil : filter (fun c => cmd_info.waiting_ack c = true) queue = []).
  { induction H as [|c' queue Hc' H IH]; [done|].
    rewrite filter_cons. rewrite decide_False by congruence. exact IH. }
  rewrite Hnil. case_decide; simpl; lia.
Qed.

(** C6: in every state reached from the initial controller by calls of its
    methods (connecting, starting, the command submissions) and by handled
    frames (POLL, ACK and every other command), at most one entry of the
    outbound queue is in flight, and an entry in flight is the head of the
    queue. *)
Theorem at_most_one_in_flight (max_retries : Z) (events : list Event) :
  let queue := command_queue (run events (__init__ max_retries)) in
  (length (in_flight queue) <= 1)%nat /\
  forall (i : nat) (c : cmd_info.t),
    queue !! i = Some c -> cmd_info.waiting_ack c = true -> i = 0%nat.
Proof.
  assert (H : queue_inv (command_queue (run events (__init__ max_retries)))).
  { apply run_queue_inv. unfold queue_inv. simpl. constructor. }
  split; [by apply queue_inv_in_flight | by apply queue_inv_positions].
Qed.

(** A run that puts a command in flight: connect, submit a dispense for aisle 5,
    handle a POLL. *)
Example in_flight_reached :
  let self :=
    run [Call_connect true; Call_dispense 5 None; Received Command.POLL [] 0 true]
      (__init__ 5) in
  map cmd_info.waiting_ack (command_queue self) = [true] /\
  trace self = [Written [0xFA; 0xFB; 0x03; 0x03; 0x01; 0x00; 0x05; 0x05]].
Proof. by vm_compute. Qed.

(** ** The request facade *)

(** C10: when the controller is not connected, [dispense] and
    [check_aisle_status] return their failure response before any await and
    leave the service and its controller as they were: nothing is appended to
    the outbound queue, no future is registered in the pending tables of the
    service and no callback in the tables of the controller. *)
Theorem not_connected_returns_at_once
    (str : exn -> string) (self : DispenseService.t)
    (request : DispenseRequest.t) (aisle_number : Z) (timeout timeout' : Z)
    (uuid4_hex : string) (future future' : Future) :
  is_connected (DispenseService.controller self) = false ->
  DispenseService.dispense str request timeout uuid4_hex future self =
    (Return
       {| DispenseResponse.success := false;
          DispenseResponse.aisle_number := DispenseRequest.aisle_number request;
          DispenseResponse.status := DispenseStatusEnum.FAILED;
          DispenseResponse.message := "VMC not connected";
          DispenseResponse.transaction_id := None |},
     self) /\
  DispenseService.check_aisle_status str aisle_number timeout' future' self =
    (Return
       {| AisleStatusResponse.aisle_number := aisle_number;
          AisleStatusResponse.status := AisleStatusEnum.NOT_EXIST;
          AisleStatusResponse.message := "VMC not connected" |},
     self).
Proof.
  intros H. unfold DispenseService.dispense, DispenseService.check_aisle_status.
  by rewrite H.
Qed.

Lemma not_connected_returns_at_once_witness :
  let self := DispenseService.__init__ (snd (disconnect (snd (connect true (__init__ 5))))) in
  let request :=
    {| DispenseRequest.aisle_number := 5; DispenseRequest.use_drop_sensor := true;
       DispenseRequest.use_elevator := false; DispenseRequest.force := false |} in
  fst (DispenseService.dispense (fun _ => "error") request 30000 "0123456789abcdef" 1%nat self)
  = Return
      {| DispenseResponse.success := false;
         DispenseResponse.aisle_number := 5;
         DispenseResponse.status := DispenseStatusEnum.FAILED;
         DispenseResponse.message := "VMC not connected";
         DispenseResponse.transaction_id := None |}.
Proof.
  intros self request.
  pose proof (not_connected_returns_at_once (fun _ => "error") self request 5
                30000 10000 "0123456789abcdef" 1%nat 2%nat eq_refl) as [H _].
  by rewrite H.
Defined.

Lemma struct_pack_H_Ok (n : Z) :
  0 <= n <= 65535 ->
  struct_pack_H n = Ok [n / 256; n mod 256] /\ is_bytes [n / 256; n mod 256].
Proof.
  intros Hn. unfold struct_pack_H.
  replace ((0 <=? n) && (n <=? 65535)) with true by (symmetry; apply andb_true_iff; lia).
  split; [done|].
  pose proof (Z.mod_pos_bound n 256 ltac:(lia)).
  assert (0 <= n / 256 < 256)
    by (split; [apply Z.div_pos; lia | apply Z.div_lt_upper_bound; lia]).
  solve_bytes.
Qed.

Lemma queue_command_Ok (command : Command.t) (text : bytes)
    (callback : option Callback) (callback_key : option Z)
    (self : VendingMachineController.t) :
  is_bytes text -> len text <= 255 ->
  fst (queue_command command text callback callback_key self) = Ok tt.
Proof.
  intros Ht Hl. unfold queue_command, bind, lift, get, modify.
  by rewrite create_packet_bytes.
Qed.

(** The three submissions of the facade go through for an aisle number of 16
    bits and a communication number of one byte. *)
Lemma dispense_Ok (aisle_number : Z) (callback : option Callback)
    (self : VendingMachineController.t) :
  0 <= aisle_number <= 65535 -> is_byte (comm_number self) ->
  fst (dispense aisle_number callback self) = Ok true.
Proof.
  intros Ha Hc. destruct (struct_pack_H_Ok aisle_number Ha) as [Hpack Hbytes].
  unfold dispense, bind. rewrite get_next_comm_number_eq.
  unfold lift. rewrite Hpack, bytes_of_bytes by solve_bytes.
  set (text := [comm_number self] ++ _).
  assert (Ht : is_bytes text) by (apply Forall_app; split; [solve_bytes|done]).
  destruct callback as [cb|]; simpl;
    match goal with
    | |- context [queue_command ?c ?t ?cb ?k ?s] =>
        pose proof (queue_command_Ok c t cb k s Ht ltac:(by vm_compute)) as Hq;
        destruct (queue_command c t cb k s) as [[[]|e] s']; simpl in Hq |- *; congruence
    end.
Qed.

Lemma drive_aisle_direct_Ok (aisle_number : Z) (use_drop_sensor use_elevator : bool)
    (callback : option Callback) (self : VendingMachineController.t) :
  0 <= aisle_number <= 65535 -> is_byte (comm_number self) ->
  fst (drive_aisle_direct aisle_number use_drop_sensor use_elevator callback self) = Ok true.
Proof.
  intros Ha Hc. destruct (struct_pack_H_Ok aisle_number Ha) as [Hpack Hbytes].
  unfold drive_aisle_direct, bind. rewrite get_next_comm_number_eq.
  unfold lift. rewrite Hpack.
  rewrite bytes_of_bytes by (destruct use_drop_sensor, use_elevator; solve_bytes).
  set (text := [comm_number self; _; _] ++ _).
  assert (Ht : is_bytes text).
  { apply Forall_app; split; [|done].
    destruct use_drop_sensor, use_elevator; solve_bytes. }
  destruct callback as [cb|]; simpl;
    match goal with
    | |- context [queue_command ?c ?t ?cb ?k ?s] =>
        pose proof (queue_command_Ok c t cb k s Ht ltac:(by vm_compute)) as Hq;
        destruct (queue_command c t cb k s) as [[[]|e] s']; simpl in Hq |- *; congruence
    end.
Qed.

Lemma check_aisle_Ok (aisle_number : Z) (callback : option Callback)
    (self : VendingMachineController.t) :
  0 <= aisle_number <= 65535 -> is_byte (comm_number self) ->
  fst (check_aisle aisle_number callback self) = Ok true.
Proof.
  intros Ha Hc. destruct (struct_pack_H_Ok aisle_number Ha) as [Hpack Hbytes].
  unfold check_aisle, bind. rewrite get_next_comm_number_eq.
  unfold lift. rewrite Hpack, bytes_of_bytes by solve_bytes.
  set (text := [comm_number self] ++ _).
  assert (Ht : is_bytes text) by (apply Forall_app; split; [solve_bytes|done]).
  destruct callback as [cb|]; simpl;
    match goal with
    | |- context [queue_command ?c ?t ?cb ?k ?s] =>
        pose proof (queue_command_Ok c t cb k s Ht ltac:(by vm_compute)) as Hq;
        destruct (queue_command c t cb k s) as [[[]|e] s']; simpl in Hq |- *; congruence
    end.
Qed.

(** C7, as the claim states it, fails for [check_aisle_status]: on a connected
    controller the status check for aisle 5 suspends, and when the await times
    out the response has the message "Status check timed out" and the status
    NOT_EXIST ([AisleStatusEnum] has no FAILED member). *)
Lemma status_check_timeout_message :
  let self := DispenseService.__init__ (snd (connect true (__init__ 5))) in
  exists future timeout resume self',
    DispenseService.check_aisle_status (fun _ => "error") 5 10000 1%nat self
      = (Await future timeout resume, self') /\
    AisleStatusResponse.message (fst (resume TimeoutError self'))
      = "Status check timed out" /\
    AisleStatusResponse.message (fst (resume TimeoutError self'))
      <> "Operation timed out" /\
    AisleStatusResponse.status (fst (resume TimeoutError self'))
      = AisleStatusEnum.NOT_EXIST.
Proof.
  simpl. eexists _, _, _, _. split; [reflexivity|].
  split; [reflexivity|]. split; [discriminate|reflexivity].
Qed.

(** C7, amended: on a connected controller, for an aisle number of 16 bits,
    both operations suspend on their future; when the await of [dispense]
    times out it returns a response with [success = false], status FAILED and
    the message "Operation timed out", and when the await of
    [check_aisle_status] times out it returns a response with status NOT_EXIST
    and the message "Status check timed out". Both remove their pending
    entry. *)
Theorem timeout_responses
    (str : exn -> string) (self : DispenseService.t)
    (request : DispenseRequest.t) (aisle_number : Z) (timeout timeout' : Z)
    (uuid4_hex : string) (future future' : Future) :
  is_connected (DispenseService.controller self) = true ->
  is_byte (comm_number (DispenseService.controller self)) ->
  0 <= DispenseRequest.aisle_number request <= 65535 ->
  0 <= aisle_number <= 65535 ->
  (exists resume self',
     DispenseService.dispense str request timeout uuid4_hex future self
       = (Await future timeout resume, self') /\
     forall later : DispenseService.t,
       resume TimeoutError later =
         ({| DispenseResponse.success := false;
             DispenseResponse.aisle_number := DispenseRequest.aisle_number request;
             DispenseResponse.status := DispenseStatusEnum.FAILED;
             DispenseResponse.message := "Operation timed out";
             DispenseResponse.transaction_id :=
               Some (String.append "txn_" (String.substring 0 12 uuid4_hex)) |},
          DispenseService.set_pending_dispenses
            (delete (DispenseRequest.aisle_number request)
               (DispenseService._pending_dispenses later)) later)) /\
  (exists resume self',
     DispenseService.check_aisle_status str aisle_number timeout' future' self
       = (Await future' timeout' resume, self') /\
     forall later : DispenseService.t,
       resume TimeoutError later =
         ({| AisleStatusResponse.aisle_number := aisle_number;
             AisleStatusResponse.status := AisleStatusEnum.NOT_EXIST;
             AisleStatusResponse.message := "Status check timed out" |},
          DispenseService.set_pending_status_checks
            (delete aisle_number (DispenseService._pending_status_checks later)) later)).
Proof.
  intros Hconn Hcomm Hreq Haisle. split.
  - unfold DispenseService.dispense. rewrite Hconn. simpl.
    match goal with
    | |- context [fst ?submitted] =>
        assert (Hsub : fst submitted = Ok true)
          by (destruct (DispenseRequest.force request);
              [by apply drive_aisle_direct_Ok | by apply dispense_Ok]);
        rewrite Hsub
    end.
    eexists _, _. split; [reflexivity|]. done.
  - unfold DispenseService.check_aisle_status. rewrite Hconn. simpl.
    rewrite check_aisle_Ok by done.
    eexists _, _. split; [reflexivity|]. done.
Qed.

Lemma timeout_responses_witness :
  let self := DispenseService.__init__ (snd (connect true (__init__ 5))) in
  let request :=
    {| DispenseRequest.aisle_number := 5; DispenseRequest.use_drop_sensor := true;
       DispenseRequest.use_elevator := false; DispenseRequest.force := false |} in
  exists resume self',
    DispenseService.dispense (fun _ => "error") request 30000 "0123456789abcdef" 1%nat self
      = (Await 1%nat 30000 resume, self') /\
    DispenseResponse.message (fst (resume TimeoutError self')) = "Operation timed out".
Proof.
  intros self request.
  destruct (timeout_responses (fun _ => "error") self request 5 30000 10000
              "0123456789abcdef" 1%nat 2%nat eq_refl
              ltac:(unfold is_byte; simpl; lia) ltac:(simpl; lia) ltac:(lia))
    as [(resume & self' & Hd & Ht) _].
  exists resume, self'. split; [exact Hd|]. by rewrite Ht.
Defined.

(** * Further properties of the framing *)

Lemma of_value_inv (v : Z) (command : Command.t) :
  Command.of_value v = Ok command -> v = Command.value command.
Proof.
  destruct v as [|p|p]; [done| |done].
  do 7 (try destruct p as [p|p|]); simpl; try done; by intros [= <-].
Qed.

Lemma of_value_raises (v : Z) (e : exn) :
  Command.of_value v = Raise e -> e = ValueError.
Proof.
  destruct v as [|p|p]; [by intros [= <-]| |by intros [= <-]].
  do 7 (try destruct p as [p|p|]); simpl; try done; by intros [= <-].
Qed.

Lemma index_Ok (data : bytes) (i : Z) :
  0 <= i < len data -> exists b, index data i = Ok b.
Proof.
  intros Hi. unfold index, len in *.
  destruct (lookup_lt_is_Some_2 data (Z.to_nat i) ltac:(lia)) as [b Hb].
  exists b. by rewrite Hb.
Qed.

(** X1. The XOR of all the bytes of a frame, checksum included, is zero, and a
    frame is five bytes longer than its text. *)
Theorem frame_checksum_zero (command : Command.t) (text frame : bytes) :
  create_packet command text = Ok frame ->
  calculate_xor frame = 0 /\ len frame = 5 + len text.
Proof.
  intros H. apply create_packet_Ok in H as [_ ->]. split.
  - change (0xFA :: 0xFB :: Command.value command :: len text :: text ++ [?x])
      with ((0xFA :: 0xFB :: Command.value command :: len text :: text) ++ [x]).
    rewrite calculate_xor_app.
    replace (calculate_xor [_]) with
      (calculate_xor (0xFA :: 0xFB :: Command.value command :: len text :: text))
      by (unfold calculate_xor at 2; simpl; by rewrite Z.lxor_0_l).
    apply Z.lxor_nilpotent.
  - unfold len. simpl. rewrite length_app. simpl. lia.
Qed.

Lemma frame_checksum_zero_witness :
  calculate_xor [0xFA; 0xFB; 0x03; 0x03; 0x01; 0x00; 0x05; 0x05] = 0 /\
  len [0xFA; 0xFB; 0x03; 0x03; 0x01; 0x00; 0x05; 0x05] = 5 + len [0x01; 0x00; 0x05].
Proof.
  exact (frame_checksum_zero Command.SELECT_BUY [0x01; 0x00; 0x05] _ eq_refl).
Defined.

(** X2. [create_packet] raises [ValueError] exactly for the texts of more than 255
    bytes: the length does not fit the length byte. *)
Theorem create_packet_raises_iff (command : Command.t) (text : bytes) :
  is_bytes text ->
  (create_packet command text = Raise ValueError <-> 255 < len text) /\
  (forall e, create_packet command text = Raise e -> e = ValueError).
Proof.
  intros Ht. destruct (Z.le_gt_cases (len text) 255) as [Hle|Hgt].
  - rewrite create_packet_bytes by done. split; [|done]. split; [done|lia].
  - assert (H : create_packet command text = Raise ValueError).
    { unfold create_packet, bytes_of. simpl.
      replace (byte_ok (len text)) with false
        by (symmetry; unfold byte_ok; apply andb_false_iff; right; lia).
      by rewrite andb_false_r. }
    rewrite H. split; [split; [lia|done]|]. by intros e [= <-].
Qed.

Lemma create_packet_raises_iff_witness :
  create_packet Command.POS_DISPLAY (replicate 256 0x20) = Raise ValueError.
Proof.
  apply (create_packet_raises_iff Command.POS_DISPLAY (replicate 256 0x20)).
  - apply Forall_replicate. unfold is_byte. lia.
  - vm_compute. reflexivity.
Defined.

(** X3. [parse_packet] never raises: every index it reads is guarded by a length
    test, and the [ValueError] of an unknown command byte is caught. *)
Theorem parse_packet_never_raises (data : bytes) :
  exists r, parse_packet data = Ok r.
Proof.
  unfold parse_packet.
  destruct (len data <? 5) eqn:H5; [eauto|]. apply Z.ltb_ge in H5.
  destruct (negb _); [eauto|].
  destruct (index_Ok data 2 ltac:(lia)) as [c ->].
  destruct (index_Ok data 3 ltac:(lia)) as [n ->]. simpl.
  destruct (len data <? 5 + n) eqn:Hn; [eauto|]. apply Z.ltb_ge in Hn.
  assert (Hx : exists x, index data (4 + n) = Ok x).
  { unfold index, len in *.
    destruct (lookup_lt_is_Some_2 data (Z.to_nat (4 + n)) ltac:(lia)) as [x Hx].
    exists x. by rewrite Hx. }
  destruct Hx as [x ->]. simpl.
  destruct (negb _); [eauto|].
  destruct (Command.of_value c) as [command|e] eqn:Hc; [eauto|].
  apply of_value_raises in Hc as ->. eauto.
Qed.

(** Data that [parse_packet] accepts begins with the frame of what it returns. *)
Lemma parse_packet_Some_frame (data : bytes) (command : Command.t) (text : bytes) :
  is_bytes data ->
  parse_packet data = Ok (Some (command, text)) ->
  exists frame rest, create_packet command text = Ok frame /\ data = frame ++ rest.
Proof.
  intros Hdata H.
  assert (H5 : 5 <= len data).
  { destruct (Z.lt_ge_cases (len data) 5) as [Hlt|]; [|done].
    unfold parse_packet in H. apply Z.ltb_lt in Hlt. by rewrite Hlt in H. }
  destruct data as [|a [|b [|c [|n tail]]]]; try (unfold len in H5; simpl in H5; lia).
  assert (Hstx : [a; b] = STX).
  { destruct (decide ([a; b] = STX)) as [|Hne]; [done|].
    unfold parse_packet in H. destruct (len _ <? 5); [done|].
    rewrite bool_decide_eq_false_2 in H by exact Hne. done. }
  injection Hstx as -> ->.
  assert (Hn : is_byte n).
  { eapply (Forall_lookup_1 _ _ 3%nat); [exact Hdata|done]. }
  assert (Hlen : 5 + n <= len (0xFA :: 0xFB :: c :: n :: tail)).
  { unfold parse_packet in H. destruct (len _ <? 5); [done|].
    destruct (negb _); [done|].
    replace (index _ 2) with (Ok (A:=Z) c) in H by reflexivity.
    replace (index _ 3) with (Ok (A:=Z) n) in H by reflexivity.
    simpl rbind in H.
    destruct (len _ <? 5 + n) eqn:E; [done|]. by apply Z.ltb_ge in E. }
  assert (Htail : (Z.to_nat n < length tail)%nat).
  { unfold len in Hlen. simpl in Hlen. destruct Hn. lia. }
  destruct (lookup_lt_is_Some_2 tail _ Htail) as [x Hx].
  assert (Hsplit : tail = take (Z.to_nat n) tail ++ x :: drop (S (Z.to_nat n)) tail)
    by (by rewrite take_drop_middle).
  assert (Hlt : n = len (take (Z.to_nat n) tail)).
  { unfold len. rewrite length_take. destruct Hn. lia. }
  rewrite Hsplit in H.
  rewrite (parse_packet_layout c n x _ _ Hlt) in H.
  destruct (x =? _) eqn:Hxor; [|done]. apply Z.eqb_eq in Hxor.
  destruct (Command.of_value c) as [command'|e] eqn:Hc; [|by destruct e].
  injection H as -> <-. apply of_value_inv in Hc as ->.
  eexists _, (drop (S (Z.to_nat n)) tail). split.
  + apply create_packet_bytes.
    * apply Forall_take. by do 4 apply Forall_cons_1 in Hdata as [_ Hdata].
    * destruct Hn. lia.
  + rewrite <- Hlt, <- Hxor. simpl. rewrite <- app_assoc. simpl.
    by rewrite <- Hsplit.
Qed.

(** X4. [parse_packet] accepts exactly the byte strings that begin with an encoded
    frame: it returns [(command, text)] if and only if the data is the frame
    of that command and text followed by any bytes. *)
Theorem parse_packet_accepts_iff (data : bytes) (command : Command.t) (text : bytes) :
  is_bytes data ->
  (parse_packet data = Ok (Some (command, text)) <->
   exists frame rest, create_packet command text = Ok frame /\ data = frame ++ rest).
Proof.
  intros Hdata. split.
  - by apply parse_packet_Some_frame.
  - intros (frame & rest & Hframe & ->).
    apply create_packet_Ok in Hframe as [_ ->]. simpl. rewrite <- app_assoc. simpl.
    rewrite parse_packet_layout by done.
    by rewrite Z.eqb_refl, of_value_value.
Qed.

Lemma parse_packet_accepts_iff_witness :
  parse_packet [0xFA; 0xFB; 0x42; 0x00; 0x43; 0x99; 0x98] = Ok (Some (Command.ACK, [])).
Proof.
  apply (parse_packet_accepts_iff [0xFA; 0xFB; 0x42; 0x00; 0x43; 0x99; 0x98] Command.ACK []);
    [solve_bytes|].
  exists [0xFA; 0xFB; 0x42; 0x00; 0x43], [0x99; 0x98]. by split.
Defined.

(** X5. A frame cut short is rejected: [parse_packet] returns [None] on every
    proper prefix of a frame. *)
Theorem truncated_frame_rejected
    (command : Command.t) (text frame : bytes) (n : nat) :
  create_packet command text = Ok frame ->
  (n < length frame)%nat ->
  parse_packet (take n frame) = Ok None.
Proof.
  intros Hframe Hn. apply create_packet_Ok in Hframe as [_ ->].
  unfold parse_packet.
  destruct (len (take n _) <? 5) eqn:H5; [done|]. apply Z.ltb_ge in H5.
  destruct (negb _); [done|].
  assert (Hlen : len (take n (0xFA :: 0xFB :: Command.value command :: len text :: text ++
                    [calculate_xor (0xFA :: 0xFB :: Command.value command :: len text :: text)]))
                 = Z.of_nat n).
  { unfold len at 1. rewrite length_take. f_equal. apply Nat.min_l. lia. }
  rewrite Hlen in *.
  destruct n as [|[|[|[|n]]]]; try lia. simpl take.
  replace (index _ 2) with (Ok (A:=Z) (Command.value command)) by reflexivity.
  replace (index _ 3) with (Ok (A:=Z) (len text)) by reflexivity.
  simpl rbind.
  replace (_ <? _) with true; [done|].
  symmetry. apply Z.ltb_lt. simpl in Hn. rewrite length_app in Hn. simpl in Hn.
  unfold len. lia.
Qed.

Lemma truncated_frame_rejected_witness :
  parse_packet (take 7 [0xFA; 0xFB; 0x03; 0x03; 0x01; 0x00; 0x05; 0x05]) = Ok None.
Proof.
  apply (truncated_frame_rejected Command.SELECT_BUY [0x01; 0x00; 0x05]);
    [reflexivity | simpl; lia].
Defined.

(** * Further properties of the framing loop *)

(** The loop on bytes without STX in front of a frame and any bytes behind. *)
Lemma decode_garbage_frame_rest
    (garbage : bytes) (command : Command.t) (text frame rest : bytes) :
  find garbage STX = -1 ->
  create_packet command text = Ok frame ->
  is_bytes rest ->
  decode (garbage ++ frame ++ rest) =
    match decode rest with
    | Some (frames, leftover) => Some ((command, text) :: frames, leftover)
    | None => None
    end.
Proof.
  intros Hg Hframe Hrest. apply create_packet_Ok in Hframe as [_ ->].
  unfold decode at 1. simpl app. rewrite <- app_assoc. simpl app.
  rewrite listen_loop_frames_candidate by done.
  rewrite parse_packet_layout by done.
  rewrite Z.eqb_refl, of_value_value.
  rewrite decode_fuel; [done|done|].
  rewrite !length_app. simpl. rewrite length_app. simpl. lia.
Qed.

(** X6. Frames that follow each other are decoded one after the other: a frame,
    after bytes without STX, is yielded first, and then the loop goes on with
    the bytes behind it as if they were the whole buffer. *)
Theorem decode_frame_then_rest
    (garbage : bytes) (command : Command.t) (text frame rest : bytes) :
  find garbage STX = -1 ->
  create_packet command text = Ok frame ->
  is_bytes rest ->
  exists frames leftover,
    decode rest = Some (frames, leftover) /\
    decode (garbage ++ frame ++ rest) = Some ((command, text) :: frames, leftover).
Proof.
  intros Hg Hframe Hrest.
  destruct (decode_terminates rest Hrest) as [[frames leftover] Hdec].
  exists frames, leftover. split; [done|].
  rewrite (decode_garbage_frame_rest _ _ _ _ _ Hg Hframe Hrest). by rewrite Hdec.
Qed.

Lemma decode_frame_then_rest_witness :
  decode ([0x00] ++ [0xFA; 0xFB; 0x41; 0x00; 0x40] ++ [0xFA; 0xFB; 0x42; 0x00; 0x43])
  = Some ([(Command.POLL, []); (Command.ACK, [])], []).
Proof.
  destruct (decode_frame_then_rest [0x00] Command.POLL [] [0xFA; 0xFB; 0x41; 0x00; 0x40]
              [0xFA; 0xFB; 0x42; 0x00; 0x43] eq_refl eq_refl ltac:(solve_bytes))
    as (frames & leftover & Hrest & Hall).
  vm_compute in Hrest. injection Hrest as <- <-. exact Hall.
Defined.

(** X7. A buffer of fewer than five bytes is leftover as it is; a buffer of five bytes
    or more in which STX does not occur is emptied, whatever its last byte. *)
Theorem decode_short_or_without_stx (buffer : bytes) :
  (len buffer < 5 -> decode buffer = Some ([], buffer)) /\
  (5 <= len buffer -> find buffer STX = -1 -> decode buffer = Some ([], [])).
Proof.
  unfold decode. simpl. split.
  - intros H. replace (5 <=? len buffer) with false; [done|].
    symmetry. by apply Z.leb_gt.
  - intros H Hf. replace (5 <=? len buffer) with true by (symmetry; by apply Z.leb_le).
    by rewrite Hf.
Qed.

Lemma decode_short_or_without_stx_witness :
  decode [0xFA; 0xFB; 0x42; 0x00] = Some ([], [0xFA; 0xFB; 0x42; 0x00]) /\
  decode [0x01; 0x02; 0x03; 0x04; 0xFA] = Some ([], []).
Proof.
  split.
  - apply (proj1 (decode_short_or_without_stx _)). vm_compute. reflexivity.
  - apply (proj2 (decode_short_or_without_stx _)); [vm_compute; discriminate | reflexivity].
Defined.

(** X8. A frame that arrives in two chunks: the loop keeps the first chunk in the
    buffer and yields nothing, and yields the frame once the second chunk is
    appended. *)
Theorem decode_frame_in_two_chunks
    (command : Command.t) (text frame chunk1 chunk2 : bytes) :
  create_packet command text = Ok frame ->
  frame = chunk1 ++ chunk2 -> chunk2 <> [] ->
  decode chunk1 = Some ([], chunk1) /\
  decode (chunk1 ++ chunk2) = Some ([(command, text)], []).
Proof.
  intros Hframe Hsplit Hne. split.
  - assert (Hlt : (length chunk1 < length frame)%nat).
    { rewrite Hsplit, length_app. destruct chunk2; [done|]. simpl. lia. }
    assert (Hc : chunk1 = take (length chunk1) frame)
      by (by rewrite Hsplit, take_app_length).
    apply create_packet_Ok in Hframe as [_ Hf]. rewrite Hf in Hc, Hlt.
    clear Hsplit Hf. unfold decode. generalize (length chunk1) at 1. intros fuel.
    simpl.
    destruct (5 <=? len chunk1) eqn:H5; [|done]. apply Z.leb_le in H5. simpl.
    unfold len in H5.
    destruct (length chunk1) as [|[|[|[|n]]]] eqn:Hlen; try lia.
    simpl in Hc. rewrite Hc.
    replace (find _ STX) with 0 by reflexivity. simpl.
    destruct (len _ <? 5); [done|].
    replace (len _ <? 5 + len text) with true; [done|].
    symmetry. apply Z.ltb_lt. rewrite <- Hc. unfold len. rewrite Hlen.
    simpl in Hlt. rewrite length_app in Hlt. simpl in Hlt. lia.
  - rewrite <- Hsplit.
    replace frame with ([] ++ frame ++ []) by (simpl; apply app_nil_r).
    rewrite (decode_garbage_frame_rest [] command text frame []);
      [done | done | done | constructor].
Qed.

Lemma decode_frame_in_two_chunks_witness :
  decode [0xFA; 0xFB; 0x03; 0x03; 0x01; 0x00] = Some ([], [0xFA; 0xFB; 0x03; 0x03; 0x01; 0x00]) /\
  decode ([0xFA; 0xFB; 0x03; 0x03; 0x01; 0x00] ++ [0x05; 0x05])
  = Some ([(Command.SELECT_BUY, [0x01; 0x00; 0x05])], []).
Proof.
  apply (decode_frame_in_two_chunks Command.SELECT_BUY [0x01; 0x00; 0x05]
           [0xFA; 0xFB; 0x03; 0x03; 0x01; 0x00; 0x05; 0x05]);
    [reflexivity | reflexivity | discriminate].
Defined.





(** * Invariants of the controller *)

Lemma keeps_ret (P : VendingMachineController.t -> Prop) {A} (a : A) : keeps P (ret a).
Proof. by intros self H. Qed.

Lemma keeps_raise (P : VendingMachineController.t -> Prop) {A} (e : exn) :
  keeps P (raise (A:=A) e).
Proof. by intros self H. Qed.

Lemma keeps_lift (P : VendingMachineController.t -> Prop) {A} (r : result A) :
  keeps P (lift r).
Proof. by intros self H. Qed.

Lemma keeps_bind (P : VendingMachineController.t -> Prop) {A B} (m : M A) (k : A -> M B) :
  keeps P m -> (forall a, keeps P (k a)) -> keeps P (bind m k).
Proof.
  intros Hm Hk self H. unfold bind.
  specialize (Hm self H). destruct (m self) as [[a|e] self']; simpl in *; [|done].
  by apply Hk.
Qed.

Lemma keeps_bind_get (P : VendingMachineController.t -> Prop) {B}
    (k : VendingMachineController.t -> M B) :
  (forall self, P self -> P (snd (k self self))) -> keeps P (bind get k).
Proof. intros Hk self H. unfold bind, get. by apply Hk. Qed.

Lemma keeps_try_except (P : VendingMachineController.t -> Prop) {A}
    (body : M A) (handler : exn -> M A) :
  keeps P body -> (forall e, keeps P (handler e)) -> keeps P (try_except body handler).
Proof.
  intros Hb Hh self H. unfold try_except.
  specialize (Hb self H). destruct (body self) as [[a|e] self']; simpl in *; [done|].
  by apply Hh.
Qed.

Lemma keeps_modify (P : VendingMachineController.t -> Prop)
    (f : VendingMachineController.t -> VendingMachineController.t) :
  (forall self, P self -> P (f self)) -> keeps P (modify f).
Proof. intros Hf self H. by apply Hf. Qed.

(** [wf] looks at the retry limit, the communication number and the queue. *)
Lemma wf_same (max : Z) (self self' : VendingMachineController.t) :
  max_retries self' = max_retries self ->
  comm_number self' = comm_number self ->
  command_queue self' = command_queue self ->
  wf max self -> wf max self'.
Proof. unfold wf. by intros -> -> ->. Qed.

Lemma keeps_wf_modify_same (max : Z)
    (f : VendingMachineController.t -> VendingMachineController.t) :
  (forall self, max_retries (f self) = max_retries self /\
                comm_number (f self) = comm_number self /\
                command_queue (f self) = command_queue self) ->
  keeps (wf max) (modify f).
Proof.
  intros Hf. apply keeps_modify. intros self H.
  destruct (Hf self) as (H1 & H2 & H3). by eapply wf_same.
Qed.

Ltac keeps_step :=
  first
    [ apply keeps_ret | apply keeps_raise | apply keeps_lift
    | apply keeps_try_except; [|intros ?]
    | apply keeps_wf_modify_same; intros ?; done
    | apply keeps_bind; [|intros ?] ].

Lemma keeps_wf_serial_write (max : Z) (io_ok : bool) (data : bytes) :
  keeps (wf max) (serial_write io_ok data).
Proof.
  intros self H. unfold serial_write, bind, get, modify, raise. simpl.
  destruct (serial self) as [s|]; [|done]. by destruct (is_open s && io_ok).
Qed.

Lemma keeps_wf_send_ack (max : Z) (io_ok : bool) : keeps (wf max) (send_ack io_ok).
Proof.
  intros self H. rewrite send_ack_eq.
  by destruct (match serial self with Some _ => _ | None => _ end).
Qed.

Lemma keeps_wf_get_next_comm_number (max : Z) : keeps (wf max) get_next_comm_number.
Proof.
  intros self (Hm & Hc & Hq). rewrite get_next_comm_number_eq. simpl.
  split; [done|]. split; [|done]. simpl.
  pose proof (Z.mod_pos_bound (comm_number self) 255 ltac:(lia)). lia.
Qed.

Lemma keeps_wf_queue_command (max : Z) (command : Command.t) (text : bytes)
    (callback : option Callback) (callback_key : option Z) :
  keeps (wf max) (queue_command command text callback callback_key).
Proof.
  intros self (Hm & Hc & Hq). unfold queue_command, bind, lift, get, modify.
  destruct (create_packet command text) as [packet|e] eqn:Hp; [|done]. simpl.
  split; [done|]. split; [done|]. simpl.
  apply Forall_app. split; [done|]. apply List.Forall_cons; [|constructor].
  unfold entry_wf. simpl. repeat split; try done; try lia; try by left.
Qed.

Lemma keeps_wf_handle_dispensing_status (max : Z) (data : bytes) :
  keeps (wf max) (handle_dispensing_status data).
Proof.
  unfold handle_dispensing_status.
  destruct (len data <? 4); [apply keeps_ret|].
  do 3 (apply keeps_bind; [apply keeps_lift|intros ?]).
  apply keeps_bind; [repeat case_match; keeps_step|intros status].
  apply keeps_bind_get. intros self H.
  destruct (dispense_callbacks self !! a1); [|done].
  unfold bind, modify, get, call. simpl.
  by repeat case_match.
Qed.

Lemma keeps_wf_handle_aisle_status_response (max : Z) (data : bytes) :
  keeps (wf max) (handle_aisle_status_response data).
Proof.
  unfold handle_aisle_status_response.
  destruct (len data <? 4); [apply keeps_ret|].
  do 3 (apply keeps_bind; [apply keeps_lift|intros ?]).
  apply keeps_bind; [repeat case_match; keeps_step|intros status].
  apply keeps_bind_get. intros self H.
  by destruct (aisle_status_callbacks self !! a1).
Qed.

Lemma entry_wf_timeout (max : Z) (c : cmd_info.t) :
  entry_wf max c ->
  (cmd_info.max_retries c <=? cmd_info.retries c + 1) = false ->
  entry_wf max
    (cmd_info.set_waiting_ack false (cmd_info.set_retries (cmd_info.retries c + 1) c)).
Proof.
  intros (Hp & Hm & H0 & Hr & Hs) Hlt. apply Z.leb_gt in Hlt.
  unfold entry_wf. simpl. repeat split; try done; try lia.
Qed.

Lemma entry_wf_sent (max now : Z) (c : cmd_info.t) :
  entry_wf max c ->
  entry_wf max (cmd_info.set_sent_time (Some now) (cmd_info.set_waiting_ack true c)).
Proof.
  intros (Hp & Hm & H0 & Hr & Hs). unfold entry_wf. simpl.
  repeat split; try done; try by eexists.
Qed.

Lemma keeps_wf_handle_poll (max : Z) (now : Z) (io_ok : bool) :
  keeps (wf max) (handle_poll now io_ok).
Proof.
  unfold handle_poll. apply keeps_bind; [|intros ?].
  - apply keeps_bind_get. intros self H.
    assert (Hsame : wf max (snd (ret (A:=unit) tt self))) by done.
    destruct H as (Hm & Hc & Hq).
    destruct (command_queue self) as [|c rest] eqn:Hcq; [done|].
    destruct (cmd_info.waiting_ack c); [|done].
    destruct (cmd_info.sent_time c) as [sent_time|]; [|done].
    destruct (COMMAND_TIMEOUT <? now - sent_time); [|done].
    apply Forall_cons_1 in Hq as [Hc0 Hrest].
    simpl. destruct (_ <=? _) eqn:Hle; simpl.
    + split; [done|]. split; [exact Hc|exact Hrest].
    + split; [done|]. split; [exact Hc|]. simpl. apply List.Forall_cons; [|done].
      by apply entry_wf_timeout.
  - apply keeps_bind_get. intros self H.
    assert (Hack : wf max (snd ((send_ack io_ok ;;; ret tt) self))).
    { apply (keeps_bind (wf max) (send_ack io_ok) (fun _ => ret tt));
        [apply keeps_wf_send_ack | intros; apply keeps_ret | done]. }
    assert (H' := H). destruct H' as (Hm & Hc & Hq).
    destruct (command_queue self) as [|c rest] eqn:Hcq; [done|].
    destruct (negb (cmd_info.waiting_ack c)); [|done].
    apply Forall_cons_1 in Hq as [Hc0 Hrest].
    apply keeps_try_except; [|intros; apply keeps_ret|done].
    apply keeps_bind; [apply keeps_wf_serial_write|intros ?].
    apply keeps_modify. intros self' (Hm' & Hc' & _).
    split; [done|]. split; [exact Hc'|].
    simpl. apply List.Forall_cons; [|done]. by apply entry_wf_sent.
Qed.

Ltac keeps_method :=
  repeat first
    [ apply keeps_wf_get_next_comm_number
    | apply keeps_wf_queue_command
    | apply keeps_wf_send_ack
    | apply keeps_wf_handle_poll
    | apply keeps_wf_handle_dispensing_status
    | apply keeps_wf_handle_aisle_status_response
    | keeps_step
    | match goal with |- keeps _ (match ?x with _ => _ end) => destruct x end ].

Lemma keeps_wf_request_info_sync (max : Z) : keeps (wf max) request_info_sync.
Proof. unfold request_info_sync. keeps_method. Qed.

Lemma keeps_wf_check_aisle (max : Z) (aisle_number : Z) (callback : option Callback) :
  keeps (wf max) (check_aisle aisle_number callback).
Proof. unfold check_aisle. keeps_method. Qed.

Lemma keeps_wf_dispense (max : Z) (aisle_number : Z) (callback : option Callback) :
  keeps (wf max) (dispense aisle_number callback).
Proof. unfold dispense. keeps_method. Qed.

Lemma keeps_wf_drive_aisle_direct (max : Z) (aisle_number : Z)
    (use_drop_sensor use_elevator : bool) (callback : option Callback) :
  keeps (wf max) (drive_aisle_direct aisle_number use_drop_sensor use_elevator callback).
Proof. unfold drive_aisle_direct. keeps_method. Qed.

Lemma keeps_wf_set_aisle_inventory (max : Z) (aisle_number inventory : Z) :
  keeps (wf max) (set_aisle_inventory aisle_number inventory).
Proof. unfold set_aisle_inventory. keeps_method. Qed.

Lemma keeps_wf_request_machine_status (max : Z) : keeps (wf max) request_machine_status.
Proof. unfold request_machine_status. keeps_method. Qed.

Lemma keeps_wf_connect (max : Z) (opened : bool) : keeps (wf max) (connect opened).
Proof. unfold connect. destruct opened; keeps_method. Qed.

Lemma keeps_wf_stop (max : Z) : keeps (wf max) stop.
Proof. unfold stop. keeps_method. Qed.

Lemma keeps_wf_disconnect (max : Z) : keeps (wf max) disconnect.
Proof.
  unfold disconnect. apply keeps_bind; [apply keeps_wf_stop|intros ?].
  apply keeps_bind; [|intros ?; keeps_method].
  apply keeps_bind_get. intros self H.
  destruct (serial self) as [s|]; [|done]. by destruct (is_open s).
Qed.

Lemma keeps_wf_start (max : Z) : keeps (wf max) start.
Proof.
  unfold start. apply keeps_bind_get. intros self H.
  destruct (negb _); [done|].
  assert (Hp : keeps (wf max) (modify (set_running true) ;;; request_info_sync ;;; ret true))
    by (keeps_method; apply keeps_wf_request_info_sync).
  exact (Hp self H).
Qed.

Lemma keeps_wf_handle_received_packet (max : Z) (command : Command.t) (text : bytes)
    (now : Z) (io_ok : bool) :
  keeps (wf max) (handle_received_packet command text now io_ok).
Proof.
  destruct command; unfold handle_received_packet;
    try (keeps_method; apply keeps_wf_request_info_sync).
  apply keeps_bind_get. intros self H.
  assert (H' := H). destruct H' as (Hm & Hc & Hq).
  destruct (command_queue self) as [|c rest] eqn:Hcq; [done|].
  destruct (cmd_info.waiting_ack c); simpl; [|done].
  apply Forall_cons_1 in Hq as [_ Hrest]. by split.
Qed.

Lemma step_wf (max : Z) (e : Event) (self : VendingMachineController.t) :
  wf max self -> wf max (step e self).
Proof.
  destruct e; simpl;
    [ apply keeps_wf_connect | apply keeps_wf_disconnect
    | apply keeps_wf_start | apply keeps_wf_stop
    | apply keeps_wf_queue_command | apply keeps_wf_request_info_sync
    | apply keeps_wf_check_aisle | apply keeps_wf_dispense
    | apply keeps_wf_drive_aisle_direct | apply keeps_wf_set_aisle_inventory
    | apply keeps_wf_request_machine_status
    | apply keeps_wf_handle_received_packet ].
Qed.

Lemma run_wf (max : Z) (events : list Event) :
  forall self : VendingMachineController.t, wf max self -> wf max (run events self).
Proof.
  induction events as [|e events IH]; intros self H; [done|].
  simpl. apply IH. by apply step_wf.
Qed.

Lemma init_wf (max : Z) : wf max (__init__ max).
Proof. split; [done|]. split; [simpl; lia|constructor]. Qed.

(** X10. In every state a controller reaches, the communication number is one of
    1..255, whatever calls and frames came before (the calls that raise
    included). *)
Theorem reachable_comm_number (max : Z) (events : list Event) :
  1 <= comm_number (run events (__init__ max)) <= 255.
Proof. apply (run_wf max events _ (init_wf max)). Qed.

(** X11. In every state a controller reaches, each entry of the outbound queue holds
    the frame of its own command and text (which [parse_packet] decodes back),
    has the retry limit of the controller, and has a send time when it is in
    flight. *)
Theorem reachable_queue_entries (max : Z) (events : list Event) (c : cmd_info.t) :
  c ∈ command_queue (run events (__init__ max)) ->
  create_packet (cmd_info.command c) (cmd_info.text c) = Ok (cmd_info.packet c) /\
  parse_packet (cmd_info.packet c) = Ok (Some (cmd_info.command c, cmd_info.text c)) /\
  cmd_info.max_retries c = max /\
  (cmd_info.waiting_ack c = true -> is_Some (cmd_info.sent_time c)).
Proof.
  intros Hc. destruct (run_wf max events _ (init_wf max)) as (_ & _ & Hq).
  rewrite Forall_forall in Hq. destruct (Hq c Hc) as (Hp & Hm & _ & _ & Hs).
  repeat split; try done.
  apply create_packet_Ok in Hp as Hf. destruct Hf as [_ Hf]. rewrite Hf.
  rewrite parse_packet_layout by done.
  by rewrite Z.eqb_refl, of_value_value.
Qed.

Lemma reachable_queue_entries_witness :
  let c :=
    {| cmd_info.packet := [0xFA; 0xFB; 0x03; 0x03; 0x01; 0x00; 0x05; 0x05];
       cmd_info.command := Command.SELECT_BUY;
       cmd_info.text := [0x01; 0x00; 0x05];
       cmd_info.retries := 0;
       cmd_info.max_retries := 5;
       cmd_info.waiting_ack := false;
       cmd_info.sent_time := None;
       cmd_info.callback := None;
       cmd_info.callback_key := None |} in
  parse_packet (cmd_info.packet c) = Ok (Some (cmd_info.command c, cmd_info.text c)).
Proof.
  intros c.
  apply (reachable_queue_entries 5 [Call_dispense 5 None] c).
  vm_compute. apply list_elem_of_here.
Defined.

(** X12. With a retry limit of at least one, the retry count of every queued
    command stays below the limit: a command that times out for the last
    allowed time is removed, not kept. *)
Theorem reachable_retries_bounded (max : Z) (events : list Event) (c : cmd_info.t) :
  1 <= max ->
  c ∈ command_queue (run events (__init__ max)) ->
  0 <= cmd_info.retries c < max.
Proof.
  intros Hmax Hc. destruct (run_wf max events _ (init_wf max)) as (_ & _ & Hq).
  rewrite Forall_forall in Hq. destruct (Hq c Hc) as (_ & _ & H0 & Hr & _). lia.
Qed.

Lemma reachable_retries_bounded_witness :
  let events :=
    [Call_connect true; Call_dispense 5 None;
     Received Command.POLL [] 0 true; Received Command.POLL [] 2000 true] in
  Forall (fun c => 0 <= cmd_info.retries c < 5) (command_queue (run events (__init__ 5))) /\
  map cmd_info.retries (command_queue (run events (__init__ 5))) = [1].
Proof.
  intros events. split; [|by vm_compute].
  apply Forall_forall. intros c Hc.
  apply (reachable_retries_bounded 5 events c); [lia | exact Hc].
Defined.

(** * What a POLL does *)

Lemma serial_write_eq (io_ok : bool) (data : bytes) (self : VendingMachineController.t) :
  serial_write io_ok data self =
    if serial_ok io_ok self
    then (Ok tt, set_trace (trace self ++ [Written data]) self)
    else (Raise (match serial self with None => AttributeError | Some _ => SerialException end),
          self).
Proof.
  unfold serial_write, serial_ok, bind, get, modify, raise. simpl.
  destruct (serial self) as [s|]; [|done]. by destruct (is_open s && io_ok).
Qed.

Lemma send_ack_serial_ok (io_ok : bool) (self : VendingMachineController.t) :
  send_ack io_ok self =
    if serial_ok io_ok self
    then (Ok true, set_trace (trace self ++ [Written ACK_frame]) self)
    else (Ok false, self).
Proof. apply send_ack_eq. Qed.

(** The second half of [handle_poll]: send the head if it is not in flight,
    else acknowledge. *)
Lemma handle_poll_eq (now : Z) (io_ok : bool) (self : VendingMachineController.t) :
  handle_poll now io_ok self =
    let first :=
      match command_queue self with
      | c :: rest =>
          if cmd_info.waiting_ack c then
            match cmd_info.sent_time c with
            | None => (Raise TypeError, self)
            | Some sent_time =>
                if COMMAND_TIMEOUT <? now - sent_time then
                  let c' := cmd_info.set_retries (cmd_info.retries c + 1) c in
                  if cmd_info.max_retries c <=? cmd_info.retries c + 1
                  then (Ok tt, set_command_queue rest self)
                  else (Ok tt, set_command_queue (cmd_info.set_waiting_ack false c' :: rest) self)
                else (Ok tt, self)
            end
          else (Ok tt, self)
      | [] => (Ok tt, self)
      end in
    match first with
    | (Raise e, self1) => (Raise e, self1)
    | (Ok _, self1) =>
        match command_queue self1 with
        | c :: rest =>
            if cmd_info.waiting_ack c then
              (Ok tt, if serial_ok io_ok self1
                      then set_trace (trace self1 ++ [Written ACK_frame]) self1
                      else self1)
            else if serial_ok io_ok self1 then
              (Ok tt,
               set_command_queue
                 (cmd_info.set_sent_time (Some now) (cmd_info.set_waiting_ack true c) :: rest)
                 (set_trace (trace self1 ++ [Written (cmd_info.packet c)]) self1))
            else (Ok tt, self1)
        | [] =>
            (Ok tt, if serial_ok io_ok self1
                    then set_trace (trace self1 ++ [Written ACK_frame]) self1
                    else self1)
        end
    end.
Proof.
  unfold handle_poll. unfold bind at 1. unfold bind at 1. unfold get at 1.
  cbv zeta.
  match goal with
  | |- context [match ?f self with _ => _ end] =>
      match goal with
      | |- _ = match ?g with _ => _ end => assert (Hfirst : f self = g)
      end
  end.
  { destruct (command_queue self) as [|c rest]; [done|].
    destruct (cmd_info.waiting_ack c); [|done].
    destruct (cmd_info.sent_time c); [|done].
    destruct (_ <? _); [|done]. simpl.
    by destruct (_ <=? _). }
  rewrite Hfirst. clear Hfirst.
  match goal with |- _ = match ?g with _ => _ end => destruct g as [[[]|e] self1] end;
    [|done].
  unfold bind, get. simpl.
  destruct (command_queue self1) as [|c rest].
  - rewrite send_ack_serial_ok. by destruct (serial_ok io_ok self1).
  - destruct (cmd_info.waiting_ack c); simpl.
    + rewrite send_ack_serial_ok. by destruct (serial_ok io_ok self1).
    + unfold try_except, bind. rewrite serial_write_eq.
      by destruct (serial_ok io_ok self1).
Qed.

(** X13. A POLL makes the host write exactly one frame when the port takes it, and
    nothing when it does not: the frame is the packet of a queued command or
    the ACK frame. It never raises on a controller reached through the
    methods, calls no callback and leaves both callback tables and the
    communication number as they were. *)
Theorem poll_writes_one_frame
    (max now : Z) (io_ok : bool) (self : VendingMachineController.t) :
  wf max self ->
  let self' := snd (handle_poll now io_ok self) in
  fst (handle_poll now io_ok self) = Ok tt /\
  dispense_callbacks self' = dispense_callbacks self /\
  aisle_status_callbacks self' = aisle_status_callbacks self /\
  comm_number self' = comm_number self /\
  if serial_ok io_ok self
  then exists p, trace self' = trace self ++ [Written p] /\
                 (p = ACK_frame \/ p ∈ map cmd_info.packet (command_queue self))
  else trace self' = trace self.
Proof.
  intros (Hm & Hc & Hq). cbv zeta. rewrite handle_poll_eq. cbv zeta.
  destruct (command_queue self) as [|c rest] eqn:Hcq.
  { simpl. rewrite Hcq. unfold serial_ok. simpl.
    destruct (match serial self with Some _ => _ | None => _ end); simpl; eauto 10. }
  apply Forall_cons_1 in Hq as [(_ & _ & _ & _ & Hsent) Hrest].
  destruct (cmd_info.waiting_ack c) eqn:Hw.
  - destruct (Hsent eq_refl) as [t Ht]. rewrite Ht.
    destruct (COMMAND_TIMEOUT <? now - t).
    + destruct (_ <=? _); simpl.
      * destruct rest as [|c' rest']; simpl;
          [|destruct (cmd_info.waiting_ack c')];
          unfold serial_ok; simpl;
          destruct (match serial self with Some _ => _ | None => _ end); simpl;
          repeat split; eauto 10.
        eexists. split; [done|]. right. simpl. by repeat constructor.
      * unfold serial_ok; simpl;
          destruct (match serial self with Some _ => _ | None => _ end); simpl;
          repeat split; eauto 10.
        eexists. split; [done|]. right. simpl. by repeat constructor.
    + simpl. rewrite Hcq, Hw. unfold serial_ok. simpl.
      destruct (match serial self with Some _ => _ | None => _ end); simpl; eauto 10.
  - simpl. rewrite Hcq, Hw. unfold serial_ok. simpl.
    destruct (match serial self with Some _ => _ | None => _ end); simpl;
      repeat split; eauto 10.
    eexists. split; [done|]. right. simpl. by repeat constructor.
Qed.

Lemma poll_writes_one_frame_witness :
  fst (handle_poll 0 true (snd (connect true (__init__ 5)))) = Ok tt.
Proof.
  apply (poll_writes_one_frame 5 0 true (snd (connect true (__init__ 5)))).
  split; [reflexivity|]. split; [simpl; lia|]. simpl. constructor.
Defined.

(** * Status frames *)

Lemma handle_dispensing_status_payload
    (comm_num status_code hi lo : Z) (rest : bytes) (self : VendingMachineController.t) :
  handle_dispensing_status (comm_num :: status_code :: hi :: lo :: rest) self =
    match dispense_callbacks self !! (hi * 256 + lo) with
    | None => (Ok tt, self)
    | Some callback =>
        if decide (status_code = 0x01) then (Ok tt, self)
        else
          (Ok tt,
           set_trace
             (trace self ++
              [Called_dispense callback (dispense_result status_code (hi * 256 + lo))])
             (set_dispense_callbacks
                (delete (hi * 256 + lo) (dispense_callbacks self)) self))
    end.
Proof.
  unfold handle_dispensing_status.
  replace (len _ <? 4) with false
    by (symmetry; apply Z.ltb_ge; unfold len; simpl; lia).
  replace (index _ 0) with (Ok (A:=Z) comm_num) by reflexivity.
  replace (index _ 1) with (Ok (A:=Z) status_code) by reflexivity.
  replace (slice _ 2 4) with [hi; lo] by reflexivity.
  unfold bind, lift, get, modify, call, ret, raise. simpl.
  destruct (DispensingStatus_of_value_cases status_code)
    as [[-> ->]|[[-> ->]|[[-> ->]|[[-> ->]|[[-> ->]|(H1 & H2 & H3 & H4 & H6 & Hv)]]]]];
    simpl; destruct (dispense_callbacks self !! (hi * 256 + lo)) as [cb|] eqn:Hcb;
    simpl; rewrite ?Hcb; simpl; try done.
  - f_equal. unfold set_dispense_callbacks. simpl.
    rewrite insert_delete_eq, insert_id by done. apply controller_eta.
  - rewrite Hv. simpl. rewrite Hcb. simpl.
    rewrite decide_False by done. unfold dispense_result, terminal_message.
    rewrite Hv, bool_decide_eq_false_2 by done.
    by repeat (case_decide; [done|]).
  - rewrite Hv. simpl. by rewrite Hcb.
Qed.

Lemma handle_aisle_status_response_payload
    (comm_num status_code hi lo : Z) (rest : bytes) (self : VendingMachineController.t) :
  handle_aisle_status_response (comm_num :: status_code :: hi :: lo :: rest) self =
    match aisle_status_callbacks self !! (hi * 256 + lo) with
    | None => (Ok tt, self)
    | Some callback =>
        (Ok tt,
         set_trace
           (trace self ++
            [Called_status callback (hi * 256 + lo) (aisle_status status_code)])
           (set_aisle_status_callbacks
              (delete (hi * 256 + lo) (aisle_status_callbacks self)) self))
    end.
Proof.
  unfold handle_aisle_status_response.
  replace (len _ <? 4) with false
    by (symmetry; apply Z.ltb_ge; unfold len; simpl; lia).
  replace (index _ 0) with (Ok (A:=Z) comm_num) by reflexivity.
  replace (index _ 1) with (Ok (A:=Z) status_code) by reflexivity.
  replace (slice _ 2 4) with [hi; lo] by reflexivity.
  unfold bind, lift, get, modify, call, ret, raise, aisle_status. simpl.
  assert (Hs : (exists s, AisleStatus.of_value status_code = Ok s) \/
               AisleStatus.of_value status_code = Raise ValueError).
  { destruct status_code as [|p|p]; [by right| |by right].
    do 3 (try destruct p as [p|p|]); simpl; eauto. }
  destruct Hs as [[s ->]| ->]; simpl;
    by destruct (aisle_status_callbacks self !! (hi * 256 + lo)).
Qed.

(** A payload of at least four bytes, or a handler that returns at its guard. *)
Lemma status_payload_cases (data : bytes) :
  (len data <? 4) = true \/
  exists comm_num status_code hi lo rest,
    data = comm_num :: status_code :: hi :: lo :: rest.
Proof.
  destruct (len data <? 4) eqn:H; [by left|right]. by apply status_payload.
Qed.

(** X14. A status frame for an aisle that has no callback registered (a late or
    unsolicited response) is dropped: the controller stays exactly as it was
    and nothing is called. This holds for DISPENSING_STATUS and for
    AISLE_STATUS_RESPONSE payloads, whatever their status code. *)
Theorem status_frame_without_pending_dropped
    (data : bytes) (self : VendingMachineController.t) :
  ((forall a, struct_unpack_H (slice data 2 4) = Ok a ->
              dispense_callbacks self !! a = None) ->
   handle_dispensing_status data self = (Ok tt, self)) /\
  ((forall a, struct_unpack_H (slice data 2 4) = Ok a ->
              aisle_status_callbacks self !! a = None) ->
   handle_aisle_status_response data self = (Ok tt, self)).
Proof.
  destruct (status_payload_cases data) as [Hshort|(c & code & hi & lo & rest & ->)].
  - unfold handle_dispensing_status, handle_aisle_status_response.
    by rewrite Hshort.
  - rewrite handle_dispensing_status_payload, handle_aisle_status_response_payload.
    split; intros H; by rewrite (H (hi * 256 + lo) eq_refl).
Qed.

Lemma status_frame_without_pending_dropped_witness :
  handle_dispensing_status [0x07; 0x02; 0x00; 0x09]
    (set_dispense_callbacks {[ 5 := on_dispense_result 0%nat ]} (__init__ 5)) =
  (Ok tt, set_dispense_callbacks {[ 5 := on_dispense_result 0%nat ]} (__init__ 5)).
Proof.
  apply (proj1 (status_frame_without_pending_dropped [0x07; 0x02; 0x00; 0x09] _)).
  intros a [= <-]. reflexivity.
Defined.

(** X15. An AISLE_STATUS_RESPONSE payload of at least four bytes for an aisle with a
    pending status check removes the pending entry and calls its callback once
    with the aisle number and the status of the code, [None] when the code is
    no member of [AisleStatus]; nothing else of the controller changes. *)
Theorem aisle_status_resolves_pending
    (self : VendingMachineController.t) (data : bytes)
    (status_code aisle_num : Z) (callback : Callback) :
  4 <= len data ->
  index data 1 = Ok status_code ->
  struct_unpack_H (slice data 2 4) = Ok aisle_num ->
  aisle_status_callbacks self !! aisle_num = Some callback ->
  handle_aisle_status_response data self =
    (Ok tt,
     set_trace
       (trace self ++ [Called_status callback aisle_num (aisle_status status_code)])
       (set_aisle_status_callbacks (delete aisle_num (aisle_status_callbacks self)) self)).
Proof.
  intros Hlen Hcode Haisle Hpending. apply Z.ltb_ge in Hlen.
  destruct (status_payload data Hlen) as (c & code & hi & lo & rest & ->).
  injection Hcode as <-. injection Haisle as <-.
  rewrite handle_aisle_status_response_payload. by rewrite Hpending.
Qed.

Lemma aisle_status_resolves_pending_witness :
  trace (snd (handle_aisle_status_response [0x01; 0x09; 0x27; 0x0F]
                (set_aisle_status_callbacks {[ 9999 := on_status_result 3%nat ]} (__init__ 5))))
  = [Called_status (on_status_result 3%nat) 9999 None].
Proof.
  rewrite (aisle_status_resolves_pending
             (set_aisle_status_callbacks {[ 9999 := on_status_result 3%nat ]} (__init__ 5))
             [0x01; 0x09; 0x27; 0x0F] 0x09 9999 (on_status_result 3%nat)
             ltac:(unfold len; simpl; lia) eq_refl eq_refl eq_refl).
  reflexivity.
Defined.

(** X16. A status frame is handled once: handling the same payload again right
    after changes nothing and calls nothing, for every payload and every
    controller. So a callback is called at most once for each time it was
    registered. *)
Theorem status_frame_handled_once (data : bytes) (self : VendingMachineController.t) :
  handle_dispensing_status data (snd (handle_dispensing_status data self))
    = (Ok tt, snd (handle_dispensing_status data self)) /\
  handle_aisle_status_response data (snd (handle_aisle_status_response data self))
    = (Ok tt, snd (handle_aisle_status_response data self)).
Proof.
  destruct (status_payload_cases data) as [Hshort|(c & code & hi & lo & rest & ->)].
  - unfold handle_dispensing_status, handle_aisle_status_response.
    by rewrite Hshort.
  - rewrite !handle_dispensing_status_payload, !handle_aisle_status_response_payload.
    split.
    + destruct (dispense_callbacks self !! (hi * 256 + lo)) as [cb|] eqn:Hcb;
        simpl; [|by rewrite Hcb].
      destruct (decide (code = 1)); simpl; [by rewrite Hcb|].
      by rewrite lookup_delete_eq.
    + destruct (aisle_status_callbacks self !! (hi * 256 + lo)) as [cb|] eqn:Hcb;
        simpl; [|by rewrite Hcb].
      by rewrite lookup_delete_eq.
Qed.

(** X17. A status frame only concerns the aisle it names: whatever the payload, the
    handler returns without raising, leaves the queue, the communication
    number, the port, the other callback table and the callbacks of all other
    aisles as they were, and makes at most one call. *)
Theorem status_frame_is_local (data : bytes) (self : VendingMachineController.t) :
  let out := handle_dispensing_status data self in
  let out' := handle_aisle_status_response data self in
  (fst out = Ok tt /\
   command_queue (snd out) = command_queue self /\
   comm_number (snd out) = comm_number self /\
   serial (snd out) = serial self /\
   aisle_status_callbacks (snd out) = aisle_status_callbacks self /\
   (forall a, struct_unpack_H (slice data 2 4) <> Ok a ->
              dispense_callbacks (snd out) !! a = dispense_callbacks self !! a) /\
   exists calls, trace (snd out) = trace self ++ calls /\ (length calls <= 1)%nat) /\
  (fst out' = Ok tt /\
   command_queue (snd out') = command_queue self /\
   comm_number (snd out') = comm_number self /\
   serial (snd out') = serial self /\
   dispense_callbacks (snd out') = dispense_callbacks self /\
   (forall a, struct_unpack_H (slice data 2 4) <> Ok a ->
              aisle_status_callbacks (snd out') !! a = aisle_status_callbacks self !! a) /\
   exists calls, trace (snd out') = trace self ++ calls /\ (length calls <= 1)%nat).
Proof.
  cbv zeta.
  destruct (status_payload_cases data) as [Hshort|(c & code & hi & lo & rest & ->)].
  - unfold handle_dispensing_status, handle_aisle_status_response.
    rewrite Hshort. simpl.
    split; split_and?; try done; exists []; (split; [by rewrite app_nil_r|simpl; lia]).
  - rewrite handle_dispensing_status_payload, handle_aisle_status_response_payload.
    split.
    + destruct (dispense_callbacks self !! (hi * 256 + lo)) as [cb|] eqn:Hcb;
        [destruct (decide (code = 1))|]; simpl; split_and?; try done;
        try (exists []; (split; [by rewrite app_nil_r|simpl; lia])).
      * intros a Ha. apply lookup_delete_ne. intros <-. by apply Ha.
      * eexists [_]. split; [done|simpl; lia].
    + destruct (aisle_status_callbacks self !! (hi * 256 + lo)) as [cb|] eqn:Hcb;
        simpl; split_and?; try done;
        try (exists []; (split; [by rewrite app_nil_r|simpl; lia])).
      * intros a Ha. apply lookup_delete_ne. intros <-. by apply Ha.
      * eexists [_]. split; [done|simpl; lia].
Qed.

(** * The dispatch of a frame *)

Lemma handle_poll_Ok (max now : Z) (io_ok : bool) (self : VendingMachineController.t) :
  wf max self -> fst (handle_poll now io_ok self) = Ok tt.
Proof.
  intros (Hm & Hc & Hq). rewrite handle_poll_eq. cbv zeta.
  destruct (command_queue self) as [|c rest] eqn:Hcq.
  { simpl. by rewrite Hcq. }
  apply Forall_cons_1 in Hq as [(_ & _ & _ & _ & Hsent) Hrest].
  destruct (cmd_info.waiting_ack c) eqn:Hw.
  - destruct (Hsent eq_refl) as [t Ht]. rewrite Ht.
    destruct (COMMAND_TIMEOUT <? now - t).
    + destruct (_ <=? _); simpl.
      * destruct rest as [|c' rest']; simpl; [done|].
        destruct (cmd_info.waiting_ack c'); [done|]. by destruct (serial_ok _ _).
      * by destruct (serial_ok _ _).
    + simpl. by rewrite Hcq, Hw.
  - simpl. rewrite Hcq, Hw. by destruct (serial_ok _ _).
Qed.

Lemma handle_status_Ok (data : bytes) (self : VendingMachineController.t) :
  fst (handle_dispensing_status data self) = Ok tt /\
  fst (handle_aisle_status_response data self) = Ok tt.
Proof.
  destruct (status_payload_cases data) as [Hshort|(c & code & hi & lo & rest & ->)].
  - unfold handle_dispensing_status, handle_aisle_status_response.
    by rewrite Hshort.
  - rewrite handle_dispensing_status_payload, handle_aisle_status_response_payload.
    split.
    + destruct (dispense_callbacks self !! _); [|done]. by destruct (decide _).
    + by destruct (aisle_status_callbacks self !! _).
Qed.

Lemma request_info_sync_Ok (max : Z) (self : VendingMachineController.t) :
  wf max self -> fst (request_info_sync self) = Ok true.
Proof.
  intros (Hm & Hc & Hq). unfold request_info_sync, bind.
  rewrite get_next_comm_number_eq. unfold lift.
  rewrite bytes_of_bytes by solve_bytes.
  match goal with
  | |- context [queue_command ?c ?t ?cb ?k ?s] =>
      pose proof (queue_command_Ok c t cb k s ltac:(solve_bytes) ltac:(by vm_compute)) as Hqc;
      destruct (queue_command c t cb k s) as [[[]|e] s']; simpl in Hqc |- *; congruence
  end.
Qed.

Lemma send_ack_Ok (io_ok : bool) (self : VendingMachineController.t) :
  exists b, fst (send_ack io_ok self) = Ok b.
Proof. rewrite send_ack_serial_ok. destruct (serial_ok _ _); eauto. Qed.

Lemma handle_received_packet_Ok (max : Z) (command : Command.t) (text : bytes)
    (now : Z) (io_ok : bool) (self : VendingMachineController.t) :
  wf max self -> fst (handle_received_packet command text now io_ok self) = Ok tt.
Proof.
  intros Hwf.
  assert (Hack : forall s, fst ((send_ack io_ok ;;; ret tt) s) = Ok tt).
  { intros s. unfold bind. destruct (send_ack_Ok io_ok s) as [b Hb].
    by destruct (send_ack io_ok s) as [[?|?] ?]. }
  destruct command; unfold handle_received_packet; try apply Hack.
  - by eapply handle_poll_Ok.
  - unfold bind, get. simpl. destruct (command_queue self) as [|c rest]; [done|].
    by destruct (cmd_info.waiting_ack c).
  - unfold bind at 1.
    pose proof (proj2 (handle_status_Ok text self)) as Hh.
    destruct (handle_aisle_status_response text self) as [[[]|e] s]; [|done]. apply Hack.
  - unfold bind at 1.
    pose proof (proj1 (handle_status_Ok text self)) as Hh.
    destruct (handle_dispensing_status text self) as [[[]|e] s]; [|done]. apply Hack.
  - unfold bind at 1.
    pose proof (keeps_wf_send_ack max io_ok self Hwf) as Hs.
    destruct (send_ack_Ok io_ok self) as [b Hb].
    destruct (send_ack io_ok self) as [[b'|e] s]; [|done]. simpl in Hs.
    unfold bind. pose proof (request_info_sync_Ok max s Hs) as Hr.
    by destruct (request_info_sync s) as [[?|?] ?].
Qed.

(** X18. The dispatch of a decoded frame never raises on a controller that was built
    by [__init__] and used through its methods: whatever frames and calls came
    before, and whatever the command, the text, the clock and the port do,
    [handle_received_packet] returns. So no frame makes the link loop take its
    exception path. *)
Theorem dispatch_never_raises
    (max : Z) (events : list Event) (command : Command.t) (text : bytes)
    (now : Z) (io_ok : bool) :
  fst (handle_received_packet command text now io_ok (run events (__init__ max))) = Ok tt.
Proof. eapply handle_received_packet_Ok, run_wf, init_wf. Qed.

(** * The queue is first in, first out *)

Lemma fifo_same (self self' : VendingMachineController.t) :
  command_queue self' = command_queue self -> fifo 0 0 self self'.
Proof.
  intros H. exists 0%nat, []. split; [done|]. split; [done|].
  by rewrite H, drop_0, app_nil_r.
Qed.

Lemma fifo_trans (a1 b1 a2 b2 : nat) (s1 s2 s3 : VendingMachineController.t) :
  fifo a1 b1 s1 s2 -> fifo a2 b2 s2 s3 -> fifo (a1 + a2) (b1 + b2) s1 s3.
Proof.
  intros (k1 & new1 & Hk1 & Hn1 & H1) (k2 & new2 & Hk2 & Hn2 & H2).
  exists (k1 + k2)%nat,
    (drop (k2 - length (drop k1 (map cmd_info.packet (command_queue s1)))) new1 ++ new2).
  split; [lia|]. split; [rewrite length_app, length_drop; lia|].
  rewrite H2, H1, drop_app, drop_drop. by rewrite <- app_assoc.
Qed.

Lemma fifo_mono (a b a' b' : nat) (s1 s2 : VendingMachineController.t) :
  (a <= a')%nat -> (b <= b')%nat -> fifo a b s1 s2 -> fifo a' b' s1 s2.
Proof.
  intros Ha Hb (k & new & Hk & Hn & H). exists k, new.
  split; [lia|]. split; [lia|done].
Qed.

Lemma relates_fifo_mono (a b a' b' : nat) {A} (m : M A) :
  (a <= a')%nat -> (b <= b')%nat -> relates (fifo a b) m -> relates (fifo a' b') m.
Proof. intros Ha Hb H self. by eapply fifo_mono. Qed.

Lemma relates_fifo_ret {A} (a : A) : relates (fifo 0 0) (ret a).
Proof. intros self. by apply fifo_same. Qed.

Lemma relates_fifo_raise {A} (e : exn) : relates (fifo 0 0) (raise (A:=A) e).
Proof. intros self. by apply fifo_same. Qed.

Lemma relates_fifo_lift {A} (r : result A) : relates (fifo 0 0) (lift r).
Proof. intros self. by apply fifo_same. Qed.

Lemma relates_fifo_bind (a1 b1 a2 b2 : nat) {A B} (m : M A) (k : A -> M B) :
  relates (fifo a1 b1) m -> (forall x, relates (fifo a2 b2) (k x)) ->
  relates (fifo (a1 + a2) (b1 + b2)) (bind m k).
Proof.
  intros Hm Hk self. unfold bind. specialize (Hm self).
  destruct (m self) as [[x|e] self']; simpl in *.
  - eapply fifo_trans; [exact Hm|apply Hk].
  - eapply fifo_mono; [| |exact Hm]; lia.
Qed.

Lemma relates_fifo_bind_get (a b : nat) {B} (k : VendingMachineController.t -> M B) :
  (forall self, fifo a b self (snd (k self self))) -> relates (fifo a b) (bind get k).
Proof. intros Hk self. unfold bind, get. apply Hk. Qed.

Lemma relates_fifo_try_except (a1 b1 a2 b2 : nat) {A} (body : M A) (handler : exn -> M A) :
  relates (fifo a1 b1) body -> (forall e, relates (fifo a2 b2) (handler e)) ->
  relates (fifo (a1 + a2) (b1 + b2)) (try_except body handler).
Proof.
  intros Hb Hh self. unfold try_except. specialize (Hb self).
  destruct (body self) as [[x|e] self']; simpl in *.
  - eapply fifo_mono; [| |exact Hb]; lia.
  - eapply fifo_trans; [exact Hb|apply Hh].
Qed.

Lemma relates_fifo_modify_same
    (f : VendingMachineController.t -> VendingMachineController.t) :
  (forall self, command_queue (f self) = command_queue self) ->
  relates (fifo 0 0) (modify f).
Proof. intros Hf self. apply fifo_same. apply Hf. Qed.

Lemma relates_fifo_send_ack (io_ok : bool) : relates (fifo 0 0) (send_ack io_ok).
Proof.
  intros self. rewrite send_ack_serial_ok.
  destruct (serial_ok _ _); by apply fifo_same.
Qed.

Lemma relates_fifo_get_next_comm_number : relates (fifo 0 0) get_next_comm_number.
Proof. intros self. by apply fifo_same. Qed.

Lemma relates_fifo_queue_command (command : Command.t) (text : bytes)
    (callback : option Callback) (callback_key : option Z) :
  relates (fifo 0 1) (queue_command command text callback callback_key).
Proof.
  intros self. unfold queue_command, bind, lift, get, modify.
  destruct (create_packet command text) as [packet|e].
  - exists 0%nat, [packet]. cbn [snd rbind command_queue set_command_queue].
    split; [done|]. split; [done|]. by rewrite List.map_app, drop_0.
  - eapply fifo_mono; [| |by apply fifo_same]; lia.
Qed.

Lemma relates_fifo_handle_dispensing_status (data : bytes) :
  relates (fifo 0 0) (handle_dispensing_status data).
Proof.
  intros self; apply fifo_same;
    destruct (status_payload_cases data) as [Hshort|(c & code & hi & lo & rest & ->)].
  - unfold handle_dispensing_status. by rewrite Hshort.
  - rewrite handle_dispensing_status_payload.
    destruct (dispense_callbacks self !! _); [|done]. by destruct (decide _).
Qed.

Lemma relates_fifo_handle_aisle_status_response (data : bytes) :
  relates (fifo 0 0) (handle_aisle_status_response data).
Proof.
  intros self; apply fifo_same;
    destruct (status_payload_cases data) as [Hshort|(c & code & hi & lo & rest & ->)].
  - unfold handle_aisle_status_response. by rewrite Hshort.
  - rewrite handle_aisle_status_response_payload.
    by destruct (aisle_status_callbacks self !! _).
Qed.

Lemma relates_fifo_handle_poll (now : Z) (io_ok : bool) :
  relates (fifo 1 0) (handle_poll now io_ok).
Proof.
  intros self. rewrite handle_poll_eq. cbv zeta.
  assert (Hkeep : forall s, command_queue s = command_queue self -> fifo 1 0 self s).
  { intros s H. eapply fifo_mono; [| |by apply fifo_same]; lia. }
  assert (Hhead : forall c c' rest s,
            command_queue self = c :: rest -> command_queue s = c' :: rest ->
            cmd_info.packet c' = cmd_info.packet c -> fifo 1 0 self s).
  { intros c c' rest s H1 H2 H3. exists 0%nat, [].
    split; [lia|]. split; [done|].
    by rewrite H1, H2, drop_0, app_nil_r; simpl; rewrite H3. }
  assert (Hpop : forall c rest s,
            command_queue self = c :: rest -> command_queue s = rest -> fifo 1 0 self s).
  { intros c rest s H1 H2. exists 1%nat, [].
    split; [lia|]. split; [done|]. by rewrite H1, H2, app_nil_r. }
  assert (Hpop' : forall c c1 c1' rest s,
            command_queue self = c :: c1 :: rest -> command_queue s = c1' :: rest ->
            cmd_info.packet c1' = cmd_info.packet c1 -> fifo 1 0 self s).
  { intros c c1 c1' rest s H1 H2 H3. exists 1%nat, [].
    split; [lia|]. split; [done|].
    by rewrite H1, H2, app_nil_r; simpl; rewrite H3. }
  destruct (command_queue self) as [|c rest] eqn:Hcq.
  { simpl. rewrite Hcq. destruct (serial_ok _ _); by apply Hkeep. }
  destruct (cmd_info.waiting_ack c) eqn:Hw.
  - destruct (cmd_info.sent_time c) as [t|]; [|by apply Hkeep].
    destruct (COMMAND_TIMEOUT <? now - t).
    + destruct (_ <=? _); simpl.
      * destruct rest as [|c' rest']; simpl.
        { destruct (serial_ok _ _); by eapply Hpop. }
        destruct (cmd_info.waiting_ack c'); simpl;
          destruct (serial_ok _ _); simpl; first [by eapply Hpop | by eapply Hpop'].
      * destruct (serial_ok _ _); simpl; by eapply Hhead.
    + simpl. rewrite Hcq, Hw. destruct (serial_ok _ _); by apply Hkeep.
  - simpl. rewrite Hcq, Hw. destruct (serial_ok _ _); simpl;
      first [by apply Hkeep | by eapply Hhead].
Qed.

(** Composes the bounds of the parts; the sums are compared at the end. *)
Ltac fifo_method :=
  repeat first
    [ apply relates_fifo_get_next_comm_number
    | apply relates_fifo_queue_command
    | apply relates_fifo_send_ack
    | apply relates_fifo_handle_poll
    | apply relates_fifo_handle_dispensing_status
    | apply relates_fifo_handle_aisle_status_response
    | apply relates_fifo_ret | apply relates_fifo_raise | apply relates_fifo_lift
    | apply relates_fifo_modify_same; intros ?; reflexivity
    | eapply relates_fifo_try_except; [|intros ?]
    | eapply relates_fifo_bind; [|intros ?] ].

Ltac fifo_bound :=
  eapply relates_fifo_mono; [| |fifo_method]; simpl; lia.

Lemma relates_fifo_request_info_sync : relates (fifo 0 1) request_info_sync.
Proof. unfold request_info_sync. fifo_bound. Qed.

Lemma relates_fifo_check_aisle (aisle_number : Z) (callback : option Callback) :
  relates (fifo 0 1) (check_aisle aisle_number callback).
Proof. unfold check_aisle. destruct callback; fifo_bound. Qed.

Lemma relates_fifo_dispense (aisle_number : Z) (callback : option Callback) :
  relates (fifo 0 1) (dispense aisle_number callback).
Proof. unfold dispense. destruct callback; fifo_bound. Qed.

Lemma relates_fifo_drive_aisle_direct (aisle_number : Z) (use_drop_sensor use_elevator : bool)
    (callback : option Callback) :
  relates (fifo 0 1) (drive_aisle_direct aisle_number use_drop_sensor use_elevator callback).
Proof. unfold drive_aisle_direct. destruct callback; fifo_bound. Qed.

Lemma relates_fifo_set_aisle_inventory (aisle_number inventory : Z) :
  relates (fifo 0 1) (set_aisle_inventory aisle_number inventory).
Proof. unfold set_aisle_inventory. fifo_bound. Qed.

Lemma relates_fifo_request_machine_status : relates (fifo 0 1) request_machine_status.
Proof. unfold request_machine_status. fifo_bound. Qed.

Lemma relates_fifo_connect (opened : bool) : relates (fifo 0 0) (connect opened).
Proof. unfold connect. destruct opened; fifo_bound. Qed.

Lemma relates_fifo_stop : relates (fifo 0 0) stop.
Proof. unfold stop. fifo_bound. Qed.

Lemma relates_fifo_start : relates (fifo 0 1) start.
Proof.
  unfold start. apply relates_fifo_bind_get. intros self.
  destruct (negb _); [eapply fifo_mono; [| |by apply fifo_same]; lia|].
  assert (Hp : relates (fifo 0 1) (modify (set_running true) ;;; request_info_sync ;;; ret true)).
  { eapply relates_fifo_mono; cycle 2.
    - eapply relates_fifo_bind; [fifo_method|intros ?].
      eapply relates_fifo_bind; [apply relates_fifo_request_info_sync|intros ?].
      apply relates_fifo_ret.
    - simpl; lia.
    - simpl; lia. }
  apply Hp.
Qed.

Lemma relates_fifo_disconnect : relates (fifo 0 0) disconnect.
Proof.
  unfold disconnect.
  assert (Hmid : relates (fifo 0 0)
            (let! self := get in
             match serial self with
             | Some s =>
                 if is_open s then modify (set_serial (Some {| is_open := false |}))
                 else ret tt
             | None => ret tt
             end)).
  { apply relates_fifo_bind_get. intros self. apply fifo_same.
    destruct (serial self) as [s|]; [|done]. by destruct (is_open s). }
  eapply relates_fifo_mono; cycle 2.
  - eapply relates_fifo_bind; [apply relates_fifo_stop|intros ?].
    eapply relates_fifo_bind; [apply Hmid|intros ?]. fifo_method.
  - simpl; lia.
  - simpl; lia.
Qed.

Lemma relates_fifo_handle_received_packet (command : Command.t) (text : bytes)
    (now : Z) (io_ok : bool) :
  relates (fifo 1 1) (handle_received_packet command text now io_ok).
Proof.
  destruct command; unfold handle_received_packet; try fifo_bound.
  (* ACK *)
  apply relates_fifo_bind_get. intros self.
    destruct (command_queue self) as [|c rest] eqn:Hcq;
      [eapply fifo_mono; [| |by apply fifo_same]; lia|].
    destruct (cmd_info.waiting_ack c); simpl;
      [|eapply fifo_mono; [| |by apply fifo_same]; lia].
    exists 1%nat, []. split; [lia|]. split; [simpl; lia|]. by rewrite Hcq, app_nil_r.
Qed.

Lemma step_fifo (e : Event) (self : VendingMachineController.t) :
  fifo 1 1 self (step e self).
Proof.
  assert (Hpush : forall s s', fifo 0 1 s s' -> fifo 1 1 s s')
    by (intros s s'; apply fifo_mono; lia).
  assert (Hnone : forall s s', fifo 0 0 s s' -> fifo 1 1 s s')
    by (intros s s'; apply fifo_mono; lia).
  destruct e; simpl;
    [ apply Hnone, relates_fifo_connect | apply Hnone, relates_fifo_disconnect
    | apply Hpush, relates_fifo_start | apply Hnone, relates_fifo_stop
    | apply Hpush, relates_fifo_queue_command
    | apply Hpush, relates_fifo_request_info_sync
    | apply Hpush, relates_fifo_check_aisle | apply Hpush, relates_fifo_dispense
    | apply Hpush, relates_fifo_drive_aisle_direct
    | apply Hpush, relates_fifo_set_aisle_inventory
    | apply Hpush, relates_fifo_request_machine_status
    | apply relates_fifo_handle_received_packet ].
Qed.

(** X19. The outbound queue is first in, first out. One call or one handled frame
    removes at most one entry, at the front, and adds at most one, at the back;
    so after a run of [n] events the queued packets are the packets queued
    before with at most [n] removed at the front, followed by at most [n] new
    ones. Nothing reorders the queue, removes an entry from the middle or
    changes the packet of an entry. *)
Theorem queue_is_fifo (events : list Event) (self : VendingMachineController.t) :
  exists (k : nat) (new : list bytes),
    (k <= length events)%nat /\ (length new <= length events)%nat /\
    map cmd_info.packet (command_queue (run events self))
    = drop k (map cmd_info.packet (command_queue self)) ++ new.
Proof.
  change (fifo (length events) (length events) self (run events self)).
  revert self. induction events as [|e events IH]; intros self.
  - by apply fifo_same.
  - simpl. change (S (length events)) with (1 + length events)%nat.
    eapply fifo_trans; [apply step_fifo|apply IH].
Qed.

(** * Retries *)

Lemma serial_ok_same (io_ok : bool) (self self' : VendingMachineController.t) :
  serial self' = serial self -> serial_ok io_ok self' = serial_ok io_ok self.
Proof. unfold serial_ok. by intros ->. Qed.

(** A command in flight that is never acknowledged, under POLLs that each come
    after the timeout. *)
Lemma unacknowledged_in_flight (ts : list Z) :
  forall (self : VendingMachineController.t) (c : cmd_info.t) (t : Z),
    command_queue self = [c] ->
    cmd_info.waiting_ack c = true ->
    cmd_info.sent_time c = Some t ->
    cmd_info.retries c < cmd_info.max_retries c ->
    Z.of_nat (length ts) = cmd_info.max_retries c - cmd_info.retries c ->
    serial_ok true self = true ->
    spaced t ts ->
    command_queue (run (polls ts) self) = [] /\
    trace (run (polls ts) self)
    = trace self ++ replicate (length ts - 1) (Written (cmd_info.packet c))
      ++ [Written ACK_frame].
Proof.
  induction ts as [|t' ts IH]; intros self c t Hq Hw Hs Hr Hlen Hok Hsp.
  { simpl in Hlen. lia. }
  destruct Hsp as [Ht Hsp]. apply Z.ltb_lt in Ht.
  simpl polls. simpl run. rewrite handle_poll_eq. cbv zeta.
  rewrite Hq, Hw, Hs, Ht.
  destruct (cmd_info.max_retries c <=? cmd_info.retries c + 1) eqn:Hlast.
  - (* the last allowed timeout: the command is removed, the POLL is acknowledged *)
    apply Z.leb_le in Hlast.
    assert (ts = []) as -> by (destruct ts; [done|simpl in Hlen; lia]).
    simpl. rewrite (serial_ok_same true self) by done. rewrite Hok. simpl.
    split; [done|]. done.
  - (* a retry: the same packet is written again *)
    apply Z.leb_gt in Hlast.
    simpl. rewrite (serial_ok_same true self) by done. rewrite Hok. simpl.
    match goal with
    | |- context [run (polls ts) ?s] =>
        destruct (IH s
                    (cmd_info.set_sent_time (Some t')
                       (cmd_info.set_waiting_ack true
                          (cmd_info.set_waiting_ack false
                             (cmd_info.set_retries (cmd_info.retries c + 1) c))))
                    t') as [IHq IHt]
    end; simpl; try done; try lia.
    + simpl in Hlen. lia.
    + split; [exact IHq|]. rewrite IHt. simpl. rewrite <- app_assoc. simpl.
      destruct ts as [|t'' ts]; [simpl in Hlen; lia|].
      simpl. by rewrite Nat.sub_0_r.
Qed.

(** X20. A command that the VMC never acknowledges is sent [max_retries] times and
    then dropped. From a queue that holds just this command, not yet sent, with
    a port that takes every write: under a first POLL and then [max_retries]
    POLLs that each come more than the command timeout after the one before,
    the packet is written once per POLL except the last, the last POLL removes
    the command and is answered with an ACK, and the queue is empty. *)
Theorem unacknowledged_command_dropped
    (self : VendingMachineController.t) (c : cmd_info.t) (t0 : Z) (ts : list Z) :
  command_queue self = [c] ->
  cmd_info.waiting_ack c = false ->
  cmd_info.retries c = 0 ->
  1 <= cmd_info.max_retries c ->
  Z.of_nat (length ts) = cmd_info.max_retries c ->
  serial_ok true self = true ->
  spaced t0 ts ->
  command_queue (run (polls (t0 :: ts)) self) = [] /\
  trace (run (polls (t0 :: ts)) self)
  = trace self ++ replicate (length ts) (Written (cmd_info.packet c))
    ++ [Written ACK_frame].
Proof.
  intros Hq Hw Hr Hmax Hlen Hok Hsp.
  simpl polls. simpl run. rewrite handle_poll_eq. cbv zeta.
  rewrite Hq, Hw. simpl. rewrite Hq, Hw, Hok. simpl.
  match goal with
  | |- context [run (polls ts) ?s] =>
      destruct (unacknowledged_in_flight ts s
                  (cmd_info.set_sent_time (Some t0) (cmd_info.set_waiting_ack true c))
                  t0) as [Hq' Ht']
  end; simpl; try done; try lia.
  split; [exact Hq'|]. rewrite Ht'. simpl. rewrite <- app_assoc. simpl.
  destruct ts as [|t' ts]; [simpl in Hlen; lia|].
  simpl. by rewrite Nat.sub_0_r.
Qed.

Lemma unacknowledged_command_dropped_witness :
  let self := run [Call_connect true; Call_dispense 5 None] (__init__ 3) in
  command_queue (run (polls [0; 1001; 2002; 3003]) self) = [] /\
  trace (run (polls [0; 1001; 2002; 3003]) self)
  = replicate 3 (Written [0xFA; 0xFB; 0x03; 0x03; 0x01; 0x00; 0x05; 0x05])
    ++ [Written ACK_frame].
Proof.
  intros self.
  destruct (unacknowledged_command_dropped self
              {| cmd_info.packet := [0xFA; 0xFB; 0x03; 0x03; 0x01; 0x00; 0x05; 0x05];
                 cmd_info.command := Command.SELECT_BUY;
                 cmd_info.text := [0x01; 0x00; 0x05];
                 cmd_info.retries := 0;
                 cmd_info.max_retries := 3;
                 cmd_info.waiting_ack := false;
                 cmd_info.sent_time := None;
                 cmd_info.callback := None;
                 cmd_info.callback_key := None |}
              0 [1001; 2002; 3003]
              eq_refl eq_refl eq_refl ltac:(simpl; lia) eq_refl eq_refl
              ltac:(vm_compute; tauto)) as [Hq Ht].
  split; [exact Hq|exact Ht].
Defined.

(** * Submissions *)

Lemma queue_command_eq (command : Command.t) (text : bytes)
    (self : VendingMachineController.t) :
  is_bytes text -> len text <= 255 ->
  queue_command command text None None self =
    (Ok tt,
     set_command_queue
       (command_queue self ++
        [new_entry (max_retries self) command text (frame_of command text)]) self).
Proof.
  intros Ht Hl. unfold queue_command, bind, lift, get, modify.
  by rewrite create_packet_bytes.
Qed.

Lemma aisle_text_bytes (prefix : bytes) (aisle_number : Z) :
  is_bytes prefix -> 0 <= aisle_number <= 65535 ->
  is_bytes (prefix ++ [aisle_number / 256; aisle_number mod 256]).
Proof.
  intros Hp Ha. apply Forall_app. split; [done|].
  by destruct (struct_pack_H_Ok aisle_number Ha).
Qed.

(** The three submissions with an aisle, for an aisle number of 16 bits. *)
Lemma dispense_eq (aisle_number : Z) (callback : option Callback)
    (self : VendingMachineController.t) :
  0 <= aisle_number <= 65535 -> is_byte (comm_number self) ->
  dispense aisle_number callback self =
    let text := [comm_number self; aisle_number / 256; aisle_number mod 256] in
    (Ok true,
     set_command_queue
       (command_queue self ++
        [new_entry (max_retries self) Command.SELECT_BUY text
           (frame_of Command.SELECT_BUY text)])
       (match callback with
        | Some cb => set_dispense_callbacks (<[aisle_number := cb]> (dispense_callbacks self))
        | None => fun s => s
        end (set_comm_number (comm_number self mod 255 + 1) self))).
Proof.
  intros Ha Hc. destruct (struct_pack_H_Ok aisle_number Ha) as [Hpack Hbytes].
  unfold dispense, bind at 1. rewrite get_next_comm_number_eq.
  unfold bind at 1, lift at 1. rewrite Hpack.
  unfold bind at 1, lift at 1. rewrite bytes_of_bytes by solve_bytes.
  cbv zeta.
  assert (Ht : is_bytes ([comm_number self] ++ [aisle_number / 256; aisle_number mod 256]))
    by (apply aisle_text_bytes; [solve_bytes|done]).
  destruct callback as [cb|]; unfold bind, modify, ret;
    rewrite queue_command_eq by (done || by vm_compute); reflexivity.
Qed.

Lemma check_aisle_eq (aisle_number : Z) (callback : option Callback)
    (self : VendingMachineController.t) :
  0 <= aisle_number <= 65535 -> is_byte (comm_number self) ->
  check_aisle aisle_number callback self =
    let text := [comm_number self; aisle_number / 256; aisle_number mod 256] in
    (Ok true,
     set_command_queue
       (command_queue self ++
        [new_entry (max_retries self) Command.CHECK_AISLE text
           (frame_of Command.CHECK_AISLE text)])
       (match callback with
        | Some cb =>
            set_aisle_status_callbacks (<[aisle_number := cb]> (aisle_status_callbacks self))
        | None => fun s => s
        end (set_comm_number (comm_number self mod 255 + 1) self))).
Proof.
  intros Ha Hc. destruct (struct_pack_H_Ok aisle_number Ha) as [Hpack Hbytes].
  unfold check_aisle, bind at 1. rewrite get_next_comm_number_eq.
  unfold bind at 1, lift at 1. rewrite Hpack.
  unfold bind at 1, lift at 1. rewrite bytes_of_bytes by solve_bytes.
  cbv zeta.
  assert (Ht : is_bytes ([comm_number self] ++ [aisle_number / 256; aisle_number mod 256]))
    by (apply aisle_text_bytes; [solve_bytes|done]).
  destruct callback as [cb|]; unfold bind, modify, ret;
    rewrite queue_command_eq by (done || by vm_compute); reflexivity.
Qed.

Lemma drive_aisle_direct_eq (aisle_number : Z) (use_drop_sensor use_elevator : bool)
    (callback : option Callback) (self : VendingMachineController.t) :
  0 <= aisle_number <= 65535 -> is_byte (comm_number self) ->
  drive_aisle_direct aisle_number use_drop_sensor use_elevator callback self =
    let text := [comm_number self; if use_drop_sensor then 1 else 0;
                 if use_elevator then 1 else 0;
                 aisle_number / 256; aisle_number mod 256] in
    (Ok true,
     set_command_queue
       (command_queue self ++
        [new_entry (max_retries self) Command.DRIVE_AISLE_DIRECT text
           (frame_of Command.DRIVE_AISLE_DIRECT text)])
       (match callback with
        | Some cb => set_dispense_callbacks (<[aisle_number := cb]> (dispense_callbacks self))
        | None => fun s => s
        end (set_comm_number (comm_number self mod 255 + 1) self))).
Proof.
  intros Ha Hc. destruct (struct_pack_H_Ok aisle_number Ha) as [Hpack Hbytes].
  unfold drive_aisle_direct, bind at 1. rewrite get_next_comm_number_eq.
  cbv zeta. unfold bind at 1, lift at 1. rewrite Hpack.
  assert (Hp : is_bytes [comm_number self; if use_drop_sensor then 1 else 0;
                         if use_elevator then 1 else 0])
    by (destruct use_drop_sensor, use_elevator; solve_bytes).
  unfold bind at 1, lift at 1. rewrite bytes_of_bytes by exact Hp.
  assert (Ht : is_bytes ([comm_number self; if use_drop_sensor then 1 else 0;
                          if use_elevator then 1 else 0]
                         ++ [aisle_number / 256; aisle_number mod 256]))
    by (by apply aisle_text_bytes).
  destruct callback as [cb|]; unfold bind, modify, ret;
    rewrite queue_command_eq by (done || by vm_compute); reflexivity.
Qed.

Lemma struct_unpack_pack (n : Z) :
  struct_unpack_H [n / 256; n mod 256] = Ok n.
Proof. simpl. f_equal. pose proof (Z_div_mod_eq_full n 256). lia. Qed.

(** X21. A submission for an aisle number of 16 bits returns [True], takes the next
    communication number and appends exactly one entry to the queue, not in
    flight and with no retries. The packet of the entry is a frame that
    [parse_packet] decodes to the command and to a text that starts with the
    communication number and ends with the two bytes, high byte first, that
    unpack to the aisle number. This holds for [dispense] (SELECT_BUY),
    [check_aisle] (CHECK_AISLE) and [drive_aisle_direct] (DRIVE_AISLE_DIRECT,
    with the two flag bytes in between). *)
Theorem submission_carries_aisle
    (self : VendingMachineController.t) (aisle_number : Z)
    (use_drop_sensor use_elevator : bool) (callback : option Callback) :
  0 <= aisle_number <= 65535 -> is_byte (comm_number self) ->
  let aisle := [aisle_number / 256; aisle_number mod 256] in
  let flags := [if use_drop_sensor then 1 else 0; if use_elevator then 1 else 0] in
  let submitted (out : result bool * VendingMachineController.t)
        (command : Command.t) (text : bytes) :=
    fst out = Ok true /\
    comm_number (snd out) = comm_number self mod 255 + 1 /\
    exists e,
      command_queue (snd out) = command_queue self ++ [e] /\
      cmd_info.waiting_ack e = false /\ cmd_info.retries e = 0 /\
      parse_packet (cmd_info.packet e) = Ok (Some (command, text)) in
  struct_unpack_H aisle = Ok aisle_number /\
  submitted (dispense aisle_number callback self)
    Command.SELECT_BUY (comm_number self :: aisle) /\
  submitted (check_aisle aisle_number callback self)
    Command.CHECK_AISLE (comm_number self :: aisle) /\
  submitted (drive_aisle_direct aisle_number use_drop_sensor use_elevator callback self)
    Command.DRIVE_AISLE_DIRECT (comm_number self :: flags ++ aisle).
Proof.
  intros Ha Hc. cbv zeta.
  assert (Hparse : forall command text,
            parse_packet (frame_of command text) = Ok (Some (command, text))).
  { intros command text. unfold frame_of. rewrite parse_packet_layout by done.
    by rewrite Z.eqb_refl, of_value_value. }
  split; [apply struct_unpack_pack|].
  rewrite dispense_eq, check_aisle_eq, drive_aisle_direct_eq by done. cbv zeta.
  split_and!; try done; try (by destruct callback);
    eexists; (split; [by destruct callback|]); split_and!; try done; apply Hparse.
Qed.

Lemma submission_carries_aisle_witness :
  exists e,
    command_queue (snd (dispense 5 None (__init__ 5))) = [e] /\
    parse_packet (cmd_info.packet e) = Ok (Some (Command.SELECT_BUY, [0x01; 0x00; 0x05])).
Proof.
  destruct (submission_carries_aisle (__init__ 5) 5 true false None
              ltac:(lia) ltac:(unfold is_byte; simpl; lia))
    as (_ & (_ & _ & e & Hq & _ & _ & Hp) & _).
  exists e. split; [exact Hq|exact Hp].
Defined.

Lemma out_of_range_eq
    (self : VendingMachineController.t) (aisle_number : Z)
    (use_drop_sensor use_elevator : bool) (callback : option Callback) :
  ~ 0 <= aisle_number <= 65535 ->
  let used := set_comm_number (comm_number self mod 255 + 1) self in
  dispense aisle_number callback self = (Raise StructError, used) /\
  check_aisle aisle_number callback self = (Raise StructError, used) /\
  drive_aisle_direct aisle_number use_drop_sensor use_elevator callback self
    = (Raise StructError, used).
Proof.
  intros Ha. cbv zeta.
  assert (Hpack : struct_pack_H aisle_number = Raise StructError).
  { unfold struct_pack_H.
    replace ((0 <=? aisle_number) && (aisle_number <=? 65535)) with false; [done|].
    symmetry. apply andb_false_iff. lia. }
  unfold dispense, check_aisle, drive_aisle_direct.
  split_and!; unfold bind at 1; rewrite get_next_comm_number_eq; cbv zeta;
    unfold bind at 1, lift at 1; by rewrite Hpack.
Qed.

(** X22. A submission for an aisle number that does not fit 16 bits raises
    [struct.error]: the communication number is used up, but nothing is queued
    and no callback is registered. *)
Theorem aisle_out_of_range_raises
    (self : VendingMachineController.t) (aisle_number : Z)
    (use_drop_sensor use_elevator : bool) (callback : option Callback) :
  ~ 0 <= aisle_number <= 65535 ->
  let used := set_comm_number (comm_number self mod 255 + 1) self in
  dispense aisle_number callback self = (Raise StructError, used) /\
  check_aisle aisle_number callback self = (Raise StructError, used) /\
  drive_aisle_direct aisle_number use_drop_sensor use_elevator callback self
    = (Raise StructError, used).
Proof. apply out_of_range_eq. Qed.

Lemma aisle_out_of_range_raises_witness :
  dispense 70000 (Some (on_dispense_result 0%nat)) (__init__ 5)
  = (Raise StructError, set_comm_number 2 (__init__ 5)).
Proof.
  apply (aisle_out_of_range_raises (__init__ 5) 70000 true false). lia.
Defined.

(** X23. The life of an acknowledged command. On a controller with an empty queue
    and a port that takes the write: after [dispense] for an aisle, a POLL and
    an ACK, the queue is empty again, the only bytes written are the SELECT_BUY
    frame with the communication number and the aisle, written once, and the
    callback stays registered for the status frame to come. *)
Theorem acknowledged_command_leaves_queue
    (self : VendingMachineController.t) (aisle_number : Z) (callback : Callback)
    (now now' : Z) (io_ok' : bool) :
  0 <= aisle_number <= 65535 -> is_byte (comm_number self) ->
  command_queue self = [] -> serial_ok true self = true ->
  let self' :=
    run [Call_dispense aisle_number (Some callback);
         Received Command.POLL [] now true;
         Received Command.ACK [] now' io_ok'] self in
  command_queue self' = [] /\
  (exists frame,
     create_packet Command.SELECT_BUY
       [comm_number self; aisle_number / 256; aisle_number mod 256] = Ok frame /\
     trace self' = trace self ++ [Written frame]) /\
  dispense_callbacks self' !! aisle_number = Some callback.
Proof.
  intros Ha Hc Hq Hok. cbv zeta. simpl run.
  rewrite dispense_eq by done. cbv zeta. simpl snd.
  rewrite handle_poll_eq. cbv zeta. simpl. rewrite Hq. simpl.
  rewrite (serial_ok_same true self) by done. rewrite Hok. simpl.
  split_and!; try done; [|apply lookup_insert_eq].
  eexists. split; [|done].
  apply create_packet_bytes; [|by vm_compute].
  apply (aisle_text_bytes [comm_number self]); [solve_bytes|done].
Qed.

Lemma acknowledged_command_leaves_queue_witness :
  let self := snd (connect true (__init__ 5)) in
  trace (run [Call_dispense 5 (Some (on_dispense_result 0%nat));
              Received Command.POLL [] 10 true;
              Received Command.ACK [] 20 true] self)
  = [Written [0xFA; 0xFB; 0x03; 0x03; 0x01; 0x00; 0x05; 0x05]].
Proof.
  intros self.
  destruct (acknowledged_command_leaves_queue self 5 (on_dispense_result 0%nat) 10 20 true
              ltac:(lia) ltac:(unfold is_byte; simpl; lia) eq_refl eq_refl)
    as (_ & (frame & Hf & Ht) & _).
  vm_compute in Hf. injection Hf as <-. exact Ht.
Defined.

(** * The request facade, further *)

(** The controller that the facade leaves after its submission. *)
Lemma facade_submission (aisle_number : Z) (force use_drop_sensor use_elevator : bool)
    (cb : Callback) (self : VendingMachineController.t) :
  0 <= aisle_number <= 65535 -> is_byte (comm_number self) ->
  let out :=
    (if force
     then drive_aisle_direct aisle_number use_drop_sensor use_elevator (Some cb)
     else dispense aisle_number (Some cb)) self in
  fst out = Ok true /\
  dispense_callbacks (snd out) = <[aisle_number := cb]> (dispense_callbacks self) /\
  aisle_status_callbacks (snd out) = aisle_status_callbacks self /\
  (length (command_queue (snd out)) = length (command_queue self) + 1)%nat /\
  comm_number (snd out) = comm_number self mod 255 + 1 /\
  trace (snd out) = trace self /\
  is_connected (snd out) = is_connected self.
Proof.
  intros Ha Hc. cbv zeta.
  destruct force; [rewrite drive_aisle_direct_eq by done|rewrite dispense_eq by done];
    cbv zeta; simpl; rewrite length_app; by split_and!.
Qed.

(** A [dispense] of the facade on a connected controller, for an aisle number
    of 16 bits, suspends on its future and leaves the future registered under
    the aisle in the pending table, the callback that closes over that future
    registered under the aisle in the controller, and one more command in the
    queue. *)
Theorem facade_dispense_registers
    (str : exn -> string) (self : DispenseService.t)
    (request : DispenseRequest.t) (timeout : Z) (uuid4_hex : string) (future : Future) :
  is_connected (DispenseService.controller self) = true ->
  is_byte (comm_number (DispenseService.controller self)) ->
  0 <= DispenseRequest.aisle_number request <= 65535 ->
  let aisle := DispenseRequest.aisle_number request in
  exists resume self',
    DispenseService.dispense str request timeout uuid4_hex future self
      = (Await future timeout resume, self') /\
    DispenseService._pending_dispenses self'
      = <[aisle := future]> (DispenseService._pending_dispenses self) /\
    DispenseService._pending_status_checks self'
      = DispenseService._pending_status_checks self /\
    dispense_callbacks (DispenseService.controller self')
      = <[aisle := on_dispense_result future]>
          (dispense_callbacks (DispenseService.controller self)) /\
    (length (command_queue (DispenseService.controller self'))
     = length (command_queue (DispenseService.controller self)) + 1)%nat.
Proof.
  intros Hconn Hcomm Ha. cbv zeta.
  destruct (facade_submission (DispenseRequest.aisle_number request)
              (DispenseRequest.force request)
              (DispenseRequest.use_drop_sensor request)
              (DispenseRequest.use_elevator request)
              (on_dispense_result future) (DispenseService.controller self) Ha Hcomm)
    as (Hok & Hcb & _ & Hlen & _).
  unfold DispenseService.dispense. rewrite Hconn. simpl.
  rewrite Hok. eexists _, _. split; [reflexivity|]. by simpl.
Qed.

Lemma facade_dispense_registers_witness :
  let self := DispenseService.__init__ (snd (connect true (__init__ 5))) in
  let request :=
    {| DispenseRequest.aisle_number := 5; DispenseRequest.use_drop_sensor := true;
       DispenseRequest.use_elevator := false; DispenseRequest.force := true |} in
  exists resume self',
    DispenseService.dispense (fun _ => "error") request 30000 "0123456789abcdef" 1%nat self
      = (Await 1%nat 30000 resume, self') /\
    DispenseService._pending_dispenses self' !! 5 = Some 1%nat.
Proof.
  intros self request.
  destruct (facade_dispense_registers (fun _ => "error") self request 30000
              "0123456789abcdef" 1%nat eq_refl
              ltac:(unfold is_byte; simpl; lia) ltac:(simpl; lia))
    as (resume & self' & Hd & Hp & _).
  exists resume, self'. split; [exact Hd|]. rewrite Hp. reflexivity.
Defined.

(** X24. A [dispense] of the facade for an aisle number that does not fit 16 bits
    returns at once, without an await: the response is FAILED with the text of
    the [struct.error] and a transaction id, the pending entry of the aisle is
    removed, nothing is queued and no callback is registered; only the
    communication number is used up. *)
Theorem facade_dispense_out_of_range
    (str : exn -> string) (self : DispenseService.t)
    (request : DispenseRequest.t) (timeout : Z) (uuid4_hex : string) (future : Future) :
  is_connected (DispenseService.controller self) = true ->
  ~ 0 <= DispenseRequest.aisle_number request <= 65535 ->
  let aisle := DispenseRequest.aisle_number request in
  DispenseService.dispense str request timeout uuid4_hex future self =
    (Return
       {| DispenseResponse.success := false;
          DispenseResponse.aisle_number := aisle;
          DispenseResponse.status := DispenseStatusEnum.FAILED;
          DispenseResponse.message := str StructError;
          DispenseResponse.transaction_id :=
            Some (String.append "txn_" (String.substring 0 12 uuid4_hex)) |},
     {| DispenseService.controller :=
          set_comm_number (comm_number (DispenseService.controller self) mod 255 + 1)
            (DispenseService.controller self);
        DispenseService._pending_dispenses :=
          delete aisle (DispenseService._pending_dispenses self);
        DispenseService._pending_status_checks :=
          DispenseService._pending_status_checks self |}).
Proof.
  intros Hconn Ha. cbv zeta.
  destruct (out_of_range_eq (DispenseService.controller self)
              (DispenseRequest.aisle_number request)
              (DispenseRequest.use_drop_sensor request)
              (DispenseRequest.use_elevator request)
              (Some (on_dispense_result future)) Ha) as (Hd & _ & Hdr).
  unfold DispenseService.dispense. rewrite Hconn. simpl.
  destruct (DispenseRequest.force request); rewrite ?Hd, ?Hdr; simpl;
    unfold DispenseService.set_pending_dispenses, DispenseService.set_controller; simpl;
    by rewrite delete_insert_eq.
Qed.

Lemma facade_dispense_out_of_range_witness :
  let self := DispenseService.__init__ (snd (connect true (__init__ 5))) in
  let request :=
    {| DispenseRequest.aisle_number := 70000; DispenseRequest.use_drop_sensor := true;
       DispenseRequest.use_elevator := false; DispenseRequest.force := false |} in
  exists response self',
    DispenseService.dispense (fun _ => "error") request 30000 "0123456789abcdef" 1%nat self
      = (Return response, self') /\
    DispenseResponse.status response = DispenseStatusEnum.FAILED /\
    command_queue (DispenseService.controller self') = [].
Proof.
  intros self request. eexists _, _. split; [|split].
  - apply (facade_dispense_out_of_range (fun _ => "error") self request 30000
             "0123456789abcdef" 1%nat eq_refl). simpl. lia.
  - reflexivity.
  - reflexivity.
Defined.

(** X25. A dispense from end to end. After the facade has submitted a dispense for
    an aisle, a DISPENSING_STATUS payload for that aisle with a terminal status
    code makes the controller call the callback of this future, once, with the
    result of the status code, and removes the callback; resumed with that
    result, the facade returns it as its response (success only for SUCCESS,
    the message of the code, the transaction id) and removes its pending
    entry. *)
Theorem dispense_resolved_by_status_frame
    (str : exn -> string) (self : DispenseService.t)
    (request : DispenseRequest.t) (timeout : Z) (uuid4_hex : string) (future : Future)
    (comm_num status_code : Z) :
  is_connected (DispenseService.controller self) = true ->
  is_byte (comm_number (DispenseService.controller self)) ->
  0 <= DispenseRequest.aisle_number request <= 65535 ->
  status_code <> 0x01 ->
  let aisle := DispenseRequest.aisle_number request in
  let result := dispense_result status_code aisle in
  exists resume self',
    DispenseService.dispense str request timeout uuid4_hex future self
      = (Await future timeout resume, self') /\
    (let handled :=
       snd (handle_dispensing_status [comm_num; status_code; aisle / 256; aisle mod 256]
              (DispenseService.controller self')) in
     trace handled
       = trace (DispenseService.controller self) ++
         [Called_dispense (on_dispense_result future) result] /\
     dispense_callbacks handled !! aisle = None) /\
    forall later : DispenseService.t,
      resume (Done result) later =
        ({| DispenseResponse.success := bool_decide (status_code = 0x02);
            DispenseResponse.aisle_number := aisle;
            DispenseResponse.status :=
              DispenseService._map_dispense_status (DispenseResult.status result);
            DispenseResponse.message := terminal_message status_code;
            DispenseResponse.transaction_id :=
              Some (String.append "txn_" (String.substring 0 12 uuid4_hex)) |},
         DispenseService.set_pending_dispenses
           (delete aisle (DispenseService._pending_dispenses later)) later).
Proof.
  intros Hconn Hcomm Ha Hterm. cbv zeta.
  destruct (facade_submission (DispenseRequest.aisle_number request)
              (DispenseRequest.force request)
              (DispenseRequest.use_drop_sensor request)
              (DispenseRequest.use_elevator request)
              (on_dispense_result future) (DispenseService.controller self) Ha Hcomm)
    as (Hok & Hcb & _ & _ & _ & Htr & _).
  unfold DispenseService.dispense. rewrite Hconn. simpl.
  rewrite Hok. eexists _, _. split; [reflexivity|]. split; [|done].
  simpl. rewrite handle_dispensing_status_payload.
  pose proof (Z_div_mod_eq_full (DispenseRequest.aisle_number request) 256) as Hdm.
  replace (DispenseRequest.aisle_number request / 256 * 256
           + DispenseRequest.aisle_number request mod 256)
    with (DispenseRequest.aisle_number request) by lia.
  rewrite Hcb, lookup_insert_eq, decide_False by done. simpl.
  rewrite Htr. split; [done|]. apply lookup_delete_eq.
Qed.

Lemma dispense_resolved_by_status_frame_witness :
  let self := DispenseService.__init__ (snd (connect true (__init__ 5))) in
  let request :=
    {| DispenseRequest.aisle_number := 5; DispenseRequest.use_drop_sensor := true;
       DispenseRequest.use_elevator := false; DispenseRequest.force := false |} in
  exists resume self',
    DispenseService.dispense (fun _ => "error") request 30000 "0123456789abcdef" 1%nat self
      = (Await 1%nat 30000 resume, self') /\
    DispenseResponse.message (fst (resume (Done (dispense_result 0x02 5)) self'))
      = "Dispense successful" /\
    DispenseResponse.status (fst (resume (Done (dispense_result 0x02 5)) self'))
      = DispenseStatusEnum.SUCCESS.
Proof.
  intros self request.
  destruct (dispense_resolved_by_status_frame (fun _ => "error") self request 30000
              "0123456789abcdef" 1%nat 0x01 0x02 eq_refl
              ltac:(unfold is_byte; simpl; lia) ltac:(simpl; lia) ltac:(lia))
    as (resume & self' & Hd & _ & Hr).
  exists resume, self'. split; [exact Hd|]. rewrite Hr. split; reflexivity.
Defined.

Lemma facade_dispense_await
    (str : exn -> string) (self : DispenseService.t)
    (request : DispenseRequest.t) (timeout : Z) (uuid4_hex : string) (future : Future) :
  is_connected (DispenseService.controller self) = true ->
  is_byte (comm_number (DispenseService.controller self)) ->
  0 <= DispenseRequest.aisle_number request <= 65535 ->
  let aisle := DispenseRequest.aisle_number request in
  exists resume self',
    DispenseService.dispense str request timeout uuid4_hex future self
      = (Await future timeout resume, self') /\
    DispenseService._pending_dispenses self'
      = <[aisle := future]> (DispenseService._pending_dispenses self) /\
    dispense_callbacks (DispenseService.controller self')
      = <[aisle := on_dispense_result future]>
          (dispense_callbacks (DispenseService.controller self)) /\
    is_connected (DispenseService.controller self') = true /\
    is_byte (comm_number (DispenseService.controller self')) /\
    forall later : DispenseService.t,
      snd (resume TimeoutError later)
      = DispenseService.set_pending_dispenses
          (delete aisle (DispenseService._pending_dispenses later)) later.
Proof.
  intros Hconn Hcomm Ha. cbv zeta.
  destruct (facade_submission (DispenseRequest.aisle_number request)
              (DispenseRequest.force request)
              (DispenseRequest.use_drop_sensor request)
              (DispenseRequest.use_elevator request)
              (on_dispense_result future) (DispenseService.controller self) Ha Hcomm)
    as (Hok & Hcb & _ & _ & Hnext & _ & Hc).
  unfold DispenseService.dispense. rewrite Hconn. simpl.
  rewrite Hok. eexists _, _. split; [reflexivity|]. simpl.
  split_and!; try done; [by rewrite Hc|].
  rewrite Hnext. unfold is_byte.
  pose proof (Z.mod_pos_bound (comm_number (DispenseService.controller self)) 255
                ltac:(lia)). lia.
Qed.

(** X26. Two dispenses for the same aisle are not told apart. When a second
    [dispense] is submitted for an aisle while a first one is waiting, the
    callback and the pending future of the aisle become those of the second:
    no status frame can reach the first any more. And when the first then times
    out, it removes the pending entry of the aisle, which by then is the entry
    of the second. *)
Theorem second_dispense_takes_over
    (str : exn -> string) (self : DispenseService.t)
    (request1 request2 : DispenseRequest.t) (timeout1 timeout2 : Z)
    (uuid1 uuid2 : string) (future1 future2 : Future) :
  is_connected (DispenseService.controller self) = true ->
  is_byte (comm_number (DispenseService.controller self)) ->
  0 <= DispenseRequest.aisle_number request1 <= 65535 ->
  DispenseRequest.aisle_number request2 = DispenseRequest.aisle_number request1 ->
  let aisle := DispenseRequest.aisle_number request1 in
  exists resume1 self1 resume2 self2,
    DispenseService.dispense str request1 timeout1 uuid1 future1 self
      = (Await future1 timeout1 resume1, self1) /\
    DispenseService.dispense str request2 timeout2 uuid2 future2 self1
      = (Await future2 timeout2 resume2, self2) /\
    dispense_callbacks (DispenseService.controller self2) !! aisle
      = Some (on_dispense_result future2) /\
    DispenseService._pending_dispenses self2 !! aisle = Some future2 /\
    DispenseService._pending_dispenses (snd (resume1 TimeoutError self2)) !! aisle = None.
Proof.
  intros Hconn Hcomm Ha Hsame. cbv zeta.
  destruct (facade_dispense_await str self request1 timeout1 uuid1 future1 Hconn Hcomm Ha)
    as (resume1 & self1 & Hd1 & _ & _ & Hconn1 & Hcomm1 & Hr1).
  destruct (facade_dispense_await str self1 request2 timeout2 uuid2 future2 Hconn1 Hcomm1
              ltac:(by rewrite Hsame))
    as (resume2 & self2 & Hd2 & Hp2 & Hcb2 & _ & _ & _).
  exists resume1, self1, resume2, self2.
  rewrite Hsame in Hp2, Hcb2.
  split_and!; try done.
  - rewrite Hcb2. apply lookup_insert_eq.
  - rewrite Hp2. apply lookup_insert_eq.
  - rewrite Hr1. simpl. apply lookup_delete_eq.
Qed.

Lemma second_dispense_takes_over_witness :
  let self := DispenseService.__init__ (snd (connect true (__init__ 5))) in
  let request :=
    {| DispenseRequest.aisle_number := 5; DispenseRequest.use_drop_sensor := true;
       DispenseRequest.use_elevator := false; DispenseRequest.force := false |} in
  exists resume1 self1 resume2 self2,
    DispenseService.dispense (fun _ => "error") request 30000 "aaaaaaaaaaaaaaaa" 1%nat self
      = (Await 1%nat 30000 resume1, self1) /\
    DispenseService.dispense (fun _ => "error") request 30000 "bbbbbbbbbbbbbbbb" 2%nat self1
      = (Await 2%nat 30000 resume2, self2) /\
    dispense_callbacks (DispenseService.controller self2) !! 5
      = Some (on_dispense_result 2%nat).
Proof.
  intros self request.
  destruct (second_dispense_takes_over (fun _ => "error") self request request 30000 30000
              "aaaaaaaaaaaaaaaa" "bbbbbbbbbbbbbbbb" 1%nat 2%nat eq_refl
              ltac:(unfold is_byte; simpl; lia) ltac:(simpl; lia) eq_refl)
    as (resume1 & self1 & resume2 & self2 & H1 & H2 & H3 & _).
  by exists resume1, self1, resume2, self2.
Defined.

(** X27. A status check from end to end. After the facade has submitted a status
    check for an aisle of 16 bits on a connected controller, an
    AISLE_STATUS_RESPONSE payload for that aisle makes the controller call the
    callback of this future once, with the aisle and the status of the code,
    and removes it; resumed with that pair, the facade answers with the aisle,
    the caller-facing status (NOT_EXIST also for a code that is no status) and
    the message of the status, and removes its pending entry. *)
Theorem status_check_resolved_by_response
    (str : exn -> string) (self : DispenseService.t)
    (aisle_number timeout : Z) (future : Future) (comm_num status_code : Z) :
  is_connected (DispenseService.controller self) = true ->
  is_byte (comm_number (DispenseService.controller self)) ->
  0 <= aisle_number <= 65535 ->
  let status := aisle_status status_code in
  exists resume self',
    DispenseService.check_aisle_status str aisle_number timeout future self
      = (Await future timeout resume, self') /\
    DispenseService._pending_status_checks self' !! aisle_number = Some future /\
    (let handled :=
       snd (handle_aisle_status_response
              [comm_num; status_code; aisle_number / 256; aisle_number mod 256]
              (DispenseService.controller self')) in
     trace handled
       = trace (DispenseService.controller self) ++
         [Called_status (on_status_result future) aisle_number status] /\
     aisle_status_callbacks handled !! aisle_number = None) /\
    forall later : DispenseService.t,
      resume (Done (aisle_number, status)) later =
        ({| AisleStatusResponse.aisle_number := aisle_number;
            AisleStatusResponse.status := aisle_status_enum status;
            AisleStatusResponse.message := aisle_message status |},
         DispenseService.set_pending_status_checks
           (delete aisle_number (DispenseService._pending_status_checks later)) later).
Proof.
  intros Hconn Hcomm Ha. cbv zeta.
  unfold DispenseService.check_aisle_status. rewrite Hconn. simpl.
  rewrite check_aisle_eq by done. cbv zeta. simpl.
  eexists _, _. split; [reflexivity|]. simpl.
  split; [apply lookup_insert_eq|]. split.
  - rewrite handle_aisle_status_response_payload.
    pose proof (Z_div_mod_eq_full aisle_number 256) as Hdm.
    replace (aisle_number / 256 * 256 + aisle_number mod 256) with aisle_number by lia.
    simpl. rewrite lookup_insert_eq. simpl. split; [done|]. apply lookup_delete_eq.
  - intros later. unfold aisle_status.
    by destruct (AisleStatus.of_value status_code) as [[]|].
Qed.

Lemma status_check_resolved_by_response_witness :
  let self := DispenseService.__init__ (snd (connect true (__init__ 5))) in
  exists resume self',
    DispenseService.check_aisle_status (fun _ => "error") 9999 10000 1%nat self
      = (Await 1%nat 10000 resume, self') /\
    fst (resume (Done (9999, Some AisleStatus.DOESNT_EXIST)) self')
      = {| AisleStatusResponse.aisle_number := 9999;
           AisleStatusResponse.status := AisleStatusEnum.NOT_EXIST;
           AisleStatusResponse.message := "Aisle does not exist" |}.
Proof.
  intros self.
  destruct (status_check_resolved_by_response (fun _ => "error") self 9999 10000 1%nat
              0x01 0x03 eq_refl ltac:(unfold is_byte; simpl; lia) ltac:(lia))
    as (resume & self' & Hd & _ & _ & Hr).
  exists resume, self'. split; [exact Hd|].
  change (Some AisleStatus.DOESNT_EXIST) with (aisle_status 0x03).
  by rewrite (Hr self').
Defined.

(** * The application *)

(** X28. The service starts whether or not the port opens. When it does not, the
    service runs in disconnected mode: it is not ready, health reports the VMC
    as not connected, and every dispense or status request is answered at once
    with the "VMC not connected" response, leaving the state as it is. When the
    port opens, the service is ready and [start] has queued one command, the
    REQUEST_SYNC frame with communication number 1 (the frames that the link
    loop handles from then on are events of their own). *)
Theorem startup_modes (str : exn -> string) (settings : Settings) (g : deps.t) :
  (exists g',
     lifespan_startup settings false g = Ok g' /\
     health.readiness_check g' = (false, "VMC not connected") /\
     HealthResponse.vmc_connected (health.health_check settings g') = false /\
     (forall request uuid4_hex future,
        endpoints.dispense_product str request uuid4_hex future g' =
          (inr (Return
                  {| DispenseResponse.success := false;
                     DispenseResponse.aisle_number := DispenseRequest.aisle_number request;
                     DispenseResponse.status := DispenseStatusEnum.FAILED;
                     DispenseResponse.message := "VMC not connected";
                     DispenseResponse.transaction_id := None |}), g')) /\
     (forall aisle_number future,
        endpoints.get_aisle_status str aisle_number future g' =
          (inr (Return
                  {| AisleStatusResponse.aisle_number := aisle_number;
                     AisleStatusResponse.status := AisleStatusEnum.NOT_EXIST;
                     AisleStatusResponse.message := "VMC not connected" |}), g'))) /\
  (exists g' controller,
     lifespan_startup settings true g = Ok g' /\
     deps.get_vmc_controller g' = Some controller /\
     health.readiness_check g' = (true, "Service ready") /\
     map cmd_info.packet (command_queue controller) = [[0xFA; 0xFB; 0x31; 0x01; 0x01; 0x30]] /\
     map cmd_info.command (command_queue controller) = [Command.REQUEST_SYNC] /\
     comm_number controller = 2).
Proof.
  split.
  - eexists. split; [reflexivity|]. by split_and!.
  - eexists _, _. split; [reflexivity|]. by split_and!.
Qed.

(** X29. Without the services (before the start of the application, and after
    [cleanup_services], whatever the state before) the service is not ready
    and the three endpoints that need the service raise HTTP 503 "VMC service
    not initialized"; the endpoint that builds its request itself rejects an
    aisle number below 1 before it looks for the service. *)
Theorem without_services_503 (str : exn -> string) (g : deps.t)
    (request : DispenseRequest.t) (aisle_number : Z) (force : bool)
    (uuid4_hex : string) (future : Future) :
  let off := deps.cleanup_services g in
  let unavailable := HTTPException 503 "VMC service not initialized" in
  off = None /\
  health.readiness_check off = (false, "VMC not connected") /\
  endpoints.dispense_product str request uuid4_hex future off = (inl unavailable, off) /\
  endpoints.get_aisle_status str aisle_number future off = (inl unavailable, off) /\
  endpoints.dispense_from_aisle str aisle_number force uuid4_hex future off
    = (inl (if aisle_number <? 1 then ValidationError else unavailable), off).
Proof.
  cbv zeta. assert (Hoff : deps.cleanup_services g = None) by (by destruct g).
  rewrite Hoff. split_and!; try done.
  unfold endpoints.dispense_from_aisle. by destruct (aisle_number <? 1).
Qed.

(** * Synchronisation requests *)

(** X30. A REQUEST_SYNC frame from the VMC is answered twice: the ACK frame is
    written at once (when the port takes it), and exactly one REQUEST_SYNC
    command with the next communication number is appended to the queue, to be
    sent on a later POLL. The dispatch returns without raising and touches
    neither callback table. *)
Theorem sync_request_answered
    (self : VendingMachineController.t) (text : bytes) (now : Z) (io_ok : bool) :
  is_byte (comm_number self) ->
  let out := handle_received_packet Command.REQUEST_SYNC text now io_ok self in
  fst out = Ok tt /\
  trace (snd out) = trace self ++ (if serial_ok io_ok self then [Written ACK_frame] else []) /\
  comm_number (snd out) = comm_number self mod 255 + 1 /\
  dispense_callbacks (snd out) = dispense_callbacks self /\
  aisle_status_callbacks (snd out) = aisle_status_callbacks self /\
  exists frame e,
    create_packet Command.REQUEST_SYNC [comm_number self] = Ok frame /\
    command_queue (snd out) = command_queue self ++ [e] /\
    cmd_info.packet e = frame /\ cmd_info.command e = Command.REQUEST_SYNC /\
    cmd_info.waiting_ack e = false.
Proof.
  intros Hc.
  assert (Hsync : forall s, comm_number s = comm_number self ->
            request_info_sync s =
              (Ok true,
               set_command_queue
                 (command_queue s ++
                  [new_entry (max_retries s) Command.REQUEST_SYNC [comm_number self]
                     (frame_of Command.REQUEST_SYNC [comm_number self])])
                 (set_comm_number (comm_number self mod 255 + 1) s))).
  { intros s Hs. unfold request_info_sync, bind at 1.
    rewrite get_next_comm_number_eq, Hs.
    unfold bind at 1, lift at 1. rewrite bytes_of_bytes by solve_bytes.
    unfold bind. rewrite queue_command_eq by (solve_bytes || by vm_compute).
    reflexivity. }
  assert (Hframe : create_packet Command.REQUEST_SYNC [comm_number self]
                   = Ok (frame_of Command.REQUEST_SYNC [comm_number self]))
    by (apply create_packet_bytes; [solve_bytes|by vm_compute]).
  assert (Hout : handle_received_packet Command.REQUEST_SYNC text now io_ok self =
            let acked :=
              if serial_ok io_ok self
              then set_trace (trace self ++ [Written ACK_frame]) self else self in
            (Ok tt,
             set_command_queue
               (command_queue self ++
                [new_entry (max_retries self) Command.REQUEST_SYNC [comm_number self]
                   (frame_of Command.REQUEST_SYNC [comm_number self])])
               (set_comm_number (comm_number self mod 255 + 1) acked))).
  { unfold handle_received_packet. unfold bind at 1. rewrite send_ack_serial_ok.
    destruct (serial_ok io_ok self); unfold bind; by rewrite Hsync. }
  cbv zeta. rewrite Hout. cbv zeta.
  destruct (serial_ok io_ok self); simpl; rewrite ?app_nil_r;
    split_and!; try done; eexists _, _; by split_and!.
Qed.

Lemma sync_request_answered_witness :
  let out :=
    handle_received_packet Command.REQUEST_SYNC [0x07] 0 true
      (snd (connect true (__init__ 5))) in
  trace (snd out) = [Written ACK_frame] /\
  map cmd_info.packet (command_queue (snd out)) = [[0xFA; 0xFB; 0x31; 0x01; 0x01; 0x30]].
Proof.
  intros out.
  destruct (sync_request_answered (snd (connect true (__init__ 5))) [0x07] 0 true
              ltac:(unfold is_byte; simpl; lia))
    as (_ & Ht & _ & _ & _ & frame & e & Hf & Hq & Hp & _).
  split; [exact Ht|].
  unfold out. rewrite Hq. simpl. rewrite Hp.
  vm_compute in Hf. injection Hf as <-. reflexivity.
Defined.
